(** * Schulnoten-Manager (NotenOderSo.py): grade scale, averages, store and
    the mutating form handlers, embedded shallowly and checked against the
    specification.

    Conventions of the embedding.
    - Python numbers.  Grades and averages are Python floats, that is
      binary64 numbers: they are Rocq's primitive floats, and [+], [/],
      [<], [<=] and [==] are the operations of the processor.  [sum] adds
      from left to right, one rounding per addition.  [round(x, ndigits)]
      rounds the exact value of [x] to the nearest multiple of
      [10^-ndigits], ties to the even multiple, and returns the float
      nearest to that decimal number ([py_round]).
    - Python dicts are [dict]s: the entries in insertion order, no key
      twice.  Assigning to a key that is present keeps its place, a new key
      goes to the end, [del] removes the entry.
    - Python strings are Rocq strings holding their UTF-8 bytes.  [strip]
      removes the 29 white-space characters of [str.isspace] at both ends.
      [str.lower], which follows the Unicode tables, is a parameter
      ([str_lower]), as are the texts Python makes of a float ([float_repr],
      [format_2f]).
    - Stored documents have the shape the program writes: every student has
      a name, a class and subjects, every subject a name and grades.  Name
      and class are what the form or a CSV cell gave: a [str], or the
      number or truth value pandas made of the cell ([pyval]).
    - Effects.  A handler runs in the monad [M]: it threads the Streamlit
      session state, can raise a Python exception and appends to a log of
      what the user sees ([st.warning], [st.error], [st.success]) and of
      the calls of [save_data] and [st.rerun].  State changes and log
      entries made before an exception is raised are kept, as in Python. *)

From Stdlib Require Import QArith Qround Qabs Qpower Lqa ZArith Lia Eqdep_dec.
From Stdlib Require Import Floats.
From Stdlib Require Import Ascii String List.
From stdpp Require Import strings list pretty.

Set Warnings "-inexact-float".
Local Open Scope Q_scope.

(* ================================================================== *)
(** * Part I: the program                                              *)
(* ================================================================== *)

(** ** Python built-ins used by the script *)

(** [float(n)] for an [int]: the nearest float, ties to even. *)
Definition py_float (n : Z) : float :=
  SF2Prim (binary_normalize prec emax n 0 false).

(** [sum(l)]: [0 + l[0] + l[1] + ...], from left to right. *)
Definition py_sum (l : list float) : float := fold_left PrimFloat.add l 0%float.

(** [len(l)] where it is used as a divisor of a float. *)
Definition py_len {A : Type} (l : list A) : float := py_float (Z.of_nat (length l)).

(** Nearest integer, ties to even. *)
Definition round_half_even (x : Q) : Z :=
  let f := Qfloor x in
  match Qcompare (x - inject_Z f) (1 # 2) with
  | Lt => f
  | Gt => (f + 1)%Z
  | Eq => if Z.even f then f else (f + 1)%Z
  end.

(** The float nearest to [n / scale], with the sign given: what Python
    makes of the decimal numeral with the digits of [n]. *)
Definition decimal_float (negative : bool) (n : Z) (scale : positive) : float :=
  match n with
  | Zpos p =>
      SF2Prim (SFdiv prec emax (S754_finite negative p 0) (S754_finite false scale 0))
  | _ => if negative then (-0)%float else 0%float
  end.

(** [round(x, ndigits)] for [ndigits >= 0]: zeros, infinities and NaN are
    returned as they are; a finite [x] is rounded on its exact value. *)
Definition py_round (x : float) (ndigits : nat) : float :=
  match Prim2SF x with
  | S754_finite negative m e =>
      let scale := Z.to_pos (10 ^ Z.of_nat ndigits) in
      let magnitude := inject_Z (Zpos m) * 2 ^ e in
      decimal_float negative (round_half_even (magnitude * inject_Z (Zpos scale))) scale
  | _ => x
  end.


(** [s.strip()], [s.replace(" ", "_")] and [needle in hay].  The white
    space of [str.isspace]: U+0009-000D, U+001C-0020, U+0085, U+00A0,
    U+1680, U+2000-200A, U+2028, U+2029, U+202F, U+205F and U+3000, by
    the length of the UTF-8 encoding. *)
Definition space1 (c : ascii) : bool :=
  let n := nat_of_ascii c in
  ((9 <=? n)%nat && (n <=? 13)%nat) || ((28 <=? n)%nat && (n <=? 32)%nat).

Definition space2 (c1 c2 : ascii) : bool :=
  (nat_of_ascii c1 =? 194)%nat &&
  ((nat_of_ascii c2 =? 133)%nat || (nat_of_ascii c2 =? 160)%nat).

Definition space3 (c1 c2 c3 : ascii) : bool :=
  let n1 := nat_of_ascii c1 in
  let n2 := nat_of_ascii c2 in
  let n3 := nat_of_ascii c3 in
  ((n1 =? 225)%nat && (n2 =? 154)%nat && (n3 =? 128)%nat) ||
  ((n1 =? 226)%nat && (n2 =? 128)%nat &&
   (((128 <=? n3)%nat && (n3 <=? 138)%nat) ||
    (n3 =? 168)%nat || (n3 =? 169)%nat || (n3 =? 175)%nat)) ||
  ((n1 =? 226)%nat && (n2 =? 129)%nat && (n3 =? 159)%nat) ||
  ((n1 =? 227)%nat && (n2 =? 128)%nat && (n3 =? 128)%nat).

Fixpoint lstrip (s : string) : string :=
  match s with
  | String c1 s1 =>
      if space1 c1 then lstrip s1
      else
        match s1 with
        | String c2 s2 =>
            if space2 c1 c2 then lstrip s2
            else
              match s2 with
              | String c3 s3 => if space3 c1 c2 c3 then lstrip s3 else s
              | EmptyString => s
              end
        | EmptyString => s
        end
  | EmptyString => s
  end.

(** The bytes of a string from the last to the first, and the white space
    removed from the front of such a sequence. *)
Definition bytes_rev (s : string) : list ascii := rev (list_ascii_of_string s).

Fixpoint lstrip_rev (l : list ascii) : list ascii :=
  match l with
  | c1 :: l1 =>
      if space1 c1 then lstrip_rev l1
      else
        match l1 with
        | c2 :: l2 =>
            if space2 c2 c1 then lstrip_rev l2
            else
              match l2 with
              | c3 :: l3 => if space3 c3 c2 c1 then lstrip_rev l3 else l
              | [] => l
              end
        | [] => l
        end
  | [] => l
  end.

Definition rstrip (s : string) : string :=
  string_of_list_ascii (rev (lstrip_rev (bytes_rev s))).

Definition strip (s : string) : string := rstrip (lstrip s).

Fixpoint string_map (f : ascii -> ascii) (s : string) : string :=
  match s with
  | EmptyString => EmptyString
  | String c s' => String (f c) (string_map f s')
  end.

Definition replace_space_underscore (s : string) : string :=
  string_map (fun c => if Ascii.eqb c " " then "_"%char else c) s.


(** Exceptions the script can meet, and the outcome of a computation. *)
Inductive exn : Type :=
  | KeyError (key : string)
  | IndexError
  | ValueError
  | AttributeError (type_name attribute : string)
  | JSONDecodeError
  | OSError.

Inductive result (A : Type) : Type :=
  | Ok (a : A)
  | Raise (e : exn).
Arguments Ok {A} a.
Arguments Raise {A} e.

(** ** Python dicts with [str] keys *)

(** The entries of a dict in insertion order. *)
Fixpoint assoc_get {V : Type} (l : list (string * V)) (k : string) : option V :=
  match l with
  | [] => None
  | (k', v) :: l' => if String.eqb k' k then Some v else assoc_get l' k
  end.

Fixpoint assoc_set {V : Type} (l : list (string * V)) (k : string) (v : V)
    : list (string * V) :=
  match l with
  | [] => [(k, v)]
  | (k', v') :: l' =>
      if String.eqb k' k then (k', v) :: l' else (k', v') :: assoc_set l' k v
  end.

Fixpoint assoc_del {V : Type} (l : list (string * V)) (k : string) : list (string * V) :=
  match l with
  | [] => []
  | (k', v') :: l' =>
      if String.eqb k' k then assoc_del l' k else (k', v') :: assoc_del l' k
  end.

Definition has_key {V : Type} (l : list (string * V)) (k : string) : bool :=
  match assoc_get l k with
  | Some _ => true
  | None => false
  end.

Fixpoint unique_keys {V : Type} (l : list (string * V)) : bool :=
  match l with
  | [] => true
  | (k, _) :: l' => negb (has_key l' k) && unique_keys l'
  end.

Record dict (V : Type) : Type := mkDict {
  dict_items : list (string * V);
  dict_unique : unique_keys dict_items = true
}.
Arguments mkDict {V} dict_items dict_unique.
Arguments dict_items {V} d.
Arguments dict_unique {V} d.

Definition dict_empty {V : Type} : dict V := mkDict [] eq_refl.

Definition dict_checked {V : Type} (l : list (string * V)) (b : bool)
    : unique_keys l = b -> dict V :=
  match b with
  | true => fun unique => mkDict l unique
  | false => fun _ => dict_empty
  end.

(** The dict with the entries [l] (the empty dict when [l] has a key
    twice, which the operations below never produce). *)
Definition dict_of_items {V : Type} (l : list (string * V)) : dict V :=
  dict_checked l (unique_keys l) eq_refl.

(** [d.get(k)], [d[k] = v], [del d[k]], [{}], [len(d)], [{k: v}]. *)
#[global] Instance dict_lookup {V : Type} : Lookup string V (dict V) :=
  fun k d => assoc_get (dict_items d) k.

#[global] Instance dict_insert {V : Type} : Insert string V (dict V) :=
  fun k v d => dict_of_items (assoc_set (dict_items d) k v).

#[global] Instance dict_delete {V : Type} : Delete string (dict V) :=
  fun k d => dict_of_items (assoc_del (dict_items d) k).

#[global] Instance dict_empty_inst {V : Type} : Empty (dict V) := dict_empty.

#[global] Instance dict_size {V : Type} : Size (dict V) :=
  fun d => length (dict_items d).

#[global] Instance dict_singleton {V : Type} : SingletonM string V (dict V) :=
  fun k v => dict_of_items [(k, v)].

(** [d.keys()] and [d.values()]; [d.items()] is [dict_items]. *)
Definition dict_keys {V : Type} (d : dict V) : list string := map fst (dict_items d).

Definition dict_values {V : Type} (d : dict V) : list V := map snd (dict_items d).

(** ** Values of a cell or a field *)

(** What a field of a student or a cell of an imported row can hold: a
    [str], or the [int], [float] or [bool] pandas made of the cell (an
    empty cell is the float NaN). *)
Inductive pyval : Type :=
  | PyStr (s : string)
  | PyInt (n : Z)
  | PyFloat (x : float)
  | PyBool (b : bool).

Definition py_type_name (v : pyval) : string :=
  match v with
  | PyStr _ => "str"
  | PyInt _ => "int"
  | PyFloat _ => "float"
  | PyBool _ => "bool"
  end.

(** ** Konfiguration & Hilfsdaten (lines 18-29) *)

Definition NOTE_TEXT_TO_DECIMAL : list (string * float) :=
  [ ("1+", 0.7); ("1", 1.0); ("1-", 1.3);
    ("2+", 1.7); ("2", 2.0); ("2-", 2.3);
    ("3+", 2.7); ("3", 3.0); ("3-", 3.3);
    ("4+", 3.7); ("4", 4.0); ("4-", 4.3);
    ("5+", 4.7); ("5", 5.0); ("5-", 5.3);
    ("6", 6.0) ]%float.

Definition ALL_GRADE_OPTIONS : list string := map fst NOTE_TEXT_TO_DECIMAL.

(** [NOTE_TEXT_TO_DECIMAL[tag]]: the value, or [KeyError]. *)
Fixpoint table_get (table : list (string * float)) (tag : string) : option float :=
  match table with
  | [] => None
  | (k, v) :: rest => if String.eqb k tag then Some v else table_get rest tag
  end.

Definition note_getitem (tag : string) : result float :=
  match table_get NOTE_TEXT_TO_DECIMAL tag with
  | Some v => Ok v
  | None => Raise (KeyError tag)
  end.

(** [[k for k,v in NOTE_TEXT_TO_DECIMAL.items() if v == grade]]
    (lines 307, 368, 393) and its element [0]. *)
Definition tags_with_value (grade : float) : list string :=
  map fst (filter (fun kv => (snd kv =? grade)%float) NOTE_TEXT_TO_DECIMAL).

Definition current_text (grade : float) : result string :=
  match tags_with_value grade with
  | [] => Raise IndexError
  | k :: _ => Ok k
  end.

(** [values.index(g)]: the first position whose value equals [g], or
    [ValueError]. *)
Fixpoint list_index (values : list float) (g : float) : result nat :=
  match values with
  | [] => Raise ValueError
  | v :: rest =>
      if (v =? g)%float then Ok 0%nat
      else
        match list_index rest g with
        | Ok i => Ok (S i)
        | Raise e => Raise e
        end
  end.

(** [list(NOTE_TEXT_TO_DECIMAL.keys())[list(NOTE_TEXT_TO_DECIMAL.values()).index(g)]]
    (line 287). *)
Definition grade_table_tag (g : float) : result string :=
  match list_index (map snd NOTE_TEXT_TO_DECIMAL) g with
  | Ok i =>
      match ALL_GRADE_OPTIONS !! i with
      | Some k => Ok k
      | None => Raise IndexError
      end
  | Raise e => Raise e
  end.

(** ** The record set *)

Record Subject : Type := mkSubject {
  subj_name : string;
  subj_grades : list float
}.

Record Student : Type := mkStudent {
  stud_name : pyval;
  stud_class : pyval;
  stud_subjects : dict Subject
}.

Abbreviation RecordSet := (dict Student).

(** ** Berechnungen (lines 64-77) *)

Definition calculate_subject_average (grades : list float) : option float :=
  match grades with
  | [] => None
  | _ => Some (py_round (py_sum grades / py_len grades) 2)
  end.

(** The loop of lines 70-74: [subject_avgs.append(avg)] for every subject
    whose average is not [None]. *)
Definition collect_subject_avgs (subjects : list Subject) : list float :=
  fold_left
    (fun subject_avgs subj =>
       match calculate_subject_average (subj_grades subj) with
       | Some avg => subject_avgs ++ [avg]
       | None => subject_avgs
       end)
    subjects [].

Definition calculate_student_average (subjects_data : dict Subject) : option float :=
  let subject_avgs := collect_subject_avgs (dict_values subjects_data) in
  match subject_avgs with
  | [] => None
  | _ => Some (py_round (py_sum subject_avgs / py_len subject_avgs) 2)
  end.

(** ** Statistiken: Gesamtdurchschnitt der Klasse (lines 344-362) *)

(** The loop of lines 348-352 over [data.values()]. *)
Definition collect_student_avgs (students : list Student) : list float :=
  fold_left
    (fun student_avgs student =>
       match calculate_student_average (stud_subjects student) with
       | Some student_avg => student_avgs ++ [student_avg]
       | None => student_avgs
       end)
    students [].

(** Lines 360-361: [total_avg], present only [if student_avgs]. *)
Definition class_total_avg (students : list Student) : option float :=
  let student_avgs := collect_student_avgs students in
  match student_avgs with
  | [] => None
  | _ => Some (py_round (py_sum student_avgs / py_len student_avgs) 2)
  end.

Definition statistics_total_avg (data : RecordSet) : option float :=
  class_total_avg (dict_values data).

(** ** Session state, effects and the handler monad *)

Record session_state : Type := mkSession {
  data : RecordSet;
  selected_student : option string;
  confirm_delete_student : option string
}.

Inductive event : Type :=
  | Warning (msg : string)
  | Error (msg : string)
  | Success (msg : string)
  | SaveData (d : RecordSet)
  | Rerun.

Definition M (A : Type) : Type :=
  session_state -> result A * session_state * list event.

#[global] Instance M_ret : MRet M := fun A a s => (Ok a, s, []).

#[global] Instance M_bind : MBind M := fun A B k m s =>
  match m s with
  | (Ok a, s1, out1) => let '(r, s2, out2) := k a s1 in (r, s2, out1 ++ out2)
  | (Raise e, s1, out1) => (Raise e, s1, out1)
  end.

Definition raise {A : Type} (e : exn) : M A := fun s => (Raise e, s, []).

Definition lift_result {A : Type} (r : result A) : M A := fun s => (r, s, []).

(** [try: body except: handler] *)
Definition try_except {A : Type} (body : M A) (handler : exn -> M A) : M A := fun s =>
  match body s with
  | (Raise e, s1, out1) => let '(r, s2, out2) := handler e s1 in (r, s2, out1 ++ out2)
  | done => done
  end.

Fixpoint for_each {A : Type} (l : list A) (body : A -> M unit) : M unit :=
  match l with
  | [] => mret tt
  | x :: l' => body x ;; for_each l' body
  end.

Definition get_data : M RecordSet := fun s => (Ok (data s), s, []).

Definition set_data (d : RecordSet) : M unit := fun s =>
  (Ok tt, mkSession d (selected_student s) (confirm_delete_student s), []).

Definition set_selected_student (sel : option string) : M unit := fun s =>
  (Ok tt, mkSession (data s) sel (confirm_delete_student s), []).

Definition emit (e : event) : M unit := fun s => (Ok tt, s, [e]).

Definition st_warning (msg : string) : M unit := emit (Warning msg).
Definition st_error (msg : string) : M unit := emit (Error msg).
Definition st_success (msg : string) : M unit := emit (Success msg).
Definition st_rerun : M unit := emit Rerun.

(** [d[k]] *)
Definition dict_getitem {V : Type} (d : dict V) (k : string) : M V :=
  match d !! k with
  | Some v => mret v
  | None => raise (KeyError k)
  end.

(** ** Daten laden / speichern (lines 46-58) *)

(** What the script sees of [DATA_FILE]: whether [os.path.exists] holds,
    and what opening and reading it gives. *)
Record filesystem : Type := mkFs {
  path_exists : bool;
  read_file : result string
}.

Definition load_warning : string :=
  "Fehler beim Lesen der Datenbank → neue leere DB erstellt".

Section Store.
(** [json.load] on the text of the file: the decoded record set, or the
    exception it raises. *)
Variable json_load : string -> result RecordSet.

Definition load_data (fs : filesystem) : M RecordSet :=
  if path_exists fs then
    try_except
      (text ← lift_result (read_file fs); lift_result (json_load text))
      (fun _ =>
         st_warning load_warning;;
         mret ∅)
  else mret ∅.
End Store.

(** [save_data(data)]: one rewrite of the whole document. *)
Definition save_data (d : RecordSet) : M unit := emit (SaveData d).

(** ** Seite "Schüler & Noten bearbeiten" *)

(** [datetime.now()] and [strftime('%Y%m%d%H%M%S')]. *)
Record datetime : Type := mkDatetime {
  year : N; month : N; day : N;
  hour : N; minute : N; second : N;
  microsecond : N
}.

Definition pad2 (n : N) : string :=
  if (n <? 10)%N then "0" +:+ pretty n else pretty n.

Definition strftime_YmdHMS (t : datetime) : string :=
  pretty (year t) +:+ pad2 (month t) +:+ pad2 (day t) +:+
  pad2 (hour t) +:+ pad2 (minute t) +:+ pad2 (second t).

(** Line 205. *)
Definition new_student_id (d : RecordSet) (now : datetime) : string :=
  "schueler_" +:+ pretty (size d + 1)%nat +:+ "_" +:+ strftime_YmdHMS now.

(** Form "new_student_form", submitted (lines 201-214). *)
Definition new_student_submit (new_name new_class : string) (now : datetime) : M unit :=
  if decide (strip new_name = "") then
    st_error "Name darf nicht leer sein!"
  else
    d ← get_data;
    let new_id := new_student_id d now in
    set_data (<[new_id := mkStudent (PyStr (strip new_name)) (PyStr (strip new_class)) ∅]> d);;
    set_selected_student (Some new_id);;
    d ← get_data;
    save_data d;;
    st_success ("Schüler " +:+ new_name +:+ " angelegt!");;
    st_rerun.

(** The handlers below belong to a selected student: the page has read
    [student = st.session_state.data[student_id]] (line 220) before any of
    them; a handler reads it where it first uses it. *)

(** Button "Änderungen speichern" (lines 228-236). *)
Definition rename_student_click (student_id new_name new_class : string) : M unit :=
  if decide (strip new_name = "") then
    st_error "Name darf nicht leer sein!"
  else
    d ← get_data;
    student ← dict_getitem d student_id;
    set_data (<[student_id :=
                mkStudent (PyStr (strip new_name)) (PyStr (strip new_class))
                  (stud_subjects student)]> d);;
    d ← get_data;
    save_data d;;
    st_success "Daten aktualisiert";;
    st_rerun.

(** Button "Ja, löschen" (lines 246-251). *)
Definition delete_student_click (student_id : string) : M unit :=
  d ← get_data;
  _ ← dict_getitem d student_id;
  set_data (delete student_id d);;
  set_selected_student None;;
  d ← get_data;
  save_data d;;
  st_success "Schüler gelöscht";;
  st_rerun.

(** [str.lower] on strings of ASCII characters, and [repr] on the floats
    that are whole numbers below 10^16, on NaN and on the infinities: what
    stands for the parameters [str_lower] and [float_repr] in the worked
    examples. *)
Definition ascii_lower (c : ascii) : ascii :=
  let n := nat_of_ascii c in
  if (65 <=? n)%nat && (n <=? 90)%nat then ascii_of_nat (n + 32) else c.

Definition lower_ascii (s : string) : string := string_map ascii_lower s.

Definition repr_whole (x : float) : string :=
  match Prim2SF x with
  | S754_nan => "nan"
  | S754_infinity negative => if negative then "-inf" else "inf"
  | S754_zero negative => if negative then "-0.0" else "0.0"
  | S754_finite negative m e =>
      (if negative then "-" else "") +:+ pretty (Z.shiftl (Zpos m) e) +:+ ".0"
  end.

Section Script.
(** [s.lower()], and [repr(x)] of a float. *)
Variable str_lower : string -> string.
Variable float_repr : float -> string.

(** [str(v)], also what an f-string makes of [v]. *)
Definition py_str (v : pyval) : string :=
  match v with
  | PyStr s => s
  | PyInt n => pretty n
  | PyFloat x => float_repr x
  | PyBool b => if b then "True" else "False"
  end.

(** The receiver of a method of [str]: a value of another type does not
    have the method. *)
Definition str_receiver (attribute : string) (v : pyval) : result string :=
  match v with
  | PyStr s => Ok s
  | _ => Raise (AttributeError (py_type_name v) attribute)
  end.

(** Line 263: the subject key of the add-subject form. *)
Definition subject_key_of_input (new_subject : string) : string :=
  replace_space_underscore (str_lower (strip new_subject)).

(** Button "Fach hinzufügen" (lines 262-270). *)
Definition add_subject_click (student_id new_subject : string) : M unit :=
  if decide (strip new_subject = "") then mret tt
  else
    d ← get_data;
    student ← dict_getitem d student_id;
    let subjects := stud_subjects student in
    let subj_key := subject_key_of_input new_subject in
    (match subjects !! subj_key with
     | None =>
         set_data (<[student_id :=
                     mkStudent (stud_name student) (stud_class student)
                       (<[subj_key := mkSubject (strip new_subject) []]> subjects)]> d);;
         d ← get_data;
         save_data d;;
         st_success ("Fach '" +:+ new_subject +:+ "' hinzugefügt")
     | Some _ =>
         st_warning "Fach existiert bereits"
     end);;
    st_rerun.

(** Replacing the subject mapping of a student ([subjects] is the dict
    inside [data[student_id]], so a change of it is a change of [data]). *)
Definition set_subjects (student_id : string) (subjects : dict Subject) : M unit :=
  d ← get_data;
  student ← dict_getitem d student_id;
  set_data (<[student_id := mkStudent (stud_name student) (stud_class student) subjects]> d).

(** Replacing the grade list of a subject. *)
Definition set_grades (student_id subj_key : string) (grades : list float) : M unit :=
  d ← get_data;
  student ← dict_getitem d student_id;
  subj ← dict_getitem (stud_subjects student) subj_key;
  set_subjects student_id
    (<[subj_key := mkSubject (subj_name subj) grades]> (stud_subjects student)).

(** [data[sid]["subjects"][subj_key]["grades"].append(decimal)]
    (lines 299, 430). *)
Definition append_grade (sid subj_key : string) (decimal : float) : M unit :=
  d ← get_data;
  student ← dict_getitem d sid;
  subj ← dict_getitem (stud_subjects student) subj_key;
  set_grades sid subj_key (subj_grades subj ++ [decimal]).

(** Button "×" of a subject (lines 277-280). *)
Definition delete_subject_click (student_id subj_key : string) : M unit :=
  d ← get_data;
  student ← dict_getitem d student_id;
  _ ← dict_getitem (stud_subjects student) subj_key;
  set_subjects student_id (delete subj_key (stud_subjects student));;
  d ← get_data;
  save_data d;;
  st_rerun.

(** The column "Note" of the grade table (lines 285-287), built when the
    subject has grades. *)
Fixpoint grade_table_tags (grades : list float) : result (list string) :=
  match grades with
  | [] => Ok []
  | g :: rest =>
      match grade_table_tag g with
      | Ok tag =>
          match grade_table_tags rest with
          | Ok tags => Ok (tag :: tags)
          | Raise e => Raise e
          end
      | Raise e => Raise e
      end
  end.

(** Button "Note speichern" with the selection [new_grade], one of "—" and
    the tags (lines 297-301). *)
Definition add_grade_click (student_id subj_key new_grade : string) : M unit :=
  if decide (new_grade = "—") then mret tt
  else
    decimal ← lift_result (note_getitem new_grade);
    append_grade student_id subj_key decimal;;
    d ← get_data;
    save_data d;;
    st_rerun.

(** The grades the loop of line 304 walks. *)
Definition grades_of_subject (student_id subj_key : string) : M (list float) :=
  d ← get_data;
  student ← dict_getitem d student_id;
  subj ← dict_getitem (stud_subjects student) subj_key;
  mret (subj_grades subj).

(** Select box "Note i+1" set to [edited] (lines 304-317).  The loop
    makes a select box for the positions of [enumerate(grades)] only. *)
Definition edit_grade_select (student_id subj_key : string) (i : nat) (edited : string) : M unit :=
  grades ← grades_of_subject student_id subj_key;
  match grades !! i with
  | None => mret tt
  | Some grade =>
      current ← lift_result (current_text grade);
      if decide (edited = current) then mret tt
      else
        decimal ← lift_result (note_getitem edited);
        set_grades student_id subj_key (<[i := decimal]> grades);;
        d ← get_data;
        save_data d;;
        st_rerun
  end.

(** Button "×" of the grade at position [i] (lines 304-307, 319-323). *)
Definition delete_grade_click (student_id subj_key : string) (i : nat) : M unit :=
  grades ← grades_of_subject student_id subj_key;
  match grades !! i with
  | None => mret tt
  | Some grade =>
      _ ← lift_result (current_text grade);
      set_grades student_id subj_key (delete i grades);;
      d ← get_data;
      save_data d;;
      st_rerun
  end.

(** ** Seite "Statistiken": CSV-Import (lines 415-435) *)

(** One row of [df_import], by column: "Schüler-ID", "Name", "Klasse",
    "Fach" and "Note (Text)".  A cell holds what pandas made of it; a
    column the frame does not have is [None]. *)
Record Row : Type := mkRow {
  row_id : option pyval;
  row_name : option pyval;
  row_klasse : option pyval;
  row_fach : option pyval;
  row_note_text : option pyval
}.

(** [row[column]] *)
Definition row_getitem (column : string) (cell : option pyval) : M pyval :=
  match cell with
  | Some v => mret v
  | None => raise (KeyError column)
  end.

(** Line 425. *)
Definition subject_key_of_fach (subj_name : string) : string :=
  replace_space_underscore (str_lower subj_name).

(** [NOTE_TEXT_TO_DECIMAL[v]] for a cell: no key of the table equals a
    value that is not a [str]. *)
Definition note_of_cell (v : pyval) : result float :=
  match v with
  | PyStr tag => note_getitem tag
  | _ => Raise (KeyError (py_str v))
  end.

(** The body of the loop over the rows (lines 417-432). *)
Definition import_row (row : Row) : M unit :=
  id_cell ← row_getitem "Schüler-ID" (row_id row);
  let sid := py_str id_cell in
  d ← get_data;
  match d !! sid with
  | None =>
      name ← row_getitem "Name" (row_name row);
      set_data (<[sid := mkStudent name (default (PyStr "") (row_klasse row)) ∅]> d)
  | Some _ => mret tt
  end;;
  subj_cell ← row_getitem "Fach" (row_fach row);
  subj_name ← lift_result (str_receiver "lower" subj_cell);
  let subj_key := subject_key_of_fach subj_name in
  d ← get_data;
  student ← dict_getitem d sid;
  match stud_subjects student !! subj_key with
  | None =>
      set_subjects sid (<[subj_key := mkSubject subj_name []]> (stud_subjects student))
  | Some _ => mret tt
  end;;
  try_except
    (tag ← row_getitem "Note (Text)" (row_note_text row);
     decimal ← lift_result (note_of_cell tag);
     append_grade sid subj_key decimal)
    (fun e =>
       match e with
       | KeyError _ =>
           tag ← row_getitem "Note (Text)" (row_note_text row);
           st_warning ("Ungültige Note übersprungen: " +:+ py_str tag)
       | _ => raise e
       end).

Definition import_rows (df_import : list Row) : M unit :=
  for_each df_import import_row.

(** [str(e)] *)
Definition exn_str (e : exn) : string :=
  match e with
  | KeyError k => "'" +:+ k +:+ "'"
  | IndexError => "list index out of range"
  | ValueError => "ValueError"
  | AttributeError type_name attribute =>
      "'" +:+ type_name +:+ "' object has no attribute '" +:+ attribute +:+ "'"
  | JSONDecodeError => "JSONDecodeError"
  | OSError => "OSError"
  end.

(** Button "Import jetzt ausführen", inside [try ... except Exception]
    (lines 410-437). *)
Definition import_click (df_import : list Row) : M unit :=
  try_except
    (import_rows df_import;;
     d ← get_data;
     save_data d;;
     st_success "Import abgeschlossen!";;
     st_rerun)
    (fun e => st_error ("Fehler beim Einlesen der CSV: " +:+ exn_str e)).

(** One user action that can change the record set, and its handler. *)
Inductive action : Type :=
  | NewStudent (new_name new_class : string) (now : datetime)
  | RenameStudent (student_id new_name new_class : string)
  | DeleteStudent (student_id : string)
  | AddSubject (student_id new_subject : string)
  | DeleteSubject (student_id subj_key : string)
  | AddGrade (student_id subj_key new_grade : string)
  | EditGrade (student_id subj_key : string) (i : nat) (edited : string)
  | DeleteGrade (student_id subj_key : string) (i : nat)
  | ImportCsv (df_import : list Row).

Definition perform (a : action) : M unit :=
  match a with
  | NewStudent new_name new_class now => new_student_submit new_name new_class now
  | RenameStudent student_id new_name new_class =>
      rename_student_click student_id new_name new_class
  | DeleteStudent student_id => delete_student_click student_id
  | AddSubject student_id new_subject => add_subject_click student_id new_subject
  | DeleteSubject student_id subj_key => delete_subject_click student_id subj_key
  | AddGrade student_id subj_key new_grade => add_grade_click student_id subj_key new_grade
  | EditGrade student_id subj_key i edited => edit_grade_select student_id subj_key i edited
  | DeleteGrade student_id subj_key i => delete_grade_click student_id subj_key i
  | ImportCsv df_import => import_click df_import
  end.

(** ** Farben und Emojis (lines 32-40, 79-90) *)

Definition color_green : string := "background-color: #d4edda; color: #155724;".
Definition color_yellow : string := "background-color: #fff3cd; color: #856404;".
Definition color_red : string := "background-color: #f8d7da; color: #721c24;".
Definition color_grey : string := "background-color: #6c757d; color: white;".

Definition get_note_color (decimal_grade : float) : string :=
  if (decimal_grade <? 2.0)%float then color_green
  else if (decimal_grade <? 4.0)%float then color_yellow
  else if (decimal_grade <? 6.0)%float then color_red
  else color_grey.

Definition grade_to_emoji (avg : option float) : string :=
  match avg with
  | None => "—"
  | Some avg =>
      if (avg <=? 1.3)%float then "😊👍"
      else if (avg <=? 2.3)%float then "🙂"
      else if (avg <=? 3.3)%float then "😐"
      else if (avg <=? 4.3)%float then "😕"
      else "😟"
  end.

(** ** Seite "Statistiken": Notenverteilung und CSV-Export *)

(** A [for] loop over [l] that updates a local value and stops at the
    first exception. *)
Fixpoint for_result {A S : Type} (l : list A) (body : S -> A -> result S) (acc : S)
    : result S :=
  match l with
  | [] => Ok acc
  | x :: l' =>
      match body acc x with
      | Ok acc' => for_result l' body acc'
      | Raise e => Raise e
      end
  end.

(** Lines 344-356: [all_grades], extended subject by subject. *)
Definition all_grades (d : RecordSet) : list float :=
  fold_left
    (fun all_grades student =>
       fold_left
         (fun all_grades subj_item => all_grades ++ subj_grades (snd subj_item))
         (dict_items (stud_subjects student)) all_grades)
    (dict_values d) [].

(** Lines 366-369: the number of grades per tag. *)
Definition count_grade (grade_text_counts : dict nat) (g : float) : result (dict nat) :=
  match current_text g with
  | Ok text => Ok (<[text := (default 0 (grade_text_counts !! text) + 1)%nat]>
                     grade_text_counts)
  | Raise e => Raise e
  end.

Definition grade_text_counts (grades : list float) : result (dict nat) :=
  for_result grades count_grade ∅.

(** One entry of [export_rows] (lines 388-395), by column. *)
Record ExportRow : Type := mkExportRow {
  ex_id : string;
  ex_name : pyval;
  ex_klasse : pyval;
  ex_fach : string;
  ex_note_text : string;
  ex_note_dezimal : float
}.

Definition export_grade (sid : string) (s : Student) (subj : Subject)
    (export_rows : list ExportRow) (grade : float) : result (list ExportRow) :=
  match current_text grade with
  | Ok text =>
      Ok (export_rows ++
          [mkExportRow sid (stud_name s) (stud_class s) (subj_name subj) text grade])
  | Raise e => Raise e
  end.

(** Lines 384-395 of [convert_df_to_csv]: the list [export_rows].  The data
    frame made of it and its CSV text are the work of pandas. *)
Definition build_export_rows (d : RecordSet) : result (list ExportRow) :=
  for_result (dict_items d)
    (fun export_rows item =>
       let sid := fst item in
       let s := snd item in
       for_result (dict_items (stud_subjects s))
         (fun export_rows subj_item =>
            for_result (subj_grades (snd subj_item))
              (export_grade sid s (snd subj_item)) export_rows)
         export_rows)
    [].

(** ** Seite "Schülerübersicht" (lines 125-145) *)



Section Overview.
(** [f"{avg:.2f}"], the number formatted by Python. *)
Variable format_2f : float -> string.



End Overview.

(** ** Vocabulary of the properties *)





Definition subject_average_of (subj : Subject) : option float :=
  calculate_subject_average (subj_grades subj).

Definition student_average_of (student : Student) : option float :=
  calculate_student_average (stud_subjects student).


(** The last step of the three average computations: nothing for no
    values, else their rounded mean. *)
Definition rounded_mean (avgs : list float) : option float :=
  match avgs with
  | [] => None
  | _ => Some (py_round (py_sum avgs / py_len avgs) 2)
  end.

(** Every stored grade is a value of the grade table. *)
Definition on_scale (g : float) : Prop := In g (map snd NOTE_TEXT_TO_DECIMAL).

(** The grades stored for subject [key] of student [sid]; none when the
    student or the subject does not exist. *)
Definition grades_at (d : RecordSet) (sid key : string) : list float :=
  match d !! sid with
  | Some student =>
      match stud_subjects student !! key with
      | Some subj => subj_grades subj
      | None => []
      end
  | None => []
  end.

(** [new] extends [old]: same display name, the old grades first. *)
Definition subject_extended (old new : Subject) : Prop :=
  subj_name new = subj_name old /\
  subj_grades old `prefix_of` subj_grades new.

Definition student_extended (old new : Student) : Prop :=
  stud_name new = stud_name old /\
  stud_class new = stud_class old /\
  forall (key : string) (subj : Subject),
    stud_subjects old !! key = Some subj ->
    exists subj' : Subject,
      stud_subjects new !! key = Some subj' /\ subject_extended subj subj'.

Definition record_set_extended (old new : RecordSet) : Prop :=
  forall (sid : string) (student : Student),
    old !! sid = Some student ->
    exists student' : Student,
      new !! sid = Some student' /\ student_extended student student'.

Definition with_data (s : session_state) (d : RecordSet) : session_state :=
  mkSession d (selected_student s) (confirm_delete_student s).

(** What one imported row does to the record set [d], read off the row.
    [row_student]: the id of the row and the student it addresses, made
    from the row when the id is unseen; nothing when the row has no id,
    or no name for an unseen id. *)
Definition row_student (row : Row) (d : RecordSet) : option (string * Student) :=
  match row_id row with
  | None => None
  | Some id_cell =>
      let sid := py_str id_cell in
      match d !! sid with
      | Some student => Some (sid, student)
      | None =>
          match row_name row with
          | Some name =>
              Some (sid, mkStudent name (default (PyStr "") (row_klasse row)) ∅)
          | None => None
          end
      end
  end.

(** The subject name of the row, when the cell is text. *)
Definition row_subject (row : Row) : option string :=
  match row_fach row with
  | Some (PyStr subj_name) => Some subj_name
  | _ => None
  end.

(** The grade of the row, when its tag is text and on the scale. *)
Definition row_grade (row : Row) : list float :=
  match row_note_text row with
  | Some (PyStr tag) =>
      match table_get NOTE_TEXT_TO_DECIMAL tag with
      | Some decimal => [decimal]
      | None => []
      end
  | _ => []
  end.

(** The exception that ends the row, if any: a column that is missing, or
    a subject cell that is not text. *)
Definition row_exception (row : Row) (d : RecordSet) : option exn :=
  match row_id row with
  | None => Some (KeyError "Schüler-ID")
  | Some id_cell =>
      match d !! py_str id_cell, row_name row with
      | None, None => Some (KeyError "Name")
      | _, _ =>
          match row_fach row with
          | None => Some (KeyError "Fach")
          | Some (PyStr _) =>
              match row_note_text row with
              | None => Some (KeyError "Note (Text)")
              | Some _ => None
              end
          | Some v => Some (AttributeError (py_type_name v) "lower")
          end
      end
  end.

(** The record set the row leaves, also when it ends in an exception. *)
Definition row_outcome (row : Row) (d : RecordSet) : RecordSet :=
  match row_student row d with
  | None => d
  | Some (sid, student) =>
      match row_subject row with
      | None => <[sid := student]> d
      | Some fach =>
          let key := subject_key_of_fach fach in
          let subj := default (mkSubject fach []) (stud_subjects student !! key) in
          <[sid := mkStudent (stud_name student) (stud_class student)
                     (<[key := mkSubject (subj_name subj) (subj_grades subj ++ row_grade row)]>
                        (stud_subjects student))]> d
      end
  end.

Definition invalid_note_warning (tag : pyval) : event :=
  Warning ("Ungültige Note übersprungen: " +:+ py_str tag).

(** The messages of a row that ends normally. *)
Definition row_messages (row : Row) : list event :=
  match row_note_text row with
  | Some tag =>
      match note_of_cell tag with
      | Ok _ => []
      | Raise _ => [invalid_note_warning tag]
      end
  | None => []
  end.

(** The rows one after the other, up to the first exception. *)
Fixpoint rows_run (rows : list Row) (d : RecordSet)
    : result unit * RecordSet * list event :=
  match rows with
  | [] => (Ok tt, d, [])
  | row :: rest =>
      match row_exception row d with
      | Some e => (Raise e, row_outcome row d, [])
      | None =>
          let '(r, d', out) := rows_run rest (row_outcome row d) in
          (r, d', row_messages row ++ out)
      end
  end.

(** The record sets passed to [save_data], oldest first. *)
Definition saved_documents (out : list event) : list RecordSet :=
  omap (fun e => match e with SaveData d => Some d | _ => None end) out.

(** The student id and the subject key a row addresses. *)
Definition row_target (row : Row) : option (string * string) :=
  match row_id row, row_subject row with
  | Some id_cell, Some fach => Some (py_str id_cell, subject_key_of_fach fach)
  | _, _ => None
  end.

(** A row with an id, a name, a subject that is text and a tag cell. *)
Definition row_complete (row : Row) : Prop :=
  is_Some (row_id row) /\ is_Some (row_name row) /\
  is_Some (row_subject row) /\ is_Some (row_note_text row).

(** The decimals the rows address to subject [key] of student [sid], in
    row order. *)
Definition imported_grades (rows : list Row) (sid key : string) : list float :=
  flat_map
    (fun row =>
       if decide (row_target row = Some (sid, key)) then row_grade row else [])
    rows.

Definition is_warning (e : event) : Prop := exists msg : string, e = Warning msg.

(** The rows of an import that end normally: those before the first
    exception. *)
Fixpoint processed_rows (rows : list Row) (d : RecordSet) : list Row :=
  match rows with
  | [] => []
  | row :: rest =>
      match row_exception row d with
      | Some _ => []
      | None => row :: processed_rows rest (row_outcome row d)
      end
  end.

(** A name that is empty or consists of white space only. *)
Fixpoint whitespace_only (s : string) : bool :=
  match s with
  | EmptyString => true
  | String c1 s1 =>
      if space1 c1 then whitespace_only s1
      else
        match s1 with
        | String c2 s2 =>
            if space2 c1 c2 then whitespace_only s2
            else
              match s2 with
              | String c3 s3 => space3 c1 c2 c3 && whitespace_only s3
              | EmptyString => false
              end
        | EmptyString => false
        end
  end.

Definition name_error : event := Error "Name darf nicht leer sein!".

(** [s] ends with [suffix]. *)
Definition ends_with (suffix s : string) : Prop :=
  exists front : string, s = front +:+ suffix.

(** Every stored grade is a value of the grade table. *)
Definition student_on_scale (student : Student) : Prop :=
  forall (key : string) (subj : Subject),
    stud_subjects student !! key = Some subj -> Forall on_scale (subj_grades subj).

Definition grades_on_scale (d : RecordSet) : Prop :=
  forall (sid : string) (student : Student),
    d !! sid = Some student -> student_on_scale student.

(** The tag the reverse lookup gives for a grade (empty when it fails). *)
Definition text_of_grade (g : float) : string :=
  match current_text g with
  | Ok text => text
  | Raise _ => EmptyString
  end.

(** The grades of a student, subject by subject. *)
Definition grades_of_student (student : Student) : list float :=
  flat_map (fun subj_item => subj_grades (snd subj_item))
    (dict_items (stud_subjects student)).

(** The export rows of a subject, of a student and of the record set when
    every reverse lookup succeeds. *)
Definition rows_of_subject (sid : string) (s : Student) (subj : Subject)
    : list ExportRow :=
  map (fun grade =>
         mkExportRow sid (stud_name s) (stud_class s) (subj_name subj)
           (text_of_grade grade) grade)
      (subj_grades subj).

Definition rows_of_student (item : string * Student) : list ExportRow :=
  flat_map (fun subj_item => rows_of_subject (fst item) (snd item) (snd subj_item))
    (dict_items (stud_subjects (snd item))).

(** How often the reverse lookup of the grades gives [tag]. *)
Fixpoint tag_count (tag : string) (grades : list float) : nat :=
  match grades with
  | [] => 0
  | g :: rest =>
      (match current_text g with
       | Ok text => if String.eqb text tag then 1 else 0
       | Raise _ => 0
       end + tag_count tag rest)%nat
  end.

(** Every character of [s] satisfies [p]. *)
Fixpoint string_forall (p : ascii -> bool) (s : string) : bool :=
  match s with
  | EmptyString => true
  | String c s' => p c && string_forall p s'
  end.

Definition is_digit (c : ascii) : bool :=
  let n := nat_of_ascii c in (48 <=? n)%nat && (n <=? 57)%nat.

(** A clock reading whose month, day, hour, minute and second have at
    most two digits. *)
Definition two_digit_fields (t : datetime) : Prop :=
  (month t < 100)%N /\ (day t < 100)%N /\ (hour t < 100)%N /\
  (minute t < 100)%N /\ (second t < 100)%N.

Definition same_second (t t' : datetime) : Prop :=
  year t = year t' /\ month t = month t' /\ day t = day t' /\
  hour t = hour t' /\ minute t = minute t' /\ second t = second t'.

(** The first character of a string, if any. *)
Definition first_char (s : string) : option ascii :=
  match s with
  | EmptyString => None
  | String c _ => Some c
  end.

(** The position of a string in a list (its length when absent). *)
Fixpoint index_of (x : string) (l : list string) : nat :=
  match l with
  | [] => 0
  | y :: l' => if String.eqb y x then 0 else S (index_of x l')
  end.

(** Emojis and colours from best to worst. *)
Definition emojis_by_rank : list string := ["😊👍"; "🙂"; "😐"; "😕"; "😟"].

Definition colors_by_rank : list string :=
  [color_green; color_yellow; color_red; color_grey].




(** Every subject is filed under the key of its display name. *)
Definition student_keys_normalized (student : Student) : Prop :=
  forall (key : string) (subj : Subject),
    stud_subjects student !! key = Some subj ->
    key = subject_key_of_fach (subj_name subj).

Definition keys_normalized (d : RecordSet) : Prop :=
  forall (sid : string) (student : Student),
    d !! sid = Some student -> student_keys_normalized student.

(** The changes of a grade sequence: a grade of the scale appended, the
    grade at a position replaced by one of the scale, the grade at a
    position removed. *)
Inductive grades_change (grades : list float) : list float -> Prop :=
  | grade_appended (decimal : float) :
      on_scale decimal -> grades_change grades (grades ++ [decimal])
  | grade_replaced (i : nat) (decimal : float) :
      (i < length grades)%nat -> on_scale decimal ->
      grades_change grades (<[i := decimal]> grades)
  | grade_removed (i : nat) :
      (i < length grades)%nat -> grades_change grades (delete i grades).

(** The changes of the subjects of a student. *)
Inductive subjects_change (subjects : dict Subject) : dict Subject -> Prop :=
  | subject_added (name : string) :
      subjects !! subject_key_of_fach name = None ->
      subjects_change subjects (<[subject_key_of_fach name := mkSubject name []]> subjects)
  | subject_removed (key : string) (subj : Subject) :
      subjects !! key = Some subj ->
      subjects_change subjects (delete key subjects)
  | subject_grades_changed (key : string) (subj : Subject) (grades : list float) :
      subjects !! key = Some subj ->
      grades_change (subj_grades subj) grades ->
      subjects_change subjects (<[key := mkSubject (subj_name subj) grades]> subjects).

(** The changes of the record set. *)
Inductive change (d : RecordSet) : RecordSet -> Prop :=
  | student_created (new_id : string) (name class : pyval) :
      change d (<[new_id := mkStudent name class ∅]> d)
  | student_renamed (sid : string) (name class : pyval) (student : Student) :
      d !! sid = Some student ->
      change d (<[sid := mkStudent name class (stud_subjects student)]> d)
  | student_deleted (sid : string) (student : Student) :
      d !! sid = Some student ->
      change d (delete sid d)
  | subjects_changed (sid : string) (student : Student) (subjects : dict Subject) :
      d !! sid = Some student ->
      subjects_change (stud_subjects student) subjects ->
      change d (<[sid := mkStudent (stud_name student) (stud_class student) subjects]> d)
  | rows_imported (rows : list Row) (r : result unit) (d' : RecordSet) (out : list event) :
      rows_run rows d = (r, d', out) ->
      change d d'.

(** An import whose rows end in an exception. *)
Definition import_fails (a : action) (d : RecordSet) : Prop :=
  match a with
  | ImportCsv rows => exists e : exn, fst (fst (rows_run rows d)) = Raise e
  | _ => False
  end.

(** What a handler may do: leave record set and document alone; make one
    change and save the changed record set, once; or, an import whose rows
    end in an exception, change the record set and save nothing. *)
Definition one_saved_change (a : action) (s : session_state)
    (res : result unit * session_state * list event) : Prop :=
  let '(_, s', out) := res in
  (data s' = data s /\ saved_documents out = []) \/
  (change (data s) (data s') /\ saved_documents out = [data s']) \/
  (change (data s) (data s') /\ saved_documents out = [] /\ import_fails a (data s)).

(** The session after a handler, and after a sequence of actions. *)
Definition state_after (m : M unit) (s : session_state) : session_state :=
  snd (fst (m s)).

Fixpoint run_actions (actions : list action) (s : session_state) : session_state :=
  match actions with
  | [] => s
  | a :: rest => run_actions rest (state_after (perform a) s)
  end.

(** What a sequence of actions writes to the log. *)
Fixpoint session_log (actions : list action) (s : session_state) : list event :=
  match actions with
  | [] => []
  | a :: rest => snd (perform a s) ++ session_log rest (state_after (perform a) s)
  end.

(** No import of the session ends in an exception. *)
Fixpoint imports_end_normally (actions : list action) (s : session_state) : Prop :=
  match actions with
  | [] => True
  | a :: rest =>
      ~ import_fails a (data s) /\
      imports_end_normally rest (state_after (perform a) s)
  end.

(** A short session: a student, a subject, a grade, an import. *)
Definition sample_session : list action :=
  [NewStudent "Anna" "7a" (mkDatetime 2026 11 3 12 0 0 0);
   AddSubject "schueler_1_20261103120000" "Mathe";
   AddGrade "schueler_1_20261103120000" "mathe" "2+";
   ImportCsv [mkRow (Some (PyStr "s9")) (Some (PyStr "Ben")) (Some (PyStr "7b"))
                (Some (PyStr "Bio Chemie")) (Some (PyStr "3-"))]].

(** A property of every subject of a student, and of every student. *)
Definition student_all (P : string -> Subject -> Prop) (student : Student) : Prop :=
  forall (key : string) (subj : Subject),
    stud_subjects student !! key = Some subj -> P key subj.

Definition record_set_all (P : string -> Subject -> Prop) (d : RecordSet) : Prop :=
  forall (sid : string) (student : Student),
    d !! sid = Some student -> student_all P student.


(* ================================================================== *)
(** * Part II: properties                                              *)
(* ================================================================== *)

(** ** Dicts *)

Lemma bool_eq_unique (b c : bool) (p q : b = c) : p = q.
Proof. apply UIP_dec. apply Bool.bool_dec. Qed.

Lemma dict_eq {V : Type} (d1 d2 : dict V) : dict_items d1 = dict_items d2 -> d1 = d2.
Proof.
  destruct d1 as [l1 u1], d2 as [l2 u2]. simpl. intros ->.
  f_equal. apply bool_eq_unique.
Qed.

Lemma dict_checked_items {V : Type} (l : list (string * V)) (b : bool)
    (unique : unique_keys l = b) :
  b = true -> dict_items (dict_checked l b unique) = l.
Proof. intros ->. reflexivity. Qed.

Lemma dict_of_items_items {V : Type} (l : list (string * V)) :
  unique_keys l = true -> dict_items (dict_of_items l) = l.
Proof. intros H. unfold dict_of_items. apply dict_checked_items. exact H. Qed.

Lemma string_eqb_sym (a b : string) : String.eqb a b = String.eqb b a.
Proof.
  destruct (String.eqb_spec a b) as [-> | Hne].
  - symmetry. apply String.eqb_refl.
  - symmetry. apply String.eqb_neq. congruence.
Qed.

Lemma assoc_get_set_eq {V : Type} (l : list (string * V)) (k : string) (v : V) :
  assoc_get (assoc_set l k v) k = Some v.
Proof.
  induction l as [| [k' v'] l IH]; simpl.
  - rewrite String.eqb_refl. reflexivity.
  - destruct (String.eqb k' k) eqn:Hk; simpl; rewrite Hk; [reflexivity | exact IH].
Qed.

Lemma assoc_get_set_ne {V : Type} (l : list (string * V)) (k k' : string) (v : V) :
  k <> k' -> assoc_get (assoc_set l k v) k' = assoc_get l k'.
Proof.
  intros Hne. induction l as [| [k0 v0] l IH]; simpl.
  - apply String.eqb_neq in Hne. rewrite Hne. reflexivity.
  - destruct (String.eqb k0 k) eqn:Hk; simpl.
    + apply String.eqb_eq in Hk. subst k0.
      apply String.eqb_neq in Hne. rewrite Hne. reflexivity.
    + rewrite IH. reflexivity.
Qed.

Lemma assoc_get_del_eq {V : Type} (l : list (string * V)) (k : string) :
  assoc_get (assoc_del l k) k = None.
Proof.
  induction l as [| [k0 v0] l IH]; simpl; [reflexivity |].
  destruct (String.eqb k0 k) eqn:Hk; simpl; [exact IH |].
  rewrite Hk. exact IH.
Qed.

Lemma assoc_get_del_ne {V : Type} (l : list (string * V)) (k k' : string) :
  k <> k' -> assoc_get (assoc_del l k) k' = assoc_get l k'.
Proof.
  intros Hne. induction l as [| [k0 v0] l IH]; simpl; [reflexivity |].
  destruct (String.eqb k0 k) eqn:Hk; simpl.
  - apply String.eqb_eq in Hk. subst k0.
    apply String.eqb_neq in Hne. rewrite Hne. exact IH.
  - rewrite IH. reflexivity.
Qed.

Lemma has_key_set {V : Type} (l : list (string * V)) (k k' : string) (v : V) :
  has_key (assoc_set l k v) k' = String.eqb k k' || has_key l k'.
Proof.
  unfold has_key. destruct (String.eqb_spec k k') as [<- | Hne]; simpl.
  - rewrite assoc_get_set_eq. reflexivity.
  - rewrite assoc_get_set_ne by exact Hne. reflexivity.
Qed.

Lemma has_key_del {V : Type} (l : list (string * V)) (k k' : string) :
  has_key (assoc_del l k) k' = negb (String.eqb k k') && has_key l k'.
Proof.
  unfold has_key. destruct (String.eqb_spec k k') as [<- | Hne]; simpl.
  - rewrite assoc_get_del_eq. reflexivity.
  - rewrite assoc_get_del_ne by exact Hne. reflexivity.
Qed.

Lemma unique_keys_set {V : Type} (l : list (string * V)) (k : string) (v : V) :
  unique_keys l = true -> unique_keys (assoc_set l k v) = true.
Proof.
  induction l as [| [k0 v0] l IH]; simpl; [reflexivity |].
  intros [Hk0 Hl]%andb_true_iff.
  destruct (String.eqb k0 k) eqn:Hk; simpl.
  - rewrite Hk0, Hl. reflexivity.
  - rewrite has_key_set, (string_eqb_sym k k0), Hk. simpl.
    rewrite Hk0, IH by exact Hl. reflexivity.
Qed.

Lemma unique_keys_del {V : Type} (l : list (string * V)) (k : string) :
  unique_keys l = true -> unique_keys (assoc_del l k) = true.
Proof.
  induction l as [| [k0 v0] l IH]; simpl; [reflexivity |].
  intros [Hk0 Hl]%andb_true_iff.
  destruct (String.eqb k0 k) eqn:Hk; simpl; [exact (IH Hl) |].
  rewrite has_key_del. apply negb_true_iff in Hk0. rewrite Hk0, andb_false_r. simpl.
  exact (IH Hl).
Qed.

Lemma dict_items_insert {V : Type} (d : dict V) (k : string) (v : V) :
  dict_items (<[k := v]> d) = assoc_set (dict_items d) k v.
Proof. apply dict_of_items_items, unique_keys_set, dict_unique. Qed.

Lemma dict_items_delete {V : Type} (d : dict V) (k : string) :
  dict_items (delete k d) = assoc_del (dict_items d) k.
Proof. apply dict_of_items_items, unique_keys_del, dict_unique. Qed.

Lemma dict_lookup_empty {V : Type} (k : string) : (∅ : dict V) !! k = None.
Proof. reflexivity. Qed.

Lemma dict_lookup_insert_eq {V : Type} (d : dict V) (k : string) (v : V) :
  <[k := v]> d !! k = Some v.
Proof.
  unfold lookup, dict_lookup. rewrite dict_items_insert. apply assoc_get_set_eq.
Qed.

Lemma dict_lookup_insert_ne {V : Type} (d : dict V) (k k' : string) (v : V) :
  k <> k' -> <[k := v]> d !! k' = d !! k'.
Proof.
  intros Hne. unfold lookup, dict_lookup. rewrite dict_items_insert.
  apply assoc_get_set_ne. exact Hne.
Qed.

Lemma dict_lookup_delete_eq {V : Type} (d : dict V) (k : string) :
  delete k d !! k = None.
Proof.
  unfold lookup, dict_lookup. rewrite dict_items_delete. apply assoc_get_del_eq.
Qed.

Lemma dict_lookup_delete_ne {V : Type} (d : dict V) (k k' : string) :
  k <> k' -> delete k d !! k' = d !! k'.
Proof.
  intros Hne. unfold lookup, dict_lookup. rewrite dict_items_delete.
  apply assoc_get_del_ne. exact Hne.
Qed.

Lemma assoc_get_In {V : Type} (l : list (string * V)) (k : string) (v : V) :
  assoc_get l k = Some v -> In (k, v) l.
Proof.
  induction l as [| [k0 v0] l IH]; simpl; [discriminate |].
  destruct (String.eqb_spec k0 k) as [-> | Hne].
  - intros [= ->]. left. reflexivity.
  - intros H. right. exact (IH H).
Qed.

Lemma has_key_In {V : Type} (l : list (string * V)) (k : string) (v : V) :
  In (k, v) l -> has_key l k = true.
Proof.
  unfold has_key. induction l as [| [k0 v0] l IH]; simpl; [intros [] |].
  intros [[= -> ->] | Hin].
  - rewrite String.eqb_refl. reflexivity.
  - destruct (String.eqb k0 k); [reflexivity | exact (IH Hin)].
Qed.

Lemma In_assoc_get {V : Type} (l : list (string * V)) (k : string) (v : V) :
  unique_keys l = true -> In (k, v) l -> assoc_get l k = Some v.
Proof.
  induction l as [| [k0 v0] l IH]; simpl; [intros _ [] |].
  intros [Hk0 Hl]%andb_true_iff [[= -> ->] | Hin].
  - rewrite String.eqb_refl. reflexivity.
  - destruct (String.eqb_spec k0 k) as [-> | Hne]; [| exact (IH Hl Hin)].
    apply has_key_In in Hin. rewrite Hin in Hk0. discriminate.
Qed.

Lemma dict_lookup_In {V : Type} (d : dict V) (k : string) (v : V) :
  d !! k = Some v <-> In (k, v) (dict_items d).
Proof.
  split; [apply assoc_get_In | apply In_assoc_get, dict_unique].
Qed.

Lemma assoc_set_absent {V : Type} (l : list (string * V)) (k : string) (v : V) :
  assoc_get l k = None -> assoc_set l k v = l ++ [(k, v)].
Proof.
  induction l as [| [k0 v0] l IH]; simpl; [reflexivity |].
  destruct (String.eqb k0 k); [discriminate |].
  intros H. rewrite (IH H). reflexivity.
Qed.

Lemma assoc_del_absent {V : Type} (l : list (string * V)) (k : string) :
  assoc_get l k = None -> assoc_del l k = l.
Proof.
  induction l as [| [k0 v0] l IH]; simpl; [reflexivity |].
  destruct (String.eqb k0 k); [discriminate |].
  intros H. rewrite (IH H). reflexivity.
Qed.

(** Where a key that is present sits. *)
Lemma assoc_get_split {V : Type} (l : list (string * V)) (k : string) (v : V) :
  unique_keys l = true ->
  assoc_get l k = Some v ->
  exists (front back : list (string * V)),
    l = front ++ (k, v) :: back /\
    assoc_get front k = None /\ assoc_get back k = None /\
    (forall v' : V, assoc_set l k v' = front ++ (k, v') :: back) /\
    assoc_del l k = front ++ back.
Proof.
  induction l as [| [k0 v0] l IH]; simpl; [discriminate |].
  intros [Hk0 Hl]%andb_true_iff.
  destruct (String.eqb_spec k0 k) as [-> | Hne].
  - intros [= ->]. exists [], l. simpl.
    apply negb_true_iff in Hk0. unfold has_key in Hk0.
    destruct (assoc_get l k) eqn:Hget; [discriminate |].
    repeat split; try reflexivity.
    apply assoc_del_absent. exact Hget.
  - intros Hget. destruct (IH Hl Hget) as (front & back & -> & Hfront & Hback & Hset & Hdel).
    exists ((k0, v0) :: front), back. simpl.
    apply String.eqb_neq in Hne. rewrite Hne.
    repeat split; try assumption; try reflexivity.
    + intros v'. rewrite Hset. reflexivity.
    + rewrite Hdel. reflexivity.
Qed.

Lemma dict_size_insert_None {V : Type} (d : dict V) (k : string) (v : V) :
  d !! k = None -> size (<[k := v]> d) = S (size d).
Proof.
  intros H. unfold size, dict_size. rewrite dict_items_insert, assoc_set_absent by exact H.
  rewrite length_app. simpl. lia.
Qed.

Lemma dict_size_insert_Some {V : Type} (d : dict V) (k : string) (v v' : V) :
  d !! k = Some v -> size (<[k := v']> d) = size d.
Proof.
  intros H. unfold size, dict_size. rewrite dict_items_insert.
  destruct (assoc_get_split _ _ _ (dict_unique d) H) as (front & back & Hl & _ & _ & Hset & _).
  rewrite Hset, Hl, !length_app. reflexivity.
Qed.

Lemma dict_size_delete_Some {V : Type} (d : dict V) (k : string) (v : V) :
  d !! k = Some v -> S (size (delete k d)) = size d.
Proof.
  intros H. unfold size, dict_size. rewrite dict_items_delete.
  destruct (assoc_get_split _ _ _ (dict_unique d) H) as (front & back & Hl & _ & _ & _ & Hdel).
  rewrite Hdel, Hl, !length_app. simpl. lia.
Qed.

Lemma dict_values_insert_None {V : Type} (d : dict V) (k : string) (v : V) :
  d !! k = None -> dict_values (<[k := v]> d) = dict_values d ++ [v].
Proof.
  intros H. unfold dict_values. rewrite dict_items_insert, assoc_set_absent by exact H.
  rewrite map_app. reflexivity.
Qed.

Lemma dict_insert_id {V : Type} (d : dict V) (k : string) (v : V) :
  d !! k = Some v -> <[k := v]> d = d.
Proof.
  intros H. apply dict_eq. rewrite dict_items_insert.
  destruct (assoc_get_split _ _ _ (dict_unique d) H) as (front & back & Hl & _ & _ & Hset & _).
  rewrite Hset. symmetry. exact Hl.
Qed.

Lemma assoc_set_set {V : Type} (l : list (string * V)) (k : string) (v1 v2 : V) :
  assoc_set (assoc_set l k v1) k v2 = assoc_set l k v2.
Proof.
  induction l as [| [k0 v0] l IH]; simpl.
  - rewrite String.eqb_refl. reflexivity.
  - destruct (String.eqb k0 k) eqn:Hk; simpl; rewrite Hk; [reflexivity |].
    rewrite IH. reflexivity.
Qed.

Lemma dict_insert_insert {V : Type} (d : dict V) (k : string) (v1 v2 : V) :
  <[k := v2]> (<[k := v1]> d) = <[k := v2]> d.
Proof.
  apply dict_eq. rewrite !dict_items_insert. apply assoc_set_set.
Qed.

Lemma dict_lookup_values {V : Type} (d : dict V) (k : string) (v : V) :
  d !! k = Some v -> In v (dict_values d).
Proof.
  intros H%dict_lookup_In. unfold dict_values.
  apply in_map_iff. exists (k, v). split; [reflexivity | exact H].
Qed.

Lemma dict_values_lookup {V : Type} (d : dict V) (v : V) :
  In v (dict_values d) -> exists k : string, d !! k = Some v.
Proof.
  unfold dict_values. intros ([k v'] & <- & Hin)%in_map_iff.
  exists k. apply dict_lookup_In. exact Hin.
Qed.

(** ** Rounding *)









(** ** Aggregator: the subject average *)



(** ** The collecting loops *)

Section Collect.
Context {A : Type} (avg_of : A -> option float).

Let step (acc : list float) (x : A) : list float :=
  match avg_of x with
  | Some avg => acc ++ [avg]
  | None => acc
  end.

Lemma collect_loop (l : list A) (acc : list float) :
  fold_left step l acc = acc ++ omap avg_of l.
Proof.
  revert acc. induction l as [| x l IH]; intros acc; simpl.
  - rewrite app_nil_r. reflexivity.
  - rewrite IH. unfold step. destruct (avg_of x) as [avg |]; simpl.
    + rewrite <- app_assoc. reflexivity.
    + reflexivity.
Qed.

Lemma omap_skip_undefined (l1 l2 : list A) (x : A) :
  avg_of x = None -> omap avg_of (l1 ++ x :: l2) = omap avg_of (l1 ++ l2).
Proof.
  intros Hx. rewrite !omap_app. simpl. rewrite Hx. reflexivity.
Qed.

End Collect.

Lemma collect_subject_avgs_omap (subjects : list Subject) :
  collect_subject_avgs subjects = omap subject_average_of subjects.
Proof. unfold collect_subject_avgs. apply (collect_loop subject_average_of). Qed.

Lemma collect_student_avgs_omap (students : list Student) :
  collect_student_avgs students = omap student_average_of students.
Proof. unfold collect_student_avgs. apply (collect_loop student_average_of). Qed.




(** ** Aggregator: the student average *)

Lemma calculate_student_average_omap (subjects_data : dict Subject) :
  calculate_student_average subjects_data =
  rounded_mean (omap subject_average_of (dict_values subjects_data)).
Proof.
  unfold calculate_student_average. rewrite collect_subject_avgs_omap. reflexivity.
Qed.


(** ** Statistics: the class average *)

Lemma class_total_avg_omap (students : list Student) :
  class_total_avg students = rounded_mean (omap student_average_of students).
Proof.
  unfold class_total_avg. rewrite collect_student_avgs_omap. reflexivity.
Qed.


(** ** Grade scale *)

Lemma table_get_In (table : list (string * float)) (tag : string) (d : float) :
  table_get table tag = Some d -> In (tag, d) table.
Proof.
  induction table as [| [k v] table IH]; simpl; [discriminate |].
  destruct (String.eqb_spec k tag) as [-> | Hne].
  - intros [= ->]. left. reflexivity.
  - intros H. right. exact (IH H).
Qed.

Lemma note_getitem_In (tag : string) (d : float) :
  note_getitem tag = Ok d -> In (tag, d) NOTE_TEXT_TO_DECIMAL.
Proof.
  unfold note_getitem.
  destruct (table_get NOTE_TEXT_TO_DECIMAL tag) as [v |] eqn:Hget; [| discriminate].
  intros [= <-]. apply table_get_In. exact Hget.
Qed.

Lemma equal_decimals_equal_tags (kv1 kv2 : string * float) :
  In kv1 NOTE_TEXT_TO_DECIMAL -> In kv2 NOTE_TEXT_TO_DECIMAL ->
  (snd kv1 =? snd kv2)%float = true -> fst kv1 = fst kv2.
Proof.
  intros H1 H2 Heq.
  assert (Hall :
    forallb (fun kv1 =>
      forallb (fun kv2 =>
        implb (snd kv1 =? snd kv2)%float (String.eqb (fst kv1) (fst kv2)))
        NOTE_TEXT_TO_DECIMAL) NOTE_TEXT_TO_DECIMAL = true)
    by (vm_compute; reflexivity).
  rewrite forallb_forall in Hall. specialize (Hall kv1 H1).
  rewrite forallb_forall in Hall. specialize (Hall kv2 H2).
  rewrite Heq in Hall. apply String.eqb_eq. exact Hall.
Qed.

(** C2. The grade scale has exactly 16 tags, pairwise different, with
    values between 0.7 and 6.0; for every tag, looking up its decimal and
    reverse-looking that decimal up by equality gives the tag back, and the
    tags with that decimal are this one tag only; so different tags have
    different decimals. *)
Theorem grade_scale_invertible :
  length NOTE_TEXT_TO_DECIMAL = 16%nat /\
  NoDup ALL_GRADE_OPTIONS /\
  Forall (fun tag =>
            exists d : float,
              note_getitem tag = Ok d /\
              (0.7 <=? d)%float = true /\ (d <=? 6.0)%float = true /\
              current_text d = Ok tag /\
              tags_with_value d = [tag])
         ALL_GRADE_OPTIONS /\
  (forall (tag1 tag2 : string) (d1 d2 : float),
     note_getitem tag1 = Ok d1 -> note_getitem tag2 = Ok d2 ->
     (d1 =? d2)%float = true -> tag1 = tag2).
Proof.
  split; [reflexivity |]. split; [| split].
  - apply (bool_decide_unpack _). vm_compute. exact I.
  - unfold ALL_GRADE_OPTIONS, NOTE_TEXT_TO_DECIMAL. simpl map.
    repeat (constructor;
            [eexists; split; [reflexivity |];
             split; [vm_compute; reflexivity |];
             split; [vm_compute; reflexivity |];
             split; vm_compute; reflexivity |]).
    constructor.
  - intros tag1 tag2 d1 d2 H1%note_getitem_In H2%note_getitem_In Heq.
    exact (equal_decimals_equal_tags (tag1, d1) (tag2, d2) H1 H2 Heq).
Qed.

(** ** The reverse lookup of the grade table *)

Lemma reverse_lookup_found (g : float) (tag : string) :
  current_text g = Ok tag ->
  exists d : float, In (tag, d) NOTE_TEXT_TO_DECIMAL /\ (d =? g)%float = true.
Proof.
  unfold current_text, tags_with_value.
  destruct (filter _ NOTE_TEXT_TO_DECIMAL) as [| [k v] rest] eqn:Hf; [discriminate |].
  simpl. intros [= <-]. exists v.
  assert (Hin : (k, v) ∈ filter (fun kv => (snd kv =? g)%float) NOTE_TEXT_TO_DECIMAL).
  { rewrite Hf. left. }
  apply list_elem_of_filter in Hin as [Hv Hin].
  apply list_elem_of_In in Hin.
  split; [exact Hin | apply Is_true_true; exact Hv].
Qed.

Lemma current_text_raises (g : float) (e : exn) :
  current_text g = Raise e ->
  e = IndexError /\ Forall (fun kv => (snd kv =? g)%float = false) NOTE_TEXT_TO_DECIMAL.
Proof.
  unfold current_text, tags_with_value.
  destruct (filter _ NOTE_TEXT_TO_DECIMAL) as [| kv rest] eqn:Hf; [| discriminate].
  intros [= <-]. split; [reflexivity |].
  apply Forall_forall. intros kv Hin.
  destruct (snd kv =? g)%float eqn:Hv; [| reflexivity].
  assert (Hin' : kv ∈ filter (fun kv => (snd kv =? g)%float) NOTE_TEXT_TO_DECIMAL).
  { apply list_elem_of_filter. split; [apply Is_true_true; exact Hv | exact Hin]. }
  rewrite Hf in Hin'. inversion Hin'.
Qed.

Lemma on_scale_current_text (g : float) :
  on_scale g ->
  exists tag : string, current_text g = Ok tag /\ note_getitem tag = Ok g.
Proof.
  unfold on_scale, NOTE_TEXT_TO_DECIMAL. cbn [map snd In].
  intros Hin.
  repeat (destruct Hin as [<- | Hin];
          [eexists; split; vm_compute; reflexivity |]).
  destruct Hin.
Qed.

Lemma table_value_on_scale (tag : string) (d : float) :
  note_getitem tag = Ok d -> on_scale d.
Proof.
  intros H%note_getitem_In. unfold on_scale.
  apply in_map_iff. exists (tag, d). split; [reflexivity | exact H].
Qed.

Lemma In_note_getitem (tag : string) (d : float) :
  In (tag, d) NOTE_TEXT_TO_DECIMAL -> note_getitem tag = Ok d.
Proof.
  unfold NOTE_TEXT_TO_DECIMAL. cbn [In]. intros Hin.
  repeat (destruct Hin as [[= <- <-] | Hin]; [reflexivity |]).
  destruct Hin.
Qed.

(** X4. The reverse lookup of lines 307, 368 and 393 is sound and fails
    only off the scale: when it returns a tag, the decimal of that tag is
    equal to the grade; when it raises, it raises [IndexError] and no
    decimal of the table is equal to the grade; and for a grade stored from
    the table it returns a tag whose decimal is that very grade. *)
Theorem reverse_lookup_sound (g : float) :
  (forall tag : string,
     current_text g = Ok tag ->
     exists d : float, note_getitem tag = Ok d /\ (d =? g)%float = true) /\
  (forall e : exn,
     current_text g = Raise e ->
     e = IndexError /\
     Forall (fun kv => (snd kv =? g)%float = false) NOTE_TEXT_TO_DECIMAL) /\
  (on_scale g ->
   exists tag : string, current_text g = Ok tag /\ note_getitem tag = Ok g).
Proof.
  split; [| split].
  - intros tag (d & Hin & Heq)%reverse_lookup_found.
    exists d. split; [apply In_note_getitem; exact Hin | exact Heq].
  - apply current_text_raises.
  - apply on_scale_current_text.
Qed.

(** ** Store: loading *)

(** C4. [load_data] returns the empty record set, with no message, when
    the document does not exist; when the document exists but reading or
    decoding it raises, it shows one warning and returns the empty record
    set; and whatever the file and the decoder do, it returns a record set
    and propagates no exception (and leaves the session as it was). *)
Theorem load_data_never_raises
    (json_load : string -> result RecordSet) (s : session_state) :
  (forall read : result string,
     load_data json_load (mkFs false read) s = (Ok ∅, s, [])) /\
  (forall (text : string) (e : exn),
     json_load text = Raise e ->
     load_data json_load (mkFs true (Ok text)) s = (Ok ∅, s, [Warning load_warning])) /\
  (forall e : exn,
     load_data json_load (mkFs true (Raise e)) s = (Ok ∅, s, [Warning load_warning])) /\
  (forall fs : filesystem,
     exists (d : RecordSet) (out : list event),
       load_data json_load fs s = (Ok d, s, out)).
Proof.
  split; [| split; [| split]].
  - reflexivity.
  - intros text e Hraise. unfold load_data, try_except. simpl. rewrite Hraise.
    reflexivity.
  - reflexivity.
  - intros [[|] [text | e]]; unfold load_data, try_except; simpl;
      try (destruct (json_load text) as [d | e']); simpl; eauto.
Qed.

(** ** The handler monad *)

Lemma with_data_same (s : session_state) : with_data s (data s) = s.
Proof. destruct s; reflexivity. Qed.

Lemma with_data_data (s : session_state) (d : RecordSet) : data (with_data s d) = d.
Proof. reflexivity. Qed.

Lemma with_data_twice (s : session_state) (d d' : RecordSet) :
  with_data (with_data s d) d' = with_data s d'.
Proof. reflexivity. Qed.

Lemma bind_run {A B : Type} (m : M A) (k : A -> M B) (s s1 : session_state)
    (a : A) (out1 : list event) :
  m s = (Ok a, s1, out1) ->
  (m ≫= k) s = (let '(r, s2, out2) := k a s1 in (r, s2, out1 ++ out2)).
Proof. intros Hm. unfold mbind, M_bind. rewrite Hm. reflexivity. Qed.

Lemma bind_raise {A B : Type} (m : M A) (k : A -> M B) (s s1 : session_state)
    (e : exn) (out1 : list event) :
  m s = (Raise e, s1, out1) -> (m ≫= k) s = (Raise e, s1, out1).
Proof. intros Hm. unfold mbind, M_bind. rewrite Hm. reflexivity. Qed.

Ltac run_handler :=
  unfold mbind, M_bind, mret, M_ret, try_except, dict_getitem, get_data, set_data,
    set_selected_student, save_data, st_warning, st_error, st_success, st_rerun,
    emit, raise, lift_result;
  simpl.

(** The three writes the handlers make into the record set. *)
Lemma set_subjects_run (sid : string) (subjects : dict Subject) (student : Student)
    (s : session_state) :
  data s !! sid = Some student ->
  set_subjects sid subjects s =
  (Ok tt,
   with_data s (<[sid := mkStudent (stud_name student) (stud_class student) subjects]>
                  (data s)),
   []).
Proof.
  intros Hsid. unfold set_subjects. run_handler. rewrite Hsid. reflexivity.
Qed.

Lemma set_grades_run (sid key : string) (grades : list float) (student : Student)
    (subj : Subject) (s : session_state) :
  data s !! sid = Some student ->
  stud_subjects student !! key = Some subj ->
  set_grades sid key grades s =
  (Ok tt,
   with_data s (<[sid := mkStudent (stud_name student) (stud_class student)
                           (<[key := mkSubject (subj_name subj) grades]>
                              (stud_subjects student))]> (data s)),
   []).
Proof.
  intros Hsid Hkey. unfold set_grades.
  run_handler. rewrite Hsid. simpl. rewrite Hkey. simpl.
  rewrite (set_subjects_run sid _ student s Hsid). reflexivity.
Qed.

Lemma append_grade_run (sid key : string) (decimal : float) (student : Student)
    (subj : Subject) (s : session_state) :
  data s !! sid = Some student ->
  stud_subjects student !! key = Some subj ->
  append_grade sid key decimal s =
  (Ok tt,
   with_data s (<[sid := mkStudent (stud_name student) (stud_class student)
                           (<[key := mkSubject (subj_name subj) (subj_grades subj ++ [decimal])]>
                              (stud_subjects student))]> (data s)),
   []).
Proof.
  intros Hsid Hkey. unfold append_grade.
  run_handler. rewrite Hsid. simpl. rewrite Hkey. simpl.
  rewrite (set_grades_run sid key _ student subj s Hsid Hkey). reflexivity.
Qed.

(** ** CSV import: one row, all rows *)

#[local] Arguments py_str : simpl never.
#[local] Arguments subject_key_of_fach : simpl never.
#[local] Arguments table_get : simpl never.

Ltac lookup_step :=
  first
    [ rewrite dict_lookup_insert_eq
    | rewrite dict_lookup_empty
    | match goal with
      | H : ?d !! ?k = _ |- context [?d !! ?k] => rewrite H
      end ];
  simpl.

Lemma student_eta (student : Student) :
  mkStudent (stud_name student) (stud_class student) (stud_subjects student) = student.
Proof. destruct student; reflexivity. Qed.

Lemma subject_eta (subj : Subject) :
  mkSubject (subj_name subj) (subj_grades subj) = subj.
Proof. destruct subj; reflexivity. Qed.

(** The body of the loop does what [row_exception], [row_outcome] and
    [row_messages] read off the row. *)
Lemma import_row_run (row : Row) (s : session_state) :
  import_row row s =
  (match row_exception row (data s) with Some e => Raise e | None => Ok tt end,
   with_data s (row_outcome row (data s)),
   match row_exception row (data s) with Some _ => [] | None => row_messages row end).
Proof.
  destruct s as [d sel conf]. destruct row as [rid rname rklasse rfach rnote].
  unfold import_row, row_exception, row_outcome, row_student, row_subject,
    row_messages, row_grade, with_data, row_getitem, str_receiver,
    append_grade, set_grades, set_subjects, invalid_note_warning,
    note_of_cell, note_getitem.
  simpl.
  destruct rid as [id_cell |]; [| reflexivity].
  run_handler.
  remember (py_str id_cell) as sid eqn:Hsid_def. clear Hsid_def.
  destruct (d !! sid) as [student |] eqn:Hsid.
  - destruct rfach as [[fach | n | x | b] |]; simpl; repeat lookup_step;
      try (rewrite (dict_insert_id d sid student Hsid); reflexivity).
    remember (subject_key_of_fach fach) as key eqn:Hkey_def. clear Hkey_def.
    destruct (stud_subjects student !! key) as [subj |] eqn:Hkey; simpl; repeat lookup_step.
    + destruct rnote as [[tag | n | x | b] |]; simpl;
        try destruct (table_get NOTE_TEXT_TO_DECIMAL tag) as [decimal |];
        simpl; repeat lookup_step; try reflexivity;
        try (rewrite ?app_nil_r, subject_eta, (dict_insert_id _ key subj Hkey), student_eta,
               (dict_insert_id d sid student Hsid); reflexivity).
    + destruct rnote as [[tag | n | x | b] |]; simpl;
        try destruct (table_get NOTE_TEXT_TO_DECIMAL tag) as [decimal |];
        simpl; repeat lookup_step; rewrite ?dict_insert_insert; try reflexivity.
  - destruct rname as [name |]; simpl.
    + repeat lookup_step.
      destruct rfach as [[fach | n | x | b] |]; simpl; repeat lookup_step; try reflexivity.
      remember (subject_key_of_fach fach) as key eqn:Hkey_def. clear Hkey_def.
      destruct rnote as [[tag | n | x | b] |]; simpl;
        try destruct (table_get NOTE_TEXT_TO_DECIMAL tag) as [decimal |];
        simpl; repeat lookup_step; rewrite ?dict_insert_insert; try reflexivity.
    + reflexivity.
Qed.

Lemma import_rows_run (rows : list Row) (s : session_state) :
  import_rows rows s =
  (let '(r, d', out) := rows_run rows (data s) in (r, with_data s d', out)).
Proof.
  revert s. induction rows as [| row rows IH]; intros s.
  - simpl. rewrite with_data_same. reflexivity.
  - unfold import_rows in *. simpl for_each. simpl rows_run.
    pose proof (import_row_run row s) as Hrow.
    destruct (row_exception row (data s)) as [e |].
    + rewrite (bind_raise _ _ _ _ _ _ Hrow). reflexivity.
    + rewrite (bind_run _ _ _ _ _ _ Hrow). rewrite IH, with_data_data.
      destruct (rows_run rows (row_outcome row (data s))) as [[r d'] out].
      reflexivity.
Qed.

Lemma import_click_run (rows : list Row) (s : session_state) :
  import_click rows s =
  (let '(r, d', out) := rows_run rows (data s) in
   (Ok tt, with_data s d',
    out ++
    match r with
    | Ok _ => [SaveData d'; Success "Import abgeschlossen!"; Rerun]
    | Raise e => [Error ("Fehler beim Einlesen der CSV: " +:+ exn_str e)]
    end)).
Proof.
  unfold import_click, try_except.
  pose proof (import_rows_run rows s) as Hrows.
  destruct (rows_run rows (data s)) as [[[[] | e] d'] out].
  - rewrite (bind_run _ _ _ _ _ _ Hrows). reflexivity.
  - rewrite (bind_raise _ _ _ _ _ _ Hrows). run_handler. reflexivity.
Qed.

(** ** Extension of a record set *)

Lemma subject_extended_refl (subj : Subject) : subject_extended subj subj.
Proof. split; reflexivity. Qed.

Lemma subject_extended_trans (a b c : Subject) :
  subject_extended a b -> subject_extended b c -> subject_extended a c.
Proof.
  intros [Hn1 Hg1] [Hn2 Hg2]. split; [congruence | by etrans].
Qed.

Lemma student_extended_refl (student : Student) : student_extended student student.
Proof.
  split; [reflexivity |]. split; [reflexivity |].
  intros key subj Hk. exists subj. split; [exact Hk | apply subject_extended_refl].
Qed.

Lemma student_extended_trans (a b c : Student) :
  student_extended a b -> student_extended b c -> student_extended a c.
Proof.
  intros (Hn1 & Hc1 & Hs1) (Hn2 & Hc2 & Hs2).
  split; [congruence |]. split; [congruence |].
  intros key subj Hk.
  destruct (Hs1 key subj Hk) as (subj1 & Hk1 & He1).
  destruct (Hs2 key subj1 Hk1) as (subj2 & Hk2 & He2).
  exists subj2. split; [exact Hk2 | eapply subject_extended_trans; eassumption].
Qed.

Lemma record_set_extended_refl (d : RecordSet) : record_set_extended d d.
Proof.
  intros sid student Hs. exists student. split; [exact Hs | apply student_extended_refl].
Qed.

Lemma record_set_extended_trans (a b c : RecordSet) :
  record_set_extended a b -> record_set_extended b c -> record_set_extended a c.
Proof.
  intros Hab Hbc sid student Hs.
  destruct (Hab sid student Hs) as (student1 & Hs1 & He1).
  destruct (Hbc sid student1 Hs1) as (student2 & Hs2 & He2).
  exists student2. split; [exact Hs2 | eapply student_extended_trans; eassumption].
Qed.

(** The student a row addresses is the stored one, or a new one without
    subjects under an id that is free. *)
Lemma row_student_cases (row : Row) (d : RecordSet) (sid : string) (student : Student) :
  row_student row d = Some (sid, student) ->
  (exists id_cell : pyval, row_id row = Some id_cell /\ sid = py_str id_cell) /\
  (d !! sid = Some student \/
   d !! sid = None /\
   exists name : pyval,
     row_name row = Some name /\
     student = mkStudent name (default (PyStr "") (row_klasse row)) ∅).
Proof.
  unfold row_student. destruct (row_id row) as [id_cell |]; [| discriminate].
  destruct (d !! py_str id_cell) as [stored |] eqn:Hsid.
  - intros [= <- <-]. split; [eauto |]. left. exact Hsid.
  - destruct (row_name row) as [name |]; [| discriminate].
    intros [= <- <-]. split; [eauto |]. right. split; [exact Hsid |]. eauto.
Qed.

Lemma row_outcome_extended (row : Row) (d : RecordSet) :
  record_set_extended d (row_outcome row d).
Proof.
  intros sid0 student0 Hs0. unfold row_outcome.
  destruct (row_student row d) as [[sid student] |] eqn:Hstudent;
    [| exists student0; split; [exact Hs0 | apply student_extended_refl]].
  apply row_student_cases in Hstudent as [_ Hcases].
  destruct (decide (sid0 = sid)) as [-> | Hne].
  - destruct Hcases as [Hsid | [Hsid _]]; [| congruence].
    rewrite Hs0 in Hsid. injection Hsid as <-.
    destruct (row_subject row) as [fach |].
    + eexists. split; [apply dict_lookup_insert_eq |].
      split; [reflexivity |]. split; [reflexivity |]. simpl.
      intros key subj Hk.
      destruct (decide (key = subject_key_of_fach fach)) as [-> | Hnk].
      * rewrite Hk. simpl. eexists. split; [apply dict_lookup_insert_eq |].
        split; [reflexivity |]. simpl. apply prefix_app_r. reflexivity.
      * exists subj. rewrite dict_lookup_insert_ne by congruence.
        split; [exact Hk | apply subject_extended_refl].
    + exists student0. split; [apply dict_lookup_insert_eq | apply student_extended_refl].
  - exists student0.
    destruct (row_subject row); rewrite dict_lookup_insert_ne by congruence;
      (split; [exact Hs0 | apply student_extended_refl]).
Qed.

Lemma rows_run_extended (rows : list Row) (d d' : RecordSet) (r : result unit)
    (out : list event) :
  rows_run rows d = (r, d', out) -> record_set_extended d d'.
Proof.
  revert d d' r out. induction rows as [| row rows IH]; intros d d' r out; simpl.
  - intros [= _ <- _]. apply record_set_extended_refl.
  - destruct (row_exception row d) as [e |].
    + intros [= _ <- _]. apply row_outcome_extended.
    + destruct (rows_run rows (row_outcome row d)) as [[r0 d0] out0] eqn:Hrest.
      intros [= _ <- _].
      eapply record_set_extended_trans; [apply row_outcome_extended |].
      exact (IH _ _ _ _ Hrest).
Qed.

Lemma rows_run_app (before after : list Row) (d : RecordSet) :
  rows_run (before ++ after) d =
  match rows_run before d with
  | (Ok _, d1, out1) =>
      let '(r, d2, out2) := rows_run after d1 in (r, d2, out1 ++ out2)
  | (Raise e, d1, out1) => (Raise e, d1, out1)
  end.
Proof.
  revert d. induction before as [| row before IH]; intros d; simpl.
  - destruct (rows_run after d) as [[r d2] out2]. reflexivity.
  - destruct (row_exception row d) as [e |]; [reflexivity |].
    rewrite IH.
    destruct (rows_run before (row_outcome row d)) as [[[[] | e] d1] out1];
      [| reflexivity].
    destruct (rows_run after d1) as [[r d2] out2].
    rewrite app_assoc. reflexivity.
Qed.

Lemma row_messages_warnings (row : Row) : Forall is_warning (row_messages row).
Proof.
  unfold row_messages. destruct (row_note_text row) as [tag |]; [| constructor].
  destruct (note_of_cell tag); [constructor |].
  constructor; [eexists; reflexivity | constructor].
Qed.

Lemma rows_run_warnings (rows : list Row) (d d' : RecordSet) (r : result unit)
    (out : list event) :
  rows_run rows d = (r, d', out) -> Forall is_warning out.
Proof.
  revert d d' r out. induction rows as [| row rows IH]; intros d d' r out; simpl.
  - intros [= _ _ <-]. constructor.
  - destruct (row_exception row d) as [e |].
    + intros [= _ _ <-]. constructor.
    + destruct (rows_run rows (row_outcome row d)) as [[r0 d0] out0] eqn:Hrest.
      intros [= _ _ <-]. apply Forall_app. split.
      * apply row_messages_warnings.
      * exact (IH _ _ _ _ Hrest).
Qed.

Lemma row_outcome_ids (row : Row) (d : RecordSet) (sid : string) :
  is_Some (row_outcome row d !! sid) ->
  is_Some (d !! sid) \/
  exists id_cell : pyval, row_id row = Some id_cell /\ py_str id_cell = sid.
Proof.
  unfold row_outcome.
  destruct (row_student row d) as [[sid0 student] |] eqn:Hstudent; [| auto].
  apply row_student_cases in Hstudent as [(id_cell & Hid & ->) _].
  destruct (decide (sid = py_str id_cell)) as [-> | Hne]; [eauto |].
  destruct (row_subject row); rewrite dict_lookup_insert_ne by congruence; auto.
Qed.

Lemma rows_run_ids (rows : list Row) (d d' : RecordSet) (r : result unit)
    (out : list event) (sid : string) :
  rows_run rows d = (r, d', out) ->
  is_Some (d' !! sid) ->
  is_Some (d !! sid) \/
  exists (row : Row) (id_cell : pyval),
    In row rows /\ row_id row = Some id_cell /\ py_str id_cell = sid.
Proof.
  revert d d' r out. induction rows as [| row rows IH]; intros d d' r out; simpl.
  - intros [= _ <- _]. auto.
  - assert (Hhere : is_Some (row_outcome row d !! sid) ->
                    is_Some (d !! sid) \/
                    exists (row0 : Row) (id_cell : pyval),
                      (row = row0 \/ In row0 rows) /\
                      row_id row0 = Some id_cell /\ py_str id_cell = sid).
    { intros [Hin | (id_cell & Hid & Hstr)]%row_outcome_ids; [auto |].
      right. exists row, id_cell. auto. }
    destruct (row_exception row d) as [e |].
    + intros [= _ <- _]. exact Hhere.
    + destruct (rows_run rows (row_outcome row d)) as [[r0 d0] out0] eqn:Hrest.
      intros [= _ <- _] Hsome.
      destruct (IH _ _ _ _ Hrest Hsome) as [Hin | (row0 & id_cell & Hin & Hid & Hstr)].
      * exact (Hhere Hin).
      * right. exists row0, id_cell. auto.
Qed.

(** ** Grades after an import *)

Lemma row_grade_no_tag (row : Row) : row_note_text row = None -> row_grade row = [].
Proof. unfold row_grade. intros ->. reflexivity. Qed.

Lemma grades_at_insert_other (d : RecordSet) (sid0 sid key : string) (student : Student) :
  sid <> sid0 -> grades_at (<[sid0 := student]> d) sid key = grades_at d sid key.
Proof.
  intros Hne. unfold grades_at. rewrite dict_lookup_insert_ne by congruence. reflexivity.
Qed.

Lemma grades_at_insert_same (d : RecordSet) (sid key : string) (student : Student) :
  grades_at (<[sid := student]> d) sid key =
  match stud_subjects student !! key with
  | Some subj => subj_grades subj
  | None => []
  end.
Proof. unfold grades_at. rewrite dict_lookup_insert_eq. reflexivity. Qed.

(** The grades after one row: a row that ends normally appends its grade
    to the subject it addresses; nothing else changes. *)
Lemma grades_at_row_outcome (row : Row) (d : RecordSet) (sid key : string) :
  grades_at (row_outcome row d) sid key =
  grades_at d sid key ++
  match row_exception row d with
  | Some _ => []
  | None => if decide (row_target row = Some (sid, key)) then row_grade row else []
  end.
Proof.
  unfold row_outcome, row_exception, row_target, row_student, row_subject.
  destruct (row_id row) as [id_cell |]; [| apply eq_sym, app_nil_r].
  remember (py_str id_cell) as sid0 eqn:Hsid0. clear Hsid0.
  assert (Hskip : forall fach key0 : string,
            (sid0, key0) <> (sid, key) ->
            match
              match row_note_text row with
              | Some _ => None
              | None => Some (KeyError "Note (Text)")
              end
            with
            | Some _ => []
            | None =>
                if decide (Some (sid0, key0) = Some (sid, key)) then row_grade row else []
            end = []).
  { intros fach key0 Hne. destruct (row_note_text row); [| reflexivity].
    rewrite decide_False by congruence. reflexivity. }
  assert (Hhit : forall key0 : string,
            (sid0, key0) = (sid, key) ->
            match
              match row_note_text row with
              | Some _ => None
              | None => Some (KeyError "Note (Text)")
              end
            with
            | Some _ => []
            | None =>
                if decide (Some (sid0, key0) = Some (sid, key)) then row_grade row else []
            end = row_grade row).
  { intros key0 Heq. destruct (row_note_text row) eqn:Htag.
    - rewrite decide_True by congruence. reflexivity.
    - symmetry. apply row_grade_no_tag. exact Htag. }
  destruct (d !! sid0) as [student |] eqn:Hsid.
  - destruct (row_fach row) as [[fach | n | x | b] |];
      try (rewrite (dict_insert_id d sid0 student Hsid), app_nil_r;
           destruct (row_name row); reflexivity).
    remember (subject_key_of_fach fach) as key0 eqn:Hkey0. clear Hkey0.
    destruct (decide (sid = sid0)) as [-> | Hne].
    + rewrite grades_at_insert_same. simpl. unfold grades_at at 1. rewrite Hsid.
      destruct (decide (key = key0)) as [-> | Hnk].
      * rewrite dict_lookup_insert_eq, (Hhit key0 eq_refl). simpl.
        destruct (stud_subjects student !! key0); reflexivity.
      * rewrite dict_lookup_insert_ne by congruence.
        rewrite (Hskip fach key0) by congruence. rewrite app_nil_r. reflexivity.
    + rewrite grades_at_insert_other by exact Hne.
      rewrite (Hskip fach key0) by congruence. rewrite app_nil_r. reflexivity.
  - destruct (row_name row) as [name |]; [| apply eq_sym, app_nil_r].
    destruct (row_fach row) as [[fach | n | x | b] |];
      try (rewrite app_nil_r; destruct (decide (sid = sid0)) as [-> | Hne];
           [rewrite grades_at_insert_same; unfold grades_at; rewrite Hsid; reflexivity
           | apply grades_at_insert_other; exact Hne]).
    remember (subject_key_of_fach fach) as key0 eqn:Hkey0. clear Hkey0.
    destruct (decide (sid = sid0)) as [-> | Hne].
    + rewrite grades_at_insert_same. simpl. unfold grades_at at 1. rewrite Hsid.
      destruct (decide (key = key0)) as [-> | Hnk].
      * rewrite dict_lookup_insert_eq, (Hhit key0 eq_refl). reflexivity.
      * rewrite dict_lookup_insert_ne by congruence.
        rewrite (Hskip fach key0) by congruence. reflexivity.
    + rewrite grades_at_insert_other by exact Hne.
      rewrite (Hskip fach key0) by congruence. rewrite app_nil_r. reflexivity.
Qed.
Lemma grades_at_rows_run (rows : list Row) (d d' : RecordSet) (r : result unit)
    (out : list event) (sid key : string) :
  rows_run rows d = (r, d', out) ->
  grades_at d' sid key =
  grades_at d sid key ++ imported_grades (processed_rows rows d) sid key.
Proof.
  revert d d' r out. induction rows as [| row rows IH]; intros d d' r out; simpl.
  - intros [= _ <- _]. rewrite app_nil_r. reflexivity.
  - pose proof (grades_at_row_outcome row d sid key) as Hrow.
    destruct (row_exception row d) as [e |].
    + intros [= _ <- _]. exact Hrow.
    + destruct (rows_run rows (row_outcome row d)) as [[r0 d0] out0] eqn:Hrest.
      intros [= _ <- _]. rewrite (IH _ _ _ _ Hrest), Hrow. simpl.
      rewrite <- app_assoc. reflexivity.
Qed.

Lemma processed_rows_all (rows : list Row) (d d' : RecordSet) (out : list event) :
  rows_run rows d = (Ok tt, d', out) -> processed_rows rows d = rows.
Proof.
  revert d d' out. induction rows as [| row rows IH]; intros d d' out; simpl.
  - reflexivity.
  - destruct (row_exception row d) as [e |]; [discriminate |].
    destruct (rows_run rows (row_outcome row d)) as [[r0 d0] out0] eqn:Hrest.
    intros [= -> <- _]. rewrite (IH _ _ _ Hrest). reflexivity.
Qed.

Lemma processed_rows_prefix (rows : list Row) (d : RecordSet) :
  processed_rows rows d `prefix_of` rows.
Proof.
  revert d. induction rows as [| row rows IH]; intros d; simpl.
  - reflexivity.
  - destruct (row_exception row d); [apply prefix_nil |].
    apply prefix_cons. apply IH.
Qed.

Lemma row_complete_runs (row : Row) (d : RecordSet) :
  row_complete row -> row_exception row d = None.
Proof.
  unfold row_complete, row_exception, row_subject.
  intros ([id_cell ->] & [name ->] & [fach Hfach] & [tag ->]).
  destruct (row_fach row) as [[f | n | x | b] |]; try discriminate.
  destruct (d !! py_str id_cell); reflexivity.
Qed.

Lemma rows_complete_run (rows : list Row) (d : RecordSet) :
  Forall row_complete rows ->
  exists (d' : RecordSet) (out : list event), rows_run rows d = (Ok tt, d', out).
Proof.
  intros Hall. revert d. induction Hall as [| row rows Hrow _ IH]; intros d; simpl.
  - eauto.
  - rewrite (row_complete_runs row d Hrow).
    destruct (IH (row_outcome row d)) as (d' & out & ->). eauto.
Qed.



Lemma imported_grade_present (rows : list Row) (row : Row) (sid key tag : string)
    (decimal : float) :
  In row rows ->
  row_target row = Some (sid, key) ->
  row_note_text row = Some (PyStr tag) ->
  note_getitem tag = Ok decimal ->
  In decimal (imported_grades rows sid key).
Proof.
  intros Hin Htarget Htag Hget. unfold imported_grades.
  apply in_flat_map. exists row. split; [exact Hin |].
  rewrite decide_True by exact Htarget.
  unfold row_grade. rewrite Htag.
  unfold note_getitem in Hget.
  destruct (table_get NOTE_TEXT_TO_DECIMAL tag) as [v |]; [| discriminate].
  injection Hget as ->. left. reflexivity.
Qed.

Lemma table_get_None (table : list (string * float)) (tag : string) :
  ~ In tag (map fst table) -> table_get table tag = None.
Proof.
  unfold table_get.
  induction table as [| [k v] table IH]; simpl; [reflexivity |].
  intros Hnot. destruct (String.eqb_spec k tag) as [-> | Hne].
  - exfalso. apply Hnot. left. reflexivity.
  - apply IH. intros Hin. apply Hnot. right. exact Hin.
Qed.

(** ** CSV import: claims *)

(** C5. A row of the CSV import whose grade tag is not on the grade scale
    (a text that is no tag, or a cell that is not text, such as the
    integer 2) raises nothing, provided the row has its id, a name when the
    id is unseen, and a subject that is text: the row ends normally with
    exactly one warning, the grades stored for every student and subject
    are what they were before the row, and the rows after it are
    processed: the import of the whole list is the warning followed by
    the import of the remaining rows.  When the remaining rows run
    through (as complete rows do), the result is saved once, at the end,
    and every remaining row with a tag on the scale has its grade in the
    record set. *)
Theorem import_skips_unknown_tag
    (bad : Row) (rest : list Row) (s : session_state)
    (id_cell tag : pyval) (fach : string) :
  row_id bad = Some id_cell ->
  is_Some (data s !! py_str id_cell) \/ is_Some (row_name bad) ->
  row_fach bad = Some (PyStr fach) ->
  row_note_text bad = Some tag ->
  (forall t : string, tag = PyStr t -> ~ In t ALL_GRADE_OPTIONS) ->
  exists (s1 s2 : session_state) (r : result unit) (out : list event),
    import_row bad s = (Ok tt, s1, [invalid_note_warning tag]) /\
    (forall sid key : string, grades_at (data s1) sid key = grades_at (data s) sid key) /\
    import_rows rest s1 = (r, s2, out) /\
    import_rows (bad :: rest) s = (r, s2, invalid_note_warning tag :: out) /\
    import_click (bad :: rest) s =
      (Ok tt, s2,
       invalid_note_warning tag :: out ++
       match r with
       | Ok _ => [SaveData (data s2); Success "Import abgeschlossen!"; Rerun]
       | Raise e => [Error ("Fehler beim Einlesen der CSV: " +:+ exn_str e)]
       end) /\
    (Forall row_complete rest ->
     r = Ok tt /\
     forall (row : Row) (sid key t : string) (decimal : float),
       In row rest ->
       row_target row = Some (sid, key) ->
       row_note_text row = Some (PyStr t) ->
       note_getitem t = Ok decimal ->
       In decimal (grades_at (data s2) sid key)).
Proof.
  intros Hid Hname Hfach Htag Hbad.
  assert (Hexc : row_exception bad (data s) = None).
  { unfold row_exception. rewrite Hid, Hfach, Htag.
    destruct Hname as [[student ->] | [name ->]]; [reflexivity |].
    destruct (data s !! py_str id_cell); reflexivity. }
  assert (Hlookup : exists e : exn, note_of_cell tag = Raise e).
  { unfold note_of_cell, note_getitem. destruct tag as [t | n | x | b]; eauto.
    rewrite (table_get_None NOTE_TEXT_TO_DECIMAL t (Hbad t eq_refl)). eauto. }
  destruct Hlookup as [e0 Hlookup].
  assert (Hmsg : row_messages bad = [invalid_note_warning tag]).
  { unfold row_messages. rewrite Htag, Hlookup. reflexivity. }
  assert (Hgrade : row_grade bad = []).
  { unfold row_grade. rewrite Htag. destruct tag as [t | n | x | b]; try reflexivity.
    rewrite (table_get_None NOTE_TEXT_TO_DECIMAL t (Hbad t eq_refl)). reflexivity. }
  destruct (rows_run rest (row_outcome bad (data s))) as [[r d2] out] eqn:Hrest.
  exists (with_data s (row_outcome bad (data s))), (with_data s d2), r, out.
  split; [rewrite import_row_run, Hexc, Hmsg; reflexivity |].
  split.
  { intros sid key. rewrite with_data_data, grades_at_row_outcome, Hexc, Hgrade.
    destruct (decide _); apply app_nil_r. }
  split; [rewrite import_rows_run, with_data_data, Hrest; reflexivity |].
  split.
  { rewrite import_rows_run. simpl. rewrite Hexc, Hrest, Hmsg. reflexivity. }
  split.
  { rewrite import_click_run. simpl. rewrite Hexc, Hrest, Hmsg. reflexivity. }
  intros Hcomplete.
  destruct (rows_complete_run rest (row_outcome bad (data s)) Hcomplete)
    as (d2' & out' & Hrun).
  rewrite Hrun in Hrest. injection Hrest as <- <- <-.
  split; [reflexivity |].
  intros row sid key t decimal Hin Htarget Htext Hget.
  rewrite with_data_data, (grades_at_rows_run _ _ _ _ _ sid key Hrun).
  rewrite (processed_rows_all _ _ _ _ Hrun).
  apply in_or_app. right.
  exact (imported_grade_present rest row sid key t decimal Hin Htarget Htext Hget).
Qed.


(** ** Blank input *)

Lemma lstrip_whitespace_only (s : string) :
  whitespace_only s = true -> lstrip s = EmptyString.
Proof.
  assert (Hlen : forall (n : nat) (s : string),
            (String.length s <= n)%nat ->
            whitespace_only s = true -> lstrip s = EmptyString).
  { clear s. induction n as [| n IH]; intros s Hn.
    - destruct s; [reflexivity | simpl in Hn; lia].
    - destruct s as [| c1 s1]; [reflexivity |]. simpl in Hn |- *.
      destruct (space1 c1); [apply IH; lia |].
      destruct s1 as [| c2 s2]; [discriminate |]. simpl in Hn.
      destruct (space2 c1 c2); [apply IH; lia |].
      destruct s2 as [| c3 s3]; [discriminate |]. simpl in Hn.
      destruct (space3 c1 c2 c3); [| discriminate].
      simpl. apply IH. lia. }
  exact (Hlen (String.length s) s (le_n _)).
Qed.

Lemma strip_whitespace_only (s : string) :
  whitespace_only s = true -> strip s = EmptyString.
Proof.
  intros H. unfold strip. rewrite (lstrip_whitespace_only s H). reflexivity.
Qed.

(** ** Validation of names *)

(** C9. Submitting the new-student form with an empty or whitespace-only
    name, and saving a rename to such a name, is rejected with the error
    message and changes nothing: the handler ends normally, the session
    state, and with it the record set, is the one before, and the log holds
    the error message only, so [save_data] is not called. *)
Theorem blank_name_rejected
    (new_name new_class student_id : string) (now : datetime) (s : session_state) :
  whitespace_only new_name = true ->
  new_student_submit new_name new_class now s = (Ok tt, s, [name_error]) /\
  rename_student_click student_id new_name new_class s = (Ok tt, s, [name_error]).
Proof.
  intros Hblank. apply strip_whitespace_only in Hblank.
  unfold new_student_submit, rename_student_click.
  rewrite !decide_True by exact Hblank.
  split; reflexivity.
Qed.

Lemma blank_name_rejected_witness :
  whitespace_only "   " = true /\
  new_student_submit "   " "7a" (mkDatetime 2026 11 3 12 0 0 0) (mkSession ∅ None None) =
    (Ok tt, mkSession ∅ None None, [name_error]) /\
  rename_student_click "schueler_1_20261103120000" "   " "7a" (mkSession ∅ None None) =
    (Ok tt, mkSession ∅ None None, [name_error]).
Proof.
  split; [reflexivity |].
  exact (blank_name_rejected "   " "7a" "schueler_1_20261103120000"
           (mkDatetime 2026 11 3 12 0 0 0) (mkSession ∅ None None) eq_refl).
Defined.

(** ** Adding a subject *)

Lemma add_subject_blank_ignored (student_id new_subject : string) (s : session_state) :
  strip new_subject = EmptyString ->
  add_subject_click student_id new_subject s = (Ok tt, s, []).
Proof.
  intros Hblank. unfold add_subject_click. rewrite decide_True by exact Hblank.
  reflexivity.
Qed.

(** C10. Adding a subject (a name that is not blank) whose key already
    exists in the subject mapping of the student leaves everything as it
    was: the session state, hence the record set, the mapping, the display
    name and the grades of the existing subject, is unchanged, no entry is
    created, nothing is saved, and the warning is shown.  The key is the
    one line 263 computes, whatever [str.lower] makes of the name. *)
Theorem add_existing_subject_unchanged
    (student_id new_subject : string) (student : Student) (existing : Subject)
    (s : session_state) :
  strip new_subject <> EmptyString ->
  data s !! student_id = Some student ->
  stud_subjects student !! subject_key_of_input new_subject = Some existing ->
  add_subject_click student_id new_subject s =
    (Ok tt, s, [Warning "Fach existiert bereits"; Rerun]).
Proof.
  intros Hstrip Hstudent Hexisting.
  unfold add_subject_click. rewrite decide_False by exact Hstrip.
  run_handler. rewrite Hstudent. simpl. rewrite Hexisting. simpl.
  reflexivity.
Qed.

(** ** Student ids *)

Lemma string_app_assoc (a b c : string) : (a +:+ b) +:+ c = a +:+ (b +:+ c).
Proof.
  induction a as [| ch a IH]; [reflexivity |].
  change (String ch ((a +:+ b) +:+ c) = String ch (a +:+ b +:+ c)).
  rewrite IH. reflexivity.
Qed.

Lemma new_student_id_ends_with (d : RecordSet) (now : datetime) :
  ends_with (strftime_YmdHMS now) (new_student_id d now).
Proof.
  exists ("schueler_" +:+ pretty (size d + 1)%nat +:+ "_").
  unfold new_student_id. rewrite !string_app_assoc. reflexivity.
Qed.

(** What does hold: the generated id is new when no stored id ends with
    the timestamp of this second. *)
Lemma new_student_id_fresh (d : RecordSet) (now : datetime) :
  (forall sid : string,
     is_Some (d !! sid) -> ~ ends_with (strftime_YmdHMS now) sid) ->
  d !! new_student_id d now = None.
Proof.
  intros Hnone. destruct (d !! new_student_id d now) as [student |] eqn:Hd.
  - exfalso. apply (Hnone (new_student_id d now)).
    + rewrite Hd. eauto.
    + apply new_student_id_ends_with.
  - reflexivity.
Qed.

(** The count alone separates ids of one second only between record sets
    of different sizes. *)
Lemma new_student_id_same_second (d d' : RecordSet) (now now' : datetime) :
  size d = size d' ->
  strftime_YmdHMS now = strftime_YmdHMS now' ->
  new_student_id d now = new_student_id d' now'.
Proof. intros Hsize Hstamp. unfold new_student_id. rewrite Hsize, Hstamp. reflexivity. Qed.

(** C7. The id of a new student is not always fresh.  From the empty
    record set: Anna is created, Ben is created, Anna is selected and
    deleted, and Cem is created within the same second as Ben.  The record
    set again holds one student, the count and the timestamp are those of
    Ben's creation, so the id generated for Cem is Ben's id, which is
    present; the assignment of line 206 replaces Ben by Cem. *)
Theorem new_student_id_collision :
  let t0 := mkDatetime 2026 11 3 11 59 58 250000 in
  let t1 := mkDatetime 2026 11 3 12 0 0 100000 in
  let t2 := mkDatetime 2026 11 3 12 0 0 900000 in
  let anna_id := "schueler_1_20261103115958" in
  let ben_id := "schueler_2_20261103120000" in
  let anna := mkStudent (PyStr "Anna") (PyStr "7a") ∅ in
  let ben := mkStudent (PyStr "Ben") (PyStr "7a") ∅ in
  let cem := mkStudent (PyStr "Cem") (PyStr "7b") ∅ in
  let d1 : RecordSet := {[ anna_id := anna ]} in
  let d2 : RecordSet := <[ben_id := ben]> d1 in
  let d3 : RecordSet := {[ ben_id := ben ]} in
  let d4 : RecordSet := {[ ben_id := cem ]} in
  new_student_submit "Anna" "7a" t0 (mkSession ∅ None None) =
    (Ok tt, mkSession d1 (Some anna_id) None,
     [SaveData d1; Success "Schüler Anna angelegt!"; Rerun]) /\
  new_student_submit "Ben" "7a" t1 (mkSession d1 (Some anna_id) None) =
    (Ok tt, mkSession d2 (Some ben_id) None,
     [SaveData d2; Success "Schüler Ben angelegt!"; Rerun]) /\
  delete_student_click anna_id (mkSession d2 (Some anna_id) (Some anna_id)) =
    (Ok tt, mkSession d3 None (Some anna_id),
     [SaveData d3; Success "Schüler gelöscht"; Rerun]) /\
  new_student_id d3 t2 = ben_id /\
  d3 !! new_student_id d3 t2 = Some ben /\
  new_student_submit "Cem" "7b" t2 (mkSession d3 None (Some anna_id)) =
    (Ok tt, mkSession d4 (Some ben_id) (Some anna_id),
     [SaveData d4; Success "Schüler Cem angelegt!"; Rerun]) /\
  d4 !! ben_id = Some cem /\
  size d4 = 1%nat.
Proof.
  repeat split; vm_compute; reflexivity.
Qed.

(* ================================================================== *)
(** * Part III: further properties of the code                         *)
(* ================================================================== *)

(** ** Averages and subjects without grades *)

Lemma dict_values_delete_Some {V : Type} (d : dict V) (k : string) (v : V) :
  d !! k = Some v ->
  exists front back : list V,
    dict_values d = front ++ v :: back /\
    dict_values (delete k d) = front ++ back.
Proof.
  intros H. unfold dict_values. rewrite dict_items_delete.
  destruct (assoc_get_split _ _ _ (dict_unique d) H)
    as (front & back & Hl & _ & _ & _ & Hdel).
  exists (map snd front), (map snd back).
  rewrite Hdel, Hl, !map_app. split; reflexivity.
Qed.

Lemma dict_values_insert_Some {V : Type} (d : dict V) (k : string) (v v' : V) :
  d !! k = Some v ->
  exists front back : list V,
    dict_values d = front ++ v :: back /\
    dict_values (<[k := v']> d) = front ++ v' :: back.
Proof.
  intros H. unfold dict_values. rewrite dict_items_insert.
  destruct (assoc_get_split _ _ _ (dict_unique d) H)
    as (front & back & Hl & _ & _ & Hset & _).
  exists (map snd front), (map snd back).
  rewrite Hset, Hl, !map_app. split; reflexivity.
Qed.

Lemma subject_average_of_empty (subj : Subject) :
  subj_grades subj = [] -> subject_average_of subj = None.
Proof. unfold subject_average_of. intros ->. reflexivity. Qed.

Lemma student_average_insert_empty
    (subjects_data : dict Subject) (key : string) (subj : Subject) :
  subj_grades subj = [] ->
  subjects_data !! key = None ->
  calculate_student_average (<[key := subj]> subjects_data) =
  calculate_student_average subjects_data.
Proof.
  intros Hempty%subject_average_of_empty Hfree.
  rewrite !calculate_student_average_omap.
  rewrite (dict_values_insert_None _ _ _ Hfree), omap_app. simpl.
  rewrite Hempty, app_nil_r. reflexivity.
Qed.

Lemma student_average_delete_empty
    (subjects_data : dict Subject) (key : string) (subj : Subject) :
  subj_grades subj = [] ->
  subjects_data !! key = Some subj ->
  calculate_student_average (delete key subjects_data) =
  calculate_student_average subjects_data.
Proof.
  intros Hempty%subject_average_of_empty Hkey.
  rewrite !calculate_student_average_omap.
  destruct (dict_values_delete_Some _ _ _ Hkey) as (front & back & -> & ->).
  rewrite (omap_skip_undefined subject_average_of front back subj Hempty).
  reflexivity.
Qed.

(** X8. A subject without grades does not count: adding a subject with no
    grades under a free key, or removing one, leaves the student average as
    it was. *)
Theorem empty_subject_is_neutral
    (subjects_data : dict Subject) (key : string) (subj : Subject) :
  subj_grades subj = [] ->
  (subjects_data !! key = None ->
   calculate_student_average (<[key := subj]> subjects_data) =
   calculate_student_average subjects_data) /\
  (subjects_data !! key = Some subj ->
   calculate_student_average (delete key subjects_data) =
   calculate_student_average subjects_data).
Proof.
  intros Hempty. split.
  - intros Hfree. apply student_average_insert_empty; assumption.
  - intros Hkey. apply (student_average_delete_empty _ key subj); assumption.
Qed.

Lemma empty_subject_is_neutral_witness :
  let subjects_data : dict Subject :=
    {[ "mathe" := mkSubject "Mathe" [1.3; 2.0]%float ]} in
  let subj := mkSubject "Bio" [] in
  subj_grades subj = [] /\
  (subjects_data !! "bio" = None ->
   calculate_student_average (<["bio" := subj]> subjects_data) =
   calculate_student_average subjects_data) /\
  (subjects_data !! "bio" = Some subj ->
   calculate_student_average (delete "bio" subjects_data) =
   calculate_student_average subjects_data).
Proof.
  intros subjects_data subj.
  split; [reflexivity |].
  exact (empty_subject_is_neutral subjects_data "bio" subj eq_refl).
Defined.

(** ** What the handlers of the edit page do *)

Lemma class_total_avg_skip (d : RecordSet) (sid : string) (student : Student) :
  d !! sid = None ->
  calculate_student_average (stud_subjects student) = None ->
  statistics_total_avg (<[sid := student]> d) = statistics_total_avg d.
Proof.
  intros Hfree Hnone. unfold statistics_total_avg.
  rewrite !class_total_avg_omap, (dict_values_insert_None _ _ _ Hfree), omap_app.
  simpl. unfold student_average_of at 2. rewrite Hnone, app_nil_r. reflexivity.
Qed.

(** X9. A new student with a name that is not blank, when the generated
    id is not in use: the handler ends normally, stores under the new id a
    student with the stripped name and class and no subjects, at the end
    of the record set, selects it, leaves every other student as it was,
    so the record set has one student more, saves the result, and the
    class average is the one before. *)
Theorem new_student_adds
    (new_name new_class : string) (now : datetime) (s : session_state) :
  strip new_name <> EmptyString ->
  data s !! new_student_id (data s) now = None ->
  let new_id := new_student_id (data s) now in
  exists d' : RecordSet,
    new_student_submit new_name new_class now s =
      (Ok tt, mkSession d' (Some new_id) (confirm_delete_student s),
       [SaveData d'; Success ("Schüler " +:+ new_name +:+ " angelegt!"); Rerun]) /\
    d' !! new_id = Some (mkStudent (PyStr (strip new_name)) (PyStr (strip new_class)) ∅) /\
    (forall sid : string, sid <> new_id -> d' !! sid = data s !! sid) /\
    dict_keys d' = dict_keys (data s) ++ [new_id] /\
    size d' = S (size (data s)) /\
    statistics_total_avg d' = statistics_total_avg (data s).
Proof.
  intros Hname Hfresh new_id.
  destruct s as [d sel conf]. simpl in *.
  exists (<[new_id := mkStudent (PyStr (strip new_name)) (PyStr (strip new_class)) ∅]> d).
  split.
  { unfold new_student_submit. rewrite decide_False by exact Hname.
    run_handler. reflexivity. }
  split; [apply dict_lookup_insert_eq |].
  split; [intros sid Hne; apply dict_lookup_insert_ne; congruence |].
  split.
  { unfold dict_keys. rewrite dict_items_insert, assoc_set_absent by exact Hfresh.
    rewrite map_app. reflexivity. }
  split; [apply dict_size_insert_None; exact Hfresh |].
  apply class_total_avg_skip; [exact Hfresh | reflexivity].
Qed.

Lemma new_student_adds_witness :
  let s := mkSession ∅ None None in
  let now := mkDatetime 2026 11 3 12 0 0 0 in
  strip " Anna " <> EmptyString /\
  data s !! new_student_id (data s) now = None /\
  exists d' : RecordSet,
    new_student_submit " Anna " "7a" now s =
      (Ok tt, mkSession d' (Some (new_student_id (data s) now)) (confirm_delete_student s),
       [SaveData d'; Success ("Schüler " +:+ " Anna " +:+ " angelegt!"); Rerun]) /\
    d' !! new_student_id (data s) now =
      Some (mkStudent (PyStr (strip " Anna ")) (PyStr (strip "7a")) ∅) /\
    (forall sid : string, sid <> new_student_id (data s) now -> d' !! sid = data s !! sid) /\
    dict_keys d' = dict_keys (data s) ++ [new_student_id (data s) now] /\
    size d' = S (size (data s)) /\
    statistics_total_avg d' = statistics_total_avg (data s).
Proof.
  intros s now.
  assert (H1 : strip " Anna " <> EmptyString) by (vm_compute; discriminate).
  assert (H2 : data s !! new_student_id (data s) now = None) by reflexivity.
  split; [exact H1 |]. split; [exact H2 |].
  exact (new_student_adds " Anna " "7a" now s H1 H2).
Defined.

(** X10. Saving a rename with a name that is not blank changes the name
    and the class of the selected student to the stripped inputs and
    nothing else: the subjects of the student, the grades of every
    student and subject, the other students, the order of the students
    and the student's average are as before; the result is saved. *)
Theorem rename_keeps_grades
    (student_id new_name new_class : string) (student : Student) (s : session_state) :
  strip new_name <> EmptyString ->
  data s !! student_id = Some student ->
  exists d' : RecordSet,
    rename_student_click student_id new_name new_class s =
      (Ok tt, with_data s d', [SaveData d'; Success "Daten aktualisiert"; Rerun]) /\
    d' !! student_id =
      Some (mkStudent (PyStr (strip new_name)) (PyStr (strip new_class))
              (stud_subjects student)) /\
    (forall sid : string, sid <> student_id -> d' !! sid = data s !! sid) /\
    (forall sid key : string, grades_at d' sid key = grades_at (data s) sid key) /\
    dict_keys d' = dict_keys (data s) /\
    size d' = size (data s).
Proof.
  intros Hname Hstudent.
  destruct s as [d sel conf]. simpl in *.
  exists (<[student_id :=
            mkStudent (PyStr (strip new_name)) (PyStr (strip new_class))
              (stud_subjects student)]> d).
  split.
  { unfold rename_student_click, with_data. rewrite decide_False by exact Hname.
    run_handler. rewrite Hstudent. simpl. reflexivity. }
  split; [apply dict_lookup_insert_eq |].
  split; [intros sid Hne; apply dict_lookup_insert_ne; congruence |].
  split.
  { intros sid key. destruct (decide (sid = student_id)) as [-> | Hne].
    - rewrite grades_at_insert_same. unfold grades_at. rewrite Hstudent. reflexivity.
    - apply grades_at_insert_other. exact Hne. }
  split.
  { unfold dict_keys. rewrite dict_items_insert.
    destruct (assoc_get_split _ _ _ (dict_unique d) Hstudent)
      as (front & back & Hl & _ & _ & Hset & _).
    rewrite Hset, Hl, !map_app. reflexivity. }
  exact (dict_size_insert_Some d student_id student _ Hstudent).
Qed.

Lemma rename_keeps_grades_witness :
  let student :=
    mkStudent (PyStr "Anna") (PyStr "7a")
      {[ "mathe" := mkSubject "Mathe" [1.3; 2.0]%float ]} in
  let s := mkSession {[ "s1" := student ]} (Some "s1") None in
  strip "Anna Lena " <> EmptyString /\
  data s !! "s1" = Some student /\
  exists d' : RecordSet,
    rename_student_click "s1" "Anna Lena " "7b" s =
      (Ok tt, with_data s d', [SaveData d'; Success "Daten aktualisiert"; Rerun]) /\
    d' !! "s1" =
      Some (mkStudent (PyStr (strip "Anna Lena ")) (PyStr (strip "7b"))
              (stud_subjects student)) /\
    (forall sid : string, sid <> "s1" -> d' !! sid = data s !! sid) /\
    (forall sid key : string, grades_at d' sid key = grades_at (data s) sid key) /\
    dict_keys d' = dict_keys (data s) /\
    size d' = size (data s).
Proof.
  intros student s.
  assert (H1 : strip "Anna Lena " <> EmptyString) by (vm_compute; discriminate).
  assert (H2 : data s !! "s1" = Some student) by reflexivity.
  split; [exact H1 |]. split; [exact H2 |].
  exact (rename_keeps_grades "s1" "Anna Lena " "7b" student s H1 H2).
Defined.

(** X11. Deleting a student that exists removes the student with all its
    subjects and grades, clears the selection, leaves every other student
    as it was and saves the result.  Deleting under an id that is not in
    the record set raises [KeyError] and changes and saves nothing. *)
Theorem delete_student_removes (student_id : string) (s : session_state) :
  (forall student : Student,
     data s !! student_id = Some student ->
     exists d' : RecordSet,
       delete_student_click student_id s =
         (Ok tt, mkSession d' None (confirm_delete_student s),
          [SaveData d'; Success "Schüler gelöscht"; Rerun]) /\
       d' !! student_id = None /\
       (forall key : string, grades_at d' student_id key = []) /\
       (forall sid : string, sid <> student_id -> d' !! sid = data s !! sid) /\
       S (size d') = size (data s)) /\
  (data s !! student_id = None ->
   delete_student_click student_id s = (Raise (KeyError student_id), s, [])).
Proof.
  destruct s as [d sel conf]. simpl. split.
  - intros student Hstudent. exists (delete student_id d). split.
    { unfold delete_student_click. run_handler. rewrite Hstudent. simpl. reflexivity. }
    split; [apply dict_lookup_delete_eq |].
    split; [intros key; unfold grades_at; rewrite dict_lookup_delete_eq; reflexivity |].
    split; [intros sid Hne; apply dict_lookup_delete_ne; congruence |].
    exact (dict_size_delete_Some d student_id student Hstudent).
  - intros Habsent. unfold delete_student_click. run_handler.
    rewrite Habsent. simpl. reflexivity.
Qed.

(** X12. Adding a subject with a name that is not blank under a key that
    is free: the student gets a subject under the key of line 263, with
    the stripped name as display name and no grades, after the subjects
    it has; name, class, the other subjects and the average of the
    student are as before; the result is saved. *)
Theorem add_subject_creates_empty
    (student_id new_subject : string) (student : Student) (s : session_state) :
  strip new_subject <> EmptyString ->
  data s !! student_id = Some student ->
  stud_subjects student !! subject_key_of_input new_subject = None ->
  exists student' : Student,
    add_subject_click student_id new_subject s =
      (Ok tt, with_data s (<[student_id := student']> (data s)),
       [SaveData (<[student_id := student']> (data s));
        Success ("Fach '" +:+ new_subject +:+ "' hinzugefügt"); Rerun]) /\
    stud_name student' = stud_name student /\
    stud_class student' = stud_class student /\
    stud_subjects student' !! subject_key_of_input new_subject =
      Some (mkSubject (strip new_subject) []) /\
    (forall key : string,
       key <> subject_key_of_input new_subject ->
       stud_subjects student' !! key = stud_subjects student !! key) /\
    dict_keys (stud_subjects student') =
      dict_keys (stud_subjects student) ++ [subject_key_of_input new_subject] /\
    calculate_student_average (stud_subjects student') =
    calculate_student_average (stud_subjects student).
Proof.
  intros Hname Hstudent Hfree.
  destruct s as [d sel conf]. simpl in *.
  exists (mkStudent (stud_name student) (stud_class student)
            (<[subject_key_of_input new_subject := mkSubject (strip new_subject) []]>
               (stud_subjects student))).
  split.
  { unfold add_subject_click, with_data. rewrite decide_False by exact Hname.
    run_handler. rewrite Hstudent. simpl. rewrite Hfree. simpl. reflexivity. }
  split; [reflexivity |]. split; [reflexivity |]. simpl.
  split; [apply dict_lookup_insert_eq |].
  split; [intros key Hne; apply dict_lookup_insert_ne; congruence |].
  split.
  { unfold dict_keys. rewrite dict_items_insert, assoc_set_absent by exact Hfree.
    rewrite map_app. reflexivity. }
  apply student_average_insert_empty; [reflexivity | exact Hfree].
Qed.

(** X13. Deleting a subject removes it with its grades from the student
    and nothing else: name, class and the other subjects of the student and
    all other students are as before, and the result is saved.  When the
    subject has no grades, the average of the student is as before. *)
Theorem delete_subject_removes
    (student_id subj_key : string) (student : Student) (subj : Subject)
    (s : session_state) :
  data s !! student_id = Some student ->
  stud_subjects student !! subj_key = Some subj ->
  exists student' : Student,
    delete_subject_click student_id subj_key s =
      (Ok tt, with_data s (<[student_id := student']> (data s)),
       [SaveData (<[student_id := student']> (data s)); Rerun]) /\
    stud_name student' = stud_name student /\
    stud_class student' = stud_class student /\
    stud_subjects student' !! subj_key = None /\
    grades_at (<[student_id := student']> (data s)) student_id subj_key = [] /\
    (forall key : string,
       key <> subj_key -> stud_subjects student' !! key = stud_subjects student !! key) /\
    (subj_grades subj = [] ->
     calculate_student_average (stud_subjects student') =
     calculate_student_average (stud_subjects student)).
Proof.
  intros Hstudent Hsubj.
  destruct s as [d sel conf]. simpl in *.
  exists (mkStudent (stud_name student) (stud_class student)
            (delete subj_key (stud_subjects student))).
  split.
  { unfold delete_subject_click, set_subjects, with_data.
    run_handler. rewrite Hstudent. simpl. rewrite Hsubj. simpl.
    rewrite Hstudent. simpl. reflexivity. }
  split; [reflexivity |]. split; [reflexivity |]. simpl.
  split; [apply dict_lookup_delete_eq |].
  split; [rewrite grades_at_insert_same; simpl; rewrite dict_lookup_delete_eq; reflexivity |].
  split; [intros key Hne; apply dict_lookup_delete_ne; congruence |].
  intros Hempty.
  exact (student_average_delete_empty _ subj_key subj Hempty Hsubj).
Qed.

Lemma delete_subject_removes_witness :
  let subj := mkSubject "Bio" [] in
  let student := mkStudent (PyStr "Anna") (PyStr "7a")
                   (<["bio" := subj]> {[ "mathe" := mkSubject "Mathe" [1.3; 2.0]%float ]}) in
  let s := mkSession {[ "s1" := student ]} (Some "s1") None in
  data s !! "s1" = Some student /\
  stud_subjects student !! "bio" = Some subj /\
  exists student' : Student,
    delete_subject_click "s1" "bio" s =
      (Ok tt, with_data s (<["s1" := student']> (data s)),
       [SaveData (<["s1" := student']> (data s)); Rerun]) /\
    stud_name student' = stud_name student /\
    stud_class student' = stud_class student /\
    stud_subjects student' !! "bio" = None /\
    grades_at (<["s1" := student']> (data s)) "s1" "bio" = [] /\
    (forall key : string,
       key <> "bio" -> stud_subjects student' !! key = stud_subjects student !! key) /\
    (subj_grades subj = [] ->
     calculate_student_average (stud_subjects student') =
     calculate_student_average (stud_subjects student)).
Proof.
  intros subj student s.
  assert (H1 : data s !! "s1" = Some student) by reflexivity.
  assert (H2 : stud_subjects student !! "bio" = Some subj) by reflexivity.
  split; [exact H1 |]. split; [exact H2 |].
  exact (delete_subject_removes "s1" "bio" student subj s H1 H2).
Defined.

(** ** What the grade handlers do *)

#[local] Arguments note_getitem : simpl never.
#[local] Arguments current_text : simpl never.

Ltac handler_steps :=
  repeat first
    [ progress run_handler
    | match goal with
      | H : ?d !! ?k = _ |- context [?d !! ?k] => rewrite H
      | H : note_getitem ?t = _ |- context [note_getitem ?t] => rewrite H
      | H : current_text ?g = _ |- context [current_text ?g] => rewrite H
      end ].

(** The record set with the grades of one subject replaced. *)
Lemma grades_at_replaced (d : RecordSet) (student_id subj_key : string)
    (student : Student) (subj : Subject) (grades : list float) :
  d !! student_id = Some student ->
  stud_subjects student !! subj_key = Some subj ->
  let d' := <[student_id :=
               mkStudent (stud_name student) (stud_class student)
                 (<[subj_key := mkSubject (subj_name subj) grades]>
                    (stud_subjects student))]> d in
  grades_at d' student_id subj_key = grades /\
  (forall sid key : string,
     sid <> student_id \/ key <> subj_key ->
     grades_at d' sid key = grades_at d sid key) /\
  (subj_grades subj `prefix_of` grades -> record_set_extended d d').
Proof.
  intros Hstudent Hsubj d'. subst d'. split; [| split].
  - rewrite grades_at_insert_same. simpl. rewrite dict_lookup_insert_eq. reflexivity.
  - intros sid key Hother.
    destruct (decide (sid = student_id)) as [-> | Hne].
    + destruct Hother as [Hother | Hother]; [congruence |].
      rewrite grades_at_insert_same. simpl.
      rewrite dict_lookup_insert_ne by congruence.
      unfold grades_at. rewrite Hstudent. reflexivity.
    + apply grades_at_insert_other. exact Hne.
  - intros Hprefix sid student0 Hsid.
    destruct (decide (sid = student_id)) as [-> | Hne].
    + rewrite Hstudent in Hsid. injection Hsid as <-.
      eexists. split; [apply dict_lookup_insert_eq |].
      split; [reflexivity |]. split; [reflexivity |]. simpl.
      intros key subj0 Hkey.
      destruct (decide (key = subj_key)) as [-> | Hnk].
      * rewrite Hsubj in Hkey. injection Hkey as <-.
        eexists. split; [apply dict_lookup_insert_eq |].
        split; [reflexivity | exact Hprefix].
      * exists subj0. rewrite dict_lookup_insert_ne by congruence.
        split; [exact Hkey | apply subject_extended_refl].
    + exists student0. rewrite dict_lookup_insert_ne by congruence.
      split; [exact Hsid | apply student_extended_refl].
Qed.

(** X14. Saving a grade chosen from the scale appends its decimal to the
    grades of the subject: the earlier grades stay in place before it, the
    grades of every other subject and student, and all names and classes,
    are as before, and the result is saved. *)
Theorem add_grade_appends
    (student_id subj_key new_grade : string) (student : Student) (subj : Subject)
    (decimal : float) (s : session_state) :
  data s !! student_id = Some student ->
  stud_subjects student !! subj_key = Some subj ->
  note_getitem new_grade = Ok decimal ->
  exists d' : RecordSet,
    add_grade_click student_id subj_key new_grade s =
      (Ok tt, with_data s d', [SaveData d'; Rerun]) /\
    grades_at d' student_id subj_key = subj_grades subj ++ [decimal] /\
    (forall sid key : string,
       sid <> student_id \/ key <> subj_key ->
       grades_at d' sid key = grades_at (data s) sid key) /\
    record_set_extended (data s) d'.
Proof.
  intros Hstudent Hsubj Hnote.
  assert (Hdash : new_grade <> "—").
  { intros ->. vm_compute in Hnote. discriminate. }
  destruct s as [d sel conf]. simpl in *.
  destruct (grades_at_replaced d student_id subj_key student subj
              (subj_grades subj ++ [decimal]) Hstudent Hsubj) as (Hat & Hother & Hext).
  eexists. split.
  { unfold add_grade_click, append_grade, set_grades, set_subjects, with_data.
    rewrite decide_False by exact Hdash. handler_steps. reflexivity. }
  split; [exact Hat |]. split; [exact Hother |].
  apply Hext. apply prefix_app_r. reflexivity.
Qed.

Lemma add_grade_appends_witness :
  let subj := mkSubject "Mathe" [1.3; 2.0]%float in
  let student := mkStudent (PyStr "Anna") (PyStr "7a") {[ "mathe" := subj ]} in
  let s := mkSession {[ "s1" := student ]} (Some "s1") None in
  data s !! "s1" = Some student /\
  stud_subjects student !! "mathe" = Some subj /\
  note_getitem "3+" = Ok 2.7%float /\
  exists d' : RecordSet,
    add_grade_click "s1" "mathe" "3+" s =
      (Ok tt, with_data s d', [SaveData d'; Rerun]) /\
    grades_at d' "s1" "mathe" = subj_grades subj ++ [2.7%float] /\
    (forall sid key : string,
       sid <> "s1" \/ key <> "mathe" ->
       grades_at d' sid key = grades_at (data s) sid key) /\
    record_set_extended (data s) d'.
Proof.
  intros subj student s.
  assert (H1 : data s !! "s1" = Some student) by reflexivity.
  assert (H2 : stud_subjects student !! "mathe" = Some subj) by reflexivity.
  assert (H3 : note_getitem "3+" = Ok 2.7%float) by reflexivity.
  split; [exact H1 |]. split; [exact H2 |]. split; [exact H3 |].
  exact (add_grade_appends "s1" "mathe" "3+" student subj 2.7%float s H1 H2 H3).
Defined.

(** X15. Choosing another tag for the grade at position [i] replaces the
    grade at that position by the decimal of the chosen tag: the number of
    grades and the grades at every other position are as before, as are the
    grades of every other subject and student, and the result is saved. *)
Theorem edit_grade_replaces
    (student_id subj_key edited current : string) (i : nat)
    (student : Student) (subj : Subject) (grade decimal : float) (s : session_state) :
  data s !! student_id = Some student ->
  stud_subjects student !! subj_key = Some subj ->
  subj_grades subj !! i = Some grade ->
  current_text grade = Ok current ->
  edited <> current ->
  note_getitem edited = Ok decimal ->
  exists d' : RecordSet,
    edit_grade_select student_id subj_key i edited s =
      (Ok tt, with_data s d', [SaveData d'; Rerun]) /\
    grades_at d' student_id subj_key !! i = Some decimal /\
    (forall j : nat,
       j <> i -> grades_at d' student_id subj_key !! j = subj_grades subj !! j) /\
    length (grades_at d' student_id subj_key) = length (subj_grades subj) /\
    (forall sid key : string,
       sid <> student_id \/ key <> subj_key ->
       grades_at d' sid key = grades_at (data s) sid key).
Proof.
  intros Hstudent Hsubj Hgrade Hcurrent Hedited Hnote.
  destruct s as [d sel conf]. simpl in *.
  destruct (grades_at_replaced d student_id subj_key student subj
              (<[i := decimal]> (subj_grades subj)) Hstudent Hsubj) as (Hat & Hother & _).
  eexists. split.
  { unfold edit_grade_select, grades_of_subject, set_grades, set_subjects, with_data.
    handler_steps.
    rewrite decide_False by exact Hedited. handler_steps. reflexivity. }
  rewrite Hat.
  split; [apply list_lookup_insert_eq; eapply lookup_lt_Some; exact Hgrade |].
  split; [intros j Hne; apply list_lookup_insert_ne; congruence |].
  split; [apply length_insert | exact Hother].
Qed.

Lemma edit_grade_replaces_witness :
  let subj := mkSubject "Mathe" [1.3; 2.0]%float in
  let student := mkStudent (PyStr "Anna") (PyStr "7a") {[ "mathe" := subj ]} in
  let s := mkSession {[ "s1" := student ]} (Some "s1") None in
  data s !! "s1" = Some student /\
  stud_subjects student !! "mathe" = Some subj /\
  subj_grades subj !! 1%nat = Some 2.0%float /\
  current_text 2.0%float = Ok "2" /\
  "3+" <> "2" /\
  note_getitem "3+" = Ok 2.7%float /\
  exists d' : RecordSet,
    edit_grade_select "s1" "mathe" 1 "3+" s =
      (Ok tt, with_data s d', [SaveData d'; Rerun]) /\
    grades_at d' "s1" "mathe" !! 1%nat = Some 2.7%float /\
    (forall j : nat,
       j <> 1%nat -> grades_at d' "s1" "mathe" !! j = subj_grades subj !! j) /\
    length (grades_at d' "s1" "mathe") = length (subj_grades subj) /\
    (forall sid key : string,
       sid <> "s1" \/ key <> "mathe" ->
       grades_at d' sid key = grades_at (data s) sid key).
Proof.
  intros subj student s.
  assert (H1 : data s !! "s1" = Some student) by reflexivity.
  assert (H2 : stud_subjects student !! "mathe" = Some subj) by reflexivity.
  assert (H3 : subj_grades subj !! 1%nat = Some 2.0%float) by reflexivity.
  assert (H4 : current_text 2.0%float = Ok "2") by reflexivity.
  assert (H5 : "3+" <> "2") by discriminate.
  assert (H6 : note_getitem "3+" = Ok 2.7%float) by reflexivity.
  split; [exact H1 |]. split; [exact H2 |]. split; [exact H3 |].
  split; [exact H4 |]. split; [exact H5 |]. split; [exact H6 |].
  exact (edit_grade_replaces "s1" "mathe" "3+" "2" 1 student subj 2.0%float 2.7%float s
           H1 H2 H3 H4 H5 H6).
Defined.

(** X16. Deleting the grade at position [i] removes exactly that grade: the
    grades before it keep their positions, the grades after it move up by
    one, the subject has one grade less, the grades of every other subject
    and student are as before, and the result is saved. *)
Theorem delete_grade_removes
    (student_id subj_key current : string) (i : nat)
    (student : Student) (subj : Subject) (grade : float) (s : session_state) :
  data s !! student_id = Some student ->
  stud_subjects student !! subj_key = Some subj ->
  subj_grades subj !! i = Some grade ->
  current_text grade = Ok current ->
  exists d' : RecordSet,
    delete_grade_click student_id subj_key i s =
      (Ok tt, with_data s d', [SaveData d'; Rerun]) /\
    (forall j : nat,
       (j < i)%nat -> grades_at d' student_id subj_key !! j = subj_grades subj !! j) /\
    (forall j : nat,
       (i <= j)%nat ->
       grades_at d' student_id subj_key !! j = subj_grades subj !! S j) /\
    S (length (grades_at d' student_id subj_key)) = length (subj_grades subj) /\
    (forall sid key : string,
       sid <> student_id \/ key <> subj_key ->
       grades_at d' sid key = grades_at (data s) sid key).
Proof.
  intros Hstudent Hsubj Hgrade Hcurrent.
  destruct s as [d sel conf]. simpl in *.
  destruct (grades_at_replaced d student_id subj_key student subj
              (delete i (subj_grades subj)) Hstudent Hsubj) as (Hat & Hother & _).
  eexists. split.
  { unfold delete_grade_click, grades_of_subject, set_grades, set_subjects, with_data.
    handler_steps. reflexivity. }
  rewrite Hat.
  split; [intros j Hlt; apply list_lookup_delete_lt; exact Hlt |].
  split; [intros j Hge; apply list_lookup_delete_ge; exact Hge |].
  split; [| exact Hother].
  rewrite length_delete by (rewrite Hgrade; eauto).
  apply lookup_lt_Some in Hgrade. lia.
Qed.

Lemma delete_grade_removes_witness :
  let subj := mkSubject "Mathe" [1.3; 2.0; 3.7]%float in
  let student := mkStudent (PyStr "Anna") (PyStr "7a") {[ "mathe" := subj ]} in
  let s := mkSession {[ "s1" := student ]} (Some "s1") None in
  data s !! "s1" = Some student /\
  stud_subjects student !! "mathe" = Some subj /\
  subj_grades subj !! 1%nat = Some 2.0%float /\
  current_text 2.0%float = Ok "2" /\
  exists d' : RecordSet,
    delete_grade_click "s1" "mathe" 1 s =
      (Ok tt, with_data s d', [SaveData d'; Rerun]) /\
    (forall j : nat,
       (j < 1)%nat -> grades_at d' "s1" "mathe" !! j = subj_grades subj !! j) /\
    (forall j : nat,
       (1 <= j)%nat ->
       grades_at d' "s1" "mathe" !! j = subj_grades subj !! S j) /\
    S (length (grades_at d' "s1" "mathe")) = length (subj_grades subj) /\
    (forall sid key : string,
       sid <> "s1" \/ key <> "mathe" ->
       grades_at d' sid key = grades_at (data s) sid key).
Proof.
  intros subj student s.
  assert (H1 : data s !! "s1" = Some student) by reflexivity.
  assert (H2 : stud_subjects student !! "mathe" = Some subj) by reflexivity.
  assert (H3 : subj_grades subj !! 1%nat = Some 2.0%float) by reflexivity.
  assert (H4 : current_text 2.0%float = Ok "2") by reflexivity.
  split; [exact H1 |]. split; [exact H2 |]. split; [exact H3 |]. split; [exact H4 |].
  exact (delete_grade_removes "s1" "mathe" "2" 1 student subj 2.0%float s H1 H2 H3 H4).
Defined.

(** The two reverse lookups of the table, [values.index(g)] of line 287 and
    the comprehension of line 307, find the same tag, and fail together. *)
Lemma index_and_filter_agree (table : list (string * float)) (g : float) :
  match list_index (map snd table) g with
  | Ok i =>
      exists tag : string,
        map fst table !! i = Some tag /\
        head (map fst (filter (fun kv => (snd kv =? g)%float) table)) = Some tag
  | Raise e =>
      e = ValueError /\
      filter (fun kv => (snd kv =? g)%float) table = []
  end.
Proof.
  induction table as [| [k v] table IH]; simpl.
  - split; reflexivity.
  - destruct (v =? g)%float eqn:Hv.
    + rewrite filter_cons_True by (simpl; rewrite Hv; exact I).
      exists k. split; reflexivity.
    + rewrite filter_cons_False by (simpl; rewrite Hv; exact id).
      destruct (list_index (map snd table) g) as [i | e].
      * exact IH.
      * exact IH.
Qed.

Lemma grade_table_tag_current_text (g : float) :
  match grade_table_tag g with
  | Ok tag => current_text g = Ok tag
  | Raise e => e = ValueError /\ current_text g = Raise IndexError
  end.
Proof.
  pose proof (index_and_filter_agree NOTE_TEXT_TO_DECIMAL g) as H.
  unfold grade_table_tag, current_text, tags_with_value.
  change ALL_GRADE_OPTIONS with (map fst NOTE_TEXT_TO_DECIMAL).
  destruct (list_index (map snd NOTE_TEXT_TO_DECIMAL) g) as [i | e].
  - destruct H as (tag & Hi & Hhead). rewrite Hi.
    destruct (map fst (filter (fun kv => (snd kv =? g)%float) NOTE_TEXT_TO_DECIMAL));
      simpl in Hhead; [discriminate |]. injection Hhead as ->. reflexivity.
  - destruct H as [-> Hnil]. rewrite Hnil. split; reflexivity.
Qed.

Lemma grade_table_tags_on_scale (grades : list float) :
  Forall on_scale grades ->
  exists tags : list string,
    grade_table_tags grades = Ok tags /\
    Forall2 (fun g tag => current_text g = Ok tag) grades tags.
Proof.
  induction 1 as [| g grades Hg _ IH]; simpl.
  - exists []. split; [reflexivity | constructor].
  - destruct IH as (tags & -> & Htags).
    destruct (on_scale_current_text g Hg) as (tag & Htag & _).
    pose proof (grade_table_tag_current_text g) as H.
    destruct (grade_table_tag g) as [tag' | e].
    + exists (tag' :: tags). split; [reflexivity |]. constructor; assumption.
    + destruct H as [_ H]. rewrite Htag in H. discriminate.
Qed.

Lemma grade_table_tags_off_scale (grades : list float) (g : float) :
  In g grades ->
  Forall (fun kv => (snd kv =? g)%float = false) NOTE_TEXT_TO_DECIMAL ->
  grade_table_tags grades = Raise ValueError.
Proof.
  intros Hin Hoff.
  assert (Hg : current_text g = Raise IndexError).
  { destruct (current_text g) as [tag | e] eqn:Hc.
    - destruct (reverse_lookup_found g tag Hc) as (d & Hd & Heq).
      rewrite Forall_forall in Hoff. apply list_elem_of_In in Hd.
      specialize (Hoff _ Hd). simpl in Hoff. congruence.
    - destruct (current_text_raises g e Hc) as [-> _]. reflexivity. }
  induction grades as [| g0 grades IH]; [destruct Hin |].
  simpl.
  pose proof (grade_table_tag_current_text g0) as H.
  destruct (grade_table_tag g0) as [tag | e].
  - destruct Hin as [-> | Hin].
    + congruence.
    + rewrite (IH Hin). reflexivity.
  - destruct H as [-> _]. reflexivity.
Qed.

(** X17. What the grade widgets ignore and what makes them fail.  The
    selection "—" saves nothing; a selection that is no tag of the scale
    raises [KeyError] and changes nothing; choosing for a grade the tag it
    has changes nothing.  The grade table of line 287, built before any
    select box of the grades, raises [ValueError] as soon as one grade of
    the subject equals no value of the scale; when all grades are on the
    scale it shows for each grade the tag the select box of that grade
    shows. *)
Theorem grade_handlers_reject
    (student_id subj_key : string) (student : Student) (subj : Subject)
    (s : session_state) :
  data s !! student_id = Some student ->
  stud_subjects student !! subj_key = Some subj ->
  add_grade_click student_id subj_key "—" s = (Ok tt, s, []) /\
  (forall tag : string,
     tag <> "—" -> ~ In tag ALL_GRADE_OPTIONS ->
     add_grade_click student_id subj_key tag s = (Raise (KeyError tag), s, [])) /\
  (forall (i : nat) (grade : float) (current : string),
     subj_grades subj !! i = Some grade ->
     current_text grade = Ok current ->
     edit_grade_select student_id subj_key i current s = (Ok tt, s, []) /\
     (forall edited : string,
        edited <> current -> ~ In edited ALL_GRADE_OPTIONS ->
        edit_grade_select student_id subj_key i edited s =
        (Raise (KeyError edited), s, []))) /\
  (forall grade : float,
     In grade (subj_grades subj) ->
     Forall (fun kv => (snd kv =? grade)%float = false) NOTE_TEXT_TO_DECIMAL ->
     grade_table_tags (subj_grades subj) = Raise ValueError) /\
  (Forall on_scale (subj_grades subj) ->
   exists tags : list string,
     grade_table_tags (subj_grades subj) = Ok tags /\
     Forall2 (fun grade tag => current_text grade = Ok tag) (subj_grades subj) tags).
Proof.
  intros Hstudent Hsubj.
  assert (Hkey : forall tag, ~ In tag ALL_GRADE_OPTIONS ->
                   note_getitem tag = Raise (KeyError tag)).
  { intros tag Hnot. unfold note_getitem.
    rewrite (table_get_None NOTE_TEXT_TO_DECIMAL tag Hnot). reflexivity. }
  destruct s as [d sel conf]. simpl in *.
  split; [reflexivity |].
  split.
  { intros tag Hdash Hnot. unfold add_grade_click.
    rewrite decide_False by exact Hdash.
    pose proof (Hkey tag Hnot) as Hk. handler_steps. reflexivity. }
  split.
  { intros i grade current Hgrade Hcurrent. split.
    - unfold edit_grade_select, grades_of_subject. handler_steps.
      rewrite decide_True by reflexivity. reflexivity.
    - intros edited Hne Hnot. pose proof (Hkey edited Hnot) as Hk.
      unfold edit_grade_select, grades_of_subject. handler_steps.
      rewrite decide_False by exact Hne. handler_steps. reflexivity. }
  split.
  - intros grade Hin Hoff. exact (grade_table_tags_off_scale _ grade Hin Hoff).
  - apply grade_table_tags_on_scale.
Qed.

Lemma grade_handlers_reject_witness :
  let subj := mkSubject "Mathe" [1.3; 2.5]%float in
  let student := mkStudent (PyStr "Anna") (PyStr "7a") {[ "mathe" := subj ]} in
  let s := mkSession {[ "s1" := student ]} (Some "s1") None in
  data s !! "s1" = Some student /\
  stud_subjects student !! "mathe" = Some subj /\
  add_grade_click "s1" "mathe" "—" s = (Ok tt, s, []) /\
  add_grade_click "s1" "mathe" "6+" s = (Raise (KeyError "6+"), s, []) /\
  edit_grade_select "s1" "mathe" 0 "1-" s = (Ok tt, s, []) /\
  edit_grade_select "s1" "mathe" 0 "0" s = (Raise (KeyError "0"), s, []) /\
  grade_table_tags (subj_grades subj) = Raise ValueError.
Proof.
  intros subj student s.
  assert (H1 : data s !! "s1" = Some student) by reflexivity.
  assert (H2 : stud_subjects student !! "mathe" = Some subj) by reflexivity.
  destruct (grade_handlers_reject "s1" "mathe" student subj s H1 H2)
    as (Hdash & Hadd & Hedit & Htable & _).
  split; [exact H1 |]. split; [exact H2 |]. split; [exact Hdash |].
  split.
  { apply Hadd; [discriminate |]. vm_compute. intuition discriminate. }
  destruct (Hedit 0%nat 1.3%float "1-" eq_refl eq_refl) as [Hsame Hother].
  split; [exact Hsame |].
  split.
  { apply Hother; [discriminate |]. vm_compute. intuition discriminate. }
  apply (Htable 2.5%float).
  - right. left. reflexivity.
  - repeat constructor.
Defined.

(** ** What the CSV import stores *)

Lemma rows_run_cons_extended (row : Row) (rows : list Row) (d d' : RecordSet)
    (r : result unit) (out : list event) :
  rows_run (row :: rows) d = (r, d', out) ->
  record_set_extended (row_outcome row d) d'.
Proof.
  simpl. destruct (row_exception row d) as [e |].
  - intros [= _ <- _]. apply record_set_extended_refl.
  - destruct (rows_run rows (row_outcome row d)) as [[r1 d1] out1] eqn:Hrun.
    intros [= _ <- _]. eapply rows_run_extended. exact Hrun.
Qed.

Lemma row_outcome_creates (row : Row) (d : RecordSet) (id_cell name : pyval) :
  row_id row = Some id_cell ->
  row_name row = Some name ->
  d !! py_str id_cell = None ->
  exists student : Student,
    row_outcome row d !! py_str id_cell = Some student /\
    stud_name student = name /\
    stud_class student = default (PyStr "") (row_klasse row).
Proof.
  intros Hid Hname Hfree. unfold row_outcome, row_student.
  rewrite Hid, Hfree, Hname.
  destruct (row_subject row) as [fach |]; simpl;
    (eexists; split; [apply dict_lookup_insert_eq | split; reflexivity]).
Qed.

(** X18. What an import stores.  After the import of any rows, the grades
    of every subject of every student are the grades before, followed by
    the decimals of the rows that ended normally and are addressed to that
    student id and subject key, with a text tag of the scale, in row
    order.  The rows that ended normally are the rows before the first
    exception: all rows when the import ends normally.  A student the
    import creates takes name and class from the first row with its id,
    the class being empty text when the frame has no class column; later
    rows do not change them, and the student stays when that row or a
    later one ends the import with an exception. *)
Theorem import_appends_in_row_order (rows : list Row) (s : session_state) :
  exists (d' : RecordSet) (out : list event),
    import_click rows s = (Ok tt, with_data s d', out) /\
    (forall sid key : string,
       grades_at d' sid key =
       grades_at (data s) sid key ++
       imported_grades (processed_rows rows (data s)) sid key) /\
    processed_rows rows (data s) `prefix_of` rows /\
    (saved_documents out <> [] -> processed_rows rows (data s) = rows) /\
    (forall (before after : list Row) (row : Row) (id_cell name : pyval)
            (d1 : RecordSet) (out1 : list event),
       rows = before ++ row :: after ->
       rows_run before (data s) = (Ok tt, d1, out1) ->
       row_id row = Some id_cell ->
       row_name row = Some name ->
       Forall (fun r => forall c : pyval,
                 row_id r = Some c -> py_str c <> py_str id_cell) before ->
       data s !! py_str id_cell = None ->
       exists student : Student,
         d' !! py_str id_cell = Some student /\
         stud_name student = name /\
         stud_class student = default (PyStr "") (row_klasse row)).
Proof.
  pose proof (import_click_run rows s) as Hclick.
  destruct (rows_run rows (data s)) as [[r d'] out] eqn:Hrun.
  exists d'. eexists. split; [exact Hclick |].
  split; [intros sid key; eapply grades_at_rows_run; exact Hrun |].
  split; [apply processed_rows_prefix |].
  split.
  { destruct r as [[] | e].
    - intros _. eapply processed_rows_all. exact Hrun.
    - intros Hsaved. exfalso. apply Hsaved.
      unfold saved_documents. rewrite omap_app. simpl. rewrite app_nil_r.
      pose proof (rows_run_warnings rows (data s) _ _ _ Hrun) as Hwarn.
      clear -Hwarn. induction Hwarn as [| ev out [msg ->] _ IH]; [reflexivity |].
      simpl. exact IH. }
  intros before after row id_cell name d1 out1 -> Hbefore Hid Hname Hothers Hfree.
  rewrite rows_run_app, Hbefore in Hrun.
  destruct (rows_run (row :: after) d1) as [[r2 d2] out2] eqn:Hrest.
  injection Hrun as _ <- _.
  assert (Hd1 : d1 !! py_str id_cell = None).
  { destruct (d1 !! py_str id_cell) as [student1 |] eqn:Hl; [| reflexivity].
    exfalso.
    destruct (rows_run_ids before (data s) d1 _ _ (py_str id_cell) Hbefore)
      as [Hold | (r0 & c & Hin & Hc & Heq)].
    - rewrite Hl. eauto.
    - rewrite Hfree in Hold. destruct Hold as [? [=]].
    - rewrite Forall_forall in Hothers. apply list_elem_of_In in Hin.
      exact (Hothers r0 Hin c Hc Heq). }
  destruct (row_outcome_creates row d1 id_cell name Hid Hname Hd1)
    as (student & Hstudent & Hn & Hc).
  destruct (rows_run_cons_extended row after d1 d2 r2 out2 Hrest _ _ Hstudent)
    as (student' & Hstudent' & Hn' & Hc' & _).
  exists student'. split; [exact Hstudent' |]. split; congruence.
Qed.

(** ** Statistics page: all grades, the export rows, the distribution *)

Section ForResult.
Context {A S : Type} (body : S -> A -> result S).

Lemma for_result_raises_only (P : exn -> Prop) (l : list A) (acc : S) (e : exn) :
  (forall acc x e, body acc x = Raise e -> P e) ->
  for_result l body acc = Raise e -> P e.
Proof.
  intros Honly. revert acc. induction l as [| x l IH]; intros acc; simpl; [discriminate |].
  destruct (body acc x) as [acc' | e'] eqn:Hbody.
  - apply IH.
  - intros [= <-]. eapply Honly. exact Hbody.
Qed.

Lemma for_result_some_raises (l : list A) (acc : S) (x : A) :
  In x l ->
  (forall acc, exists e, body acc x = Raise e) ->
  exists e, for_result l body acc = Raise e.
Proof.
  intros Hin Hx. revert acc. induction l as [| y l IH]; intros acc; [destruct Hin |].
  simpl. destruct Hin as [-> | Hin].
  - destruct (Hx acc) as [e He]. rewrite He. eauto.
  - destruct (body acc y) as [acc' | e']; [apply IH; exact Hin | eauto].
Qed.
End ForResult.

Lemma for_result_appends {A B : Type} (body : list B -> A -> result (list B))
    (f : A -> list B) (l : list A) (acc : list B) :
  (forall acc x, In x l -> body acc x = Ok (acc ++ f x)) ->
  for_result l body acc = Ok (acc ++ flat_map f l).
Proof.
  revert acc. induction l as [| x l IH]; intros acc Hbody; simpl.
  - rewrite app_nil_r. reflexivity.
  - rewrite Hbody by (left; reflexivity).
    rewrite IH by (intros acc' y Hy; apply Hbody; right; exact Hy).
    rewrite <- app_assoc. reflexivity.
Qed.

Lemma fold_left_appends {A B : Type} (f : A -> list B) (l : list A) (acc : list B) :
  fold_left (fun acc x => acc ++ f x) l acc = acc ++ flat_map f l.
Proof.
  revert acc. induction l as [| x l IH]; intros acc; simpl.
  - rewrite app_nil_r. reflexivity.
  - rewrite IH, <- app_assoc. reflexivity.
Qed.

Lemma all_grades_flat (d : RecordSet) :
  all_grades d = flat_map grades_of_student (dict_values d).
Proof.
  unfold all_grades.
  change (flat_map grades_of_student (dict_values d))
    with ([] ++ flat_map grades_of_student (dict_values d)).
  generalize (@nil float) as acc. generalize (dict_values d) as students.
  induction students as [| student students IH]; intros acc; simpl.
  - rewrite app_nil_r. reflexivity.
  - rewrite IH. rewrite fold_left_appends, <- app_assoc. reflexivity.
Qed.

Lemma flat_map_singleton_map {A B : Type} (f : A -> B) (l : list A) :
  flat_map (fun x => [f x]) l = map f l.
Proof. induction l as [| x l IH]; simpl; [reflexivity | rewrite IH; reflexivity]. Qed.

Lemma export_subject_ok (sid : string) (s : Student) (subj : Subject)
    (export_rows : list ExportRow) :
  Forall on_scale (subj_grades subj) ->
  for_result (subj_grades subj) (export_grade sid s subj) export_rows =
  Ok (export_rows ++ rows_of_subject sid s subj).
Proof.
  intros Hall. unfold rows_of_subject.
  rewrite <- flat_map_singleton_map.
  apply for_result_appends. intros acc grade Hin.
  rewrite <- list_elem_of_In in Hin.
  rewrite Forall_forall in Hall.
  destruct (on_scale_current_text grade (Hall _ Hin)) as (tag & Htag & _).
  unfold export_grade, text_of_grade. rewrite Htag. reflexivity.
Qed.

Lemma build_export_rows_ok (d : RecordSet) :
  grades_on_scale d ->
  build_export_rows d = Ok (flat_map rows_of_student (dict_items d)).
Proof.
  intros Hd. unfold build_export_rows.
  change (flat_map rows_of_student (dict_items d))
    with ([] ++ flat_map rows_of_student (dict_items d)).
  apply for_result_appends. intros acc [sid s] Hin.
  apply (proj2 (dict_lookup_In _ _ _)) in Hin.
  unfold rows_of_student. cbn [fst snd].
  apply for_result_appends. intros acc' [key subj] Hin'.
  apply (proj2 (dict_lookup_In _ _ _)) in Hin'.
  cbn [snd]. apply export_subject_ok.
  exact (Hd _ _ Hin _ _ Hin').
Qed.

Lemma decimals_of_rows_of_subject (sid : string) (s : Student) (subj : Subject) :
  map ex_note_dezimal (rows_of_subject sid s subj) = subj_grades subj.
Proof.
  unfold rows_of_subject. rewrite map_map. simpl. apply map_id.
Qed.

Lemma decimals_of_rows_of_student (item : string * Student) :
  map ex_note_dezimal (rows_of_student item) = grades_of_student (snd item).
Proof.
  unfold rows_of_student, grades_of_student.
  induction (dict_items (stud_subjects (snd item))) as [| subj_item l IH]; simpl.
  - reflexivity.
  - rewrite map_app, decimals_of_rows_of_subject, IH. reflexivity.
Qed.

Lemma decimals_of_export_rows (d : RecordSet) :
  map ex_note_dezimal (flat_map rows_of_student (dict_items d)) = all_grades d.
Proof.
  rewrite all_grades_flat. unfold dict_values.
  induction (dict_items d) as [| item l IH]; simpl.
  - reflexivity.
  - rewrite map_app, decimals_of_rows_of_student, IH. reflexivity.
Qed.

Lemma in_export_rows (d : RecordSet) (r : ExportRow) :
  In r (flat_map rows_of_student (dict_items d)) <->
  exists (student : Student) (key : string) (subj : Subject),
    d !! ex_id r = Some student /\
    stud_subjects student !! key = Some subj /\
    In (ex_note_dezimal r) (subj_grades subj) /\
    r = mkExportRow (ex_id r) (stud_name student) (stud_class student) (subj_name subj)
          (text_of_grade (ex_note_dezimal r)) (ex_note_dezimal r).
Proof.
  rewrite in_flat_map. split.
  - intros ([sid student] & Hitem & Hr).
    apply (proj2 (dict_lookup_In _ _ _)) in Hitem.
    unfold rows_of_student in Hr. rewrite in_flat_map in Hr. cbn [fst snd] in Hr.
    destruct Hr as ([key subj] & Hsubj & Hr).
    apply (proj2 (dict_lookup_In _ _ _)) in Hsubj.
    unfold rows_of_subject in Hr. rewrite in_map_iff in Hr. cbn [snd] in Hr.
    destruct Hr as (grade & <- & Hgrade). simpl.
    exists student, key, subj. repeat split; assumption.
  - intros (student & key & subj & Hstudent & Hsubj & Hgrade & Hr).
    exists (ex_id r, student). split.
    + apply dict_lookup_In. exact Hstudent.
    + unfold rows_of_student. rewrite in_flat_map. cbn [fst snd].
      exists (key, subj). split.
      * apply dict_lookup_In. exact Hsubj.
      * unfold rows_of_subject. rewrite in_map_iff. cbn [snd].
        exists (ex_note_dezimal r). split; [symmetry; exact Hr | exact Hgrade].
Qed.

(** X19. The export of a record set whose grades are on the scale succeeds
    and has exactly one row per stored grade: the decimals of the rows are
    the grades [all_grades] collects, in the same order; every row carries
    the id, name and class of a stored student, the display name of one of
    its subjects, one of the grades of that subject and the tag whose
    decimal is that grade; and every stored grade has its row.  A student
    or a subject without grades therefore has no row. *)
Theorem export_has_one_row_per_grade (d : RecordSet) :
  grades_on_scale d ->
  exists rows : list ExportRow,
    build_export_rows d = Ok rows /\
    map ex_note_dezimal rows = all_grades d /\
    (forall r : ExportRow,
       In r rows ->
       note_getitem (ex_note_text r) = Ok (ex_note_dezimal r) /\
       exists (student : Student) (key : string) (subj : Subject),
         d !! ex_id r = Some student /\
         ex_name r = stud_name student /\
         ex_klasse r = stud_class student /\
         stud_subjects student !! key = Some subj /\
         ex_fach r = subj_name subj /\
         In (ex_note_dezimal r) (subj_grades subj)) /\
    (forall (sid key : string) (student : Student) (subj : Subject) (grade : float),
       d !! sid = Some student ->
       stud_subjects student !! key = Some subj ->
       In grade (subj_grades subj) ->
       exists r : ExportRow,
         In r rows /\ ex_id r = sid /\ ex_fach r = subj_name subj /\
         ex_note_dezimal r = grade).
Proof.
  intros Hd. exists (flat_map rows_of_student (dict_items d)).
  split; [apply build_export_rows_ok; exact Hd |].
  split; [apply decimals_of_export_rows |].
  split.
  - intros r Hr. apply in_export_rows in Hr
      as (student & key & subj & Hstudent & Hsubj & Hgrade & Hrow).
    split.
    + pose proof (Hd _ _ Hstudent _ _ Hsubj) as Hscale.
      rewrite Forall_forall in Hscale.
      rewrite <- list_elem_of_In in Hgrade.
      destruct (on_scale_current_text _ (Hscale _ Hgrade)) as (tag & Htag & Hnote).
      rewrite Hrow. simpl. unfold text_of_grade. rewrite Htag. exact Hnote.
    + exists student, key, subj. rewrite Hrow. simpl.
      repeat split; assumption.
  - intros sid key student subj grade Hstudent Hsubj Hgrade.
    exists (mkExportRow sid (stud_name student) (stud_class student) (subj_name subj)
              (text_of_grade grade) grade).
    split; [| repeat split].
    apply in_export_rows. exists student, key, subj. simpl.
    repeat split; assumption.
Qed.

Lemma export_has_one_row_per_grade_witness :
  let d : RecordSet :=
    {[ "s1" := mkStudent (PyStr "Anna") (PyStr "7a")
                 {[ "mathe" := mkSubject "Mathe" [1.3; 2.0]%float ]} ]} in
  grades_on_scale d /\
  exists rows : list ExportRow,
    build_export_rows d = Ok rows /\
    map ex_note_dezimal rows = all_grades d.
Proof.
  intros d.
  assert (H : grades_on_scale d).
  { intros sid student Hsid key subj Hkey.
    apply dict_lookup_In in Hsid. destruct Hsid as [[= <- <-] | []].
    apply dict_lookup_In in Hkey. destruct Hkey as [[= <- <-] | []].
    repeat constructor; unfold on_scale; simpl; tauto. }
  split; [exact H |].
  destruct (export_has_one_row_per_grade d H) as (rows & Hrows & Hdec & _).
  exists rows. split; assumption.
Defined.

Lemma off_scale_current_text (g : float) :
  Forall (fun kv => (snd kv =? g)%float = false) NOTE_TEXT_TO_DECIMAL ->
  current_text g = Raise IndexError.
Proof.
  intros Hoff. destruct (current_text g) as [tag | e] eqn:Hc.
  - exfalso. destruct (reverse_lookup_found g tag Hc) as (v & Hin & Hv).
    rewrite Forall_forall in Hoff. apply list_elem_of_In in Hin.
    specialize (Hoff _ Hin). simpl in Hoff. congruence.
  - f_equal. apply (current_text_raises g e Hc).
Qed.

Lemma in_all_grades (d : RecordSet) (g : float) :
  In g (all_grades d) <->
  exists (sid key : string) (student : Student) (subj : Subject),
    d !! sid = Some student /\
    stud_subjects student !! key = Some subj /\
    In g (subj_grades subj).
Proof.
  rewrite all_grades_flat, in_flat_map. split.
  - intros (student & Hstudent & Hg).
    apply dict_values_lookup in Hstudent as [sid Hsid].
    unfold grades_of_student in Hg. rewrite in_flat_map in Hg.
    destruct Hg as ([key subj] & Hsubj & Hg).
    apply (proj2 (dict_lookup_In _ _ _)) in Hsubj.
    exists sid, key, student, subj. repeat split; assumption.
  - intros (sid & key & student & subj & Hsid & Hsubj & Hg).
    exists student. split; [eapply dict_lookup_values; exact Hsid |].
    unfold grades_of_student. rewrite in_flat_map.
    exists (key, subj). split; [| exact Hg].
    apply dict_lookup_In. exact Hsubj.
Qed.

(** X20. One stored grade that is equal to no decimal of the table (from a
    document edited by hand, say) makes both computations of the statistics
    page fail: building the export rows and counting the grades per tag
    raise [IndexError], whatever else the record set holds. *)
Theorem statistics_fail_off_scale
    (d : RecordSet) (sid key : string) (student : Student) (subj : Subject)
    (grade : float) :
  d !! sid = Some student ->
  stud_subjects student !! key = Some subj ->
  In grade (subj_grades subj) ->
  Forall (fun kv => (snd kv =? grade)%float = false) NOTE_TEXT_TO_DECIMAL ->
  build_export_rows d = Raise IndexError /\
  grade_text_counts (all_grades d) = Raise IndexError.
Proof.
  intros Hstudent Hsubj Hgrade Hoff.
  pose proof (off_scale_current_text grade Hoff) as Hraise.
  assert (Hgrade_only : forall sid s subj acc g e,
            export_grade sid s subj acc g = Raise e -> e = IndexError).
  { intros sid0 s0 subj0 acc g e. unfold export_grade.
    destruct (current_text g) as [tag | e'] eqn:Hc; [discriminate |].
    intros [= <-]. apply (current_text_raises g e' Hc). }
  split.
  - destruct (for_result_some_raises
                (fun export_rows item =>
                   for_result (dict_items (stud_subjects (snd item)))
                     (fun export_rows subj_item =>
                        for_result (subj_grades (snd subj_item))
                          (export_grade (fst item) (snd item) (snd subj_item)) export_rows)
                     export_rows)
                (dict_items d) [] (sid, student)) as [e He].
    + apply dict_lookup_In. exact Hstudent.
    + intros acc. cbn [fst snd].
      apply (for_result_some_raises _ _ acc (key, subj)).
      * apply dict_lookup_In. exact Hsubj.
      * intros acc'. cbn [snd].
        apply (for_result_some_raises _ _ acc' grade Hgrade).
        intros acc''. exists IndexError. unfold export_grade. rewrite Hraise. reflexivity.
    + unfold build_export_rows. rewrite He. f_equal.
      eapply (for_result_raises_only _ (fun e => e = IndexError)); [| exact He].
      intros acc item e' He'.
      eapply (for_result_raises_only _ (fun e => e = IndexError)); [| exact He'].
      intros acc' subj_item e'' He''.
      eapply (for_result_raises_only _ (fun e => e = IndexError)); [| exact He''].
      intros acc'' g e3. apply Hgrade_only.
  - assert (Hin : In grade (all_grades d)).
    { apply in_all_grades. exists sid, key, student, subj. repeat split; assumption. }
    destruct (for_result_some_raises count_grade (all_grades d) ∅ grade Hin)
      as [e He].
    + intros acc. exists IndexError. unfold count_grade. rewrite Hraise. reflexivity.
    + unfold grade_text_counts. rewrite He. f_equal.
      eapply (for_result_raises_only _ (fun e => e = IndexError)); [| exact He].
      intros acc g e'.
      unfold count_grade. destruct (current_text g) as [tag | e''] eqn:Hc; [discriminate |].
      intros [= <-]. apply (current_text_raises g e'' Hc).
Qed.

Lemma statistics_fail_off_scale_witness :
  let subj := mkSubject "Mathe" [1.3; 2.5]%float in
  let student := mkStudent (PyStr "Anna") (PyStr "7a") {[ "mathe" := subj ]} in
  let d : RecordSet := {[ "s1" := student ]} in
  d !! "s1" = Some student /\
  stud_subjects student !! "mathe" = Some subj /\
  In 2.5%float (subj_grades subj) /\
  Forall (fun kv => (snd kv =? 2.5)%float = false) NOTE_TEXT_TO_DECIMAL /\
  build_export_rows d = Raise IndexError /\
  grade_text_counts (all_grades d) = Raise IndexError.
Proof.
  intros subj student d.
  assert (H1 : d !! "s1" = Some student) by reflexivity.
  assert (H2 : stud_subjects student !! "mathe" = Some subj) by reflexivity.
  assert (H3 : In 2.5%float (subj_grades subj)) by (simpl; tauto).
  assert (H4 : Forall (fun kv => (snd kv =? 2.5)%float = false) NOTE_TEXT_TO_DECIMAL).
  { repeat constructor. }
  split; [exact H1 |]. split; [exact H2 |]. split; [exact H3 |]. split; [exact H4 |].
  exact (statistics_fail_off_scale d "s1" "mathe" student subj 2.5%float H1 H2 H3 H4).
Defined.

Lemma count_loop (grades : list float) (counts counts' : dict nat) (tag : string) :
  for_result grades count_grade counts = Ok counts' ->
  default 0%nat (counts' !! tag) =
  (default 0%nat (counts !! tag) + tag_count tag grades)%nat.
Proof.
  revert counts. induction grades as [| g grades IH]; intros counts; simpl.
  - intros [= <-]. lia.
  - unfold count_grade at 1.
    destruct (current_text g) as [text |]; [| discriminate].
    intros Hrest. rewrite (IH _ Hrest).
    destruct (String.eqb_spec text tag) as [-> | Hne].
    + rewrite dict_lookup_insert_eq. simpl. lia.
    + rewrite dict_lookup_insert_ne by exact Hne. lia.
Qed.

Lemma count_loop_keys (grades : list float) (counts counts' : dict nat) (tag : string) :
  for_result grades count_grade counts = Ok counts' ->
  is_Some (counts' !! tag) ->
  is_Some (counts !! tag) \/ (0 < tag_count tag grades)%nat.
Proof.
  revert counts. induction grades as [| g grades IH]; intros counts; simpl.
  - intros [= <-] Hsome. left. exact Hsome.
  - unfold count_grade at 1.
    destruct (current_text g) as [text |]; [| discriminate].
    intros Hrest Hsome. destruct (IH _ Hrest Hsome) as [Hin | Hpos].
    + destruct (String.eqb_spec text tag) as [-> | Hne].
      * right. lia.
      * rewrite dict_lookup_insert_ne in Hin by exact Hne. left. exact Hin.
    + right. lia.
Qed.

Lemma count_loop_ok (grades : list float) (counts : dict nat) :
  Forall on_scale grades ->
  exists counts' : dict nat, for_result grades count_grade counts = Ok counts'.
Proof.
  intros Hall. revert counts. induction Hall as [| g grades Hg _ IH]; intros counts; simpl.
  - eauto.
  - destruct (on_scale_current_text g Hg) as (tag & Htag & _).
    unfold count_grade at 1. rewrite Htag. apply IH.
Qed.

Lemma one_tag_per_grade (g : float) :
  on_scale g ->
  sum_list (map (fun tag =>
                   match current_text g with
                   | Ok text => if String.eqb text tag then 1%nat else 0%nat
                   | Raise _ => 0%nat
                   end) ALL_GRADE_OPTIONS) = 1%nat.
Proof.
  unfold on_scale, NOTE_TEXT_TO_DECIMAL. cbn [map snd In].
  intros Hin.
  repeat (destruct Hin as [<- | Hin]; [vm_compute; reflexivity |]).
  destruct Hin.
Qed.

Lemma tag_counts_total (grades : list float) :
  Forall on_scale grades ->
  sum_list (map (fun tag => tag_count tag grades) ALL_GRADE_OPTIONS) = length grades.
Proof.
  induction 1 as [| g grades Hg _ IH].
  - reflexivity.
  - pose proof (one_tag_per_grade g Hg) as Hone.
    unfold ALL_GRADE_OPTIONS, NOTE_TEXT_TO_DECIMAL in *.
    cbn [map fst sum_list sum_list_with tag_count length] in *.
    unfold id in *. lia.
Qed.

(** X21. The grade distribution of the statistics page counts every grade
    once under its tag: for grades on the scale the counting succeeds, the
    count stored for a tag is the number of grades whose reverse lookup
    gives that tag, a tag that does not occur has no entry, and the counts
    of the 16 tags add up to the number of grades. *)
Theorem grade_distribution_counts (grades : list float) :
  Forall on_scale grades ->
  exists counts : dict nat,
    grade_text_counts grades = Ok counts /\
    (forall tag : string, default 0%nat (counts !! tag) = tag_count tag grades) /\
    (forall tag : string, is_Some (counts !! tag) <-> (0 < tag_count tag grades)%nat) /\
    sum_list (map (fun tag => default 0%nat (counts !! tag)) ALL_GRADE_OPTIONS) =
    length grades.
Proof.
  intros Hall.
  destruct (count_loop_ok grades ∅ Hall) as [counts Hcounts].
  exists counts. split; [exact Hcounts |].
  assert (Hcount : forall tag, default 0%nat (counts !! tag) = tag_count tag grades).
  { intros tag. rewrite (count_loop grades ∅ counts tag Hcounts).
    rewrite dict_lookup_empty. reflexivity. }
  split; [exact Hcount |]. split.
  - intros tag. split.
    + intros Hsome.
      destruct (count_loop_keys grades ∅ counts tag Hcounts Hsome) as [Hin | Hpos];
        [| exact Hpos].
      rewrite dict_lookup_empty in Hin. destruct Hin as [? Hin]. discriminate.
    + intros Hpos. rewrite <- Hcount in Hpos.
      destruct (counts !! tag) as [n |]; [eauto | simpl in Hpos; lia].
  - rewrite <- (tag_counts_total grades Hall). f_equal.
    apply map_ext. exact Hcount.
Qed.

Lemma grade_distribution_counts_witness :
  let grades := [1.3; 2.0; 1.3]%float in
  Forall on_scale grades /\
  exists counts : dict nat,
    grade_text_counts grades = Ok counts /\
    (forall tag : string, default 0%nat (counts !! tag) = tag_count tag grades) /\
    (forall tag : string, is_Some (counts !! tag) <-> (0 < tag_count tag grades)%nat) /\
    sum_list (map (fun tag => default 0%nat (counts !! tag)) ALL_GRADE_OPTIONS) =
    length grades.
Proof.
  intros grades.
  assert (H : Forall on_scale grades).
  { repeat constructor; unfold on_scale; simpl; tauto. }
  split; [exact H |].
  exact (grade_distribution_counts grades H).
Defined.

(** ** When two generated ids are equal *)

Lemma string_app_cons (c : ascii) (a b : string) :
  String c a +:+ b = String c (a +:+ b).
Proof. reflexivity. Qed.

Lemma string_app_length (a b : string) :
  String.length (a +:+ b) = (String.length a + String.length b)%nat.
Proof.
  induction a as [| c a IH]; [reflexivity |].
  rewrite string_app_cons. simpl. rewrite IH. reflexivity.
Qed.

Lemma string_app_inj_tail (a a' b b' : string) :
  a +:+ b = a' +:+ b' -> String.length b = String.length b' -> a = a' /\ b = b'.
Proof.
  revert a'. induction a as [| c a IH]; intros [| c' a'] Heq Hlen.
  - split; [reflexivity | exact Heq].
  - exfalso. apply (f_equal String.length) in Heq.
    rewrite !string_app_length in Heq. simpl in Heq. lia.
  - exfalso. apply (f_equal String.length) in Heq.
    rewrite !string_app_length in Heq. simpl in Heq. lia.
  - rewrite !string_app_cons in Heq. injection Heq as -> Heq.
    destruct (IH a' Heq Hlen) as [-> ->]. split; reflexivity.
Qed.

Lemma digits_underscore_split (a a' b b' : string) :
  string_forall is_digit a = true ->
  string_forall is_digit a' = true ->
  a +:+ "_" +:+ b = a' +:+ "_" +:+ b' ->
  a = a' /\ b = b'.
Proof.
  revert a'. induction a as [| c a IH]; intros [| c' a'] Ha Ha' Heq.
  - change (String "_" b = String "_" b') in Heq.
    injection Heq as ->. split; reflexivity.
  - exfalso.
    change (String "_" b = String c' (a' +:+ "_" +:+ b')) in Heq.
    injection Heq as <- _. simpl in Ha'. discriminate.
  - exfalso.
    change (String c (a +:+ "_" +:+ b) = String "_" b') in Heq.
    injection Heq as -> _. simpl in Ha. discriminate.
  - rewrite !string_app_cons in Heq. injection Heq as -> Heq.
    simpl in Ha, Ha'. apply andb_true_iff in Ha as [_ Ha].
    apply andb_true_iff in Ha' as [_ Ha'].
    destruct (IH a' Ha Ha' Heq) as [-> ->]. split; reflexivity.
Qed.

Lemma pretty_N_char_digit (x : N) : is_digit (pretty_N_char x) = true.
Proof. unfold pretty_N_char. repeat case_match; reflexivity. Qed.

Lemma pretty_N_go_digits (x : N) (s : string) :
  string_forall is_digit s = true -> string_forall is_digit (pretty_N_go x s) = true.
Proof.
  revert s. induction (N.lt_wf_0 x) as [x _ IH]; intros s Hs.
  destruct (decide (x = 0%N)) as [-> | Hx].
  - rewrite pretty_N_go_0. exact Hs.
  - rewrite pretty_N_go_step by lia. apply IH.
    + apply N.div_lt; lia.
    + simpl. rewrite pretty_N_char_digit. exact Hs.
Qed.

Lemma pretty_N_digits (x : N) : string_forall is_digit (pretty x) = true.
Proof.
  unfold pretty, pretty_N. destruct (decide (x = 0%N)); [reflexivity |].
  apply pretty_N_go_digits. reflexivity.
Qed.

Lemma below_100_cases (P : N -> Prop) :
  (forall k : nat, (k < 100)%nat -> P (N.of_nat k)) ->
  forall n : N, (n < 100)%N -> P n.
Proof.
  intros HP n Hn. rewrite <- (N2Nat.id n). apply HP. lia.
Qed.

Lemma pad2_length (n : N) : (n < 100)%N -> String.length (pad2 n) = 2%nat.
Proof.
  revert n. apply below_100_cases. intros k Hk.
  assert (Hall : forallb (fun k => Nat.eqb (String.length (pad2 (N.of_nat k))) 2)
                   (seq 0 100) = true) by (vm_compute; reflexivity).
  rewrite forallb_forall in Hall.
  apply Nat.eqb_eq. apply Hall. apply in_seq. lia.
Qed.

Lemma pad2_inj (n m : N) : (n < 100)%N -> (m < 100)%N -> pad2 n = pad2 m -> n = m.
Proof.
  revert n. apply (below_100_cases (fun n => (m < 100)%N -> pad2 n = pad2 m -> n = m)).
  intros i Hi. revert m.
  apply (below_100_cases (fun m => pad2 (N.of_nat i) = pad2 m -> N.of_nat i = m)).
  intros j Hj Heq.
  assert (Hall : forallb (fun i =>
                   forallb (fun j =>
                      negb (String.eqb (pad2 (N.of_nat i)) (pad2 (N.of_nat j))) ||
                      Nat.eqb i j) (seq 0 100)) (seq 0 100) = true)
    by (vm_compute; reflexivity).
  rewrite forallb_forall in Hall.
  assert (Hi' : In i (seq 0 100)) by (apply in_seq; lia).
  specialize (Hall i Hi'). rewrite forallb_forall in Hall.
  assert (Hj' : In j (seq 0 100)) by (apply in_seq; lia).
  specialize (Hall j Hj').
  rewrite Heq, String.eqb_refl in Hall. simpl in Hall.
  apply Nat.eqb_eq in Hall. subst j. reflexivity.
Qed.

Lemma strftime_same_second (t t' : datetime) :
  two_digit_fields t -> two_digit_fields t' ->
  strftime_YmdHMS t = strftime_YmdHMS t' -> same_second t t'.
Proof.
  intros (Hm & Hd & Hh & Hmi & Hs) (Hm' & Hd' & Hh' & Hmi' & Hs').
  unfold strftime_YmdHMS, same_second. intros Heq.
  pose proof (pad2_length _ Hm) as Lm. pose proof (pad2_length _ Hm') as Lm'.
  pose proof (pad2_length _ Hd) as Ld. pose proof (pad2_length _ Hd') as Ld'.
  pose proof (pad2_length _ Hh) as Lh. pose proof (pad2_length _ Hh') as Lh'.
  pose proof (pad2_length _ Hmi) as Lmi. pose proof (pad2_length _ Hmi') as Lmi'.
  pose proof (pad2_length _ Hs) as Ls. pose proof (pad2_length _ Hs') as Ls'.
  apply string_app_inj_tail in Heq as [Hy Heq];
    [| rewrite !string_app_length; lia].
  apply string_app_inj_tail in Heq as [Hmo Heq];
    [| rewrite !string_app_length; lia].
  apply string_app_inj_tail in Heq as [Hda Heq];
    [| rewrite !string_app_length; lia].
  apply string_app_inj_tail in Heq as [Hho Heq];
    [| rewrite !string_app_length; lia].
  apply string_app_inj_tail in Heq as [Hmin Hsec]; [| lia].
  apply pretty_N_inj in Hy.
  apply pad2_inj in Hmo; [| assumption ..].
  apply pad2_inj in Hda; [| assumption ..].
  apply pad2_inj in Hho; [| assumption ..].
  apply pad2_inj in Hmin; [| assumption ..].
  apply pad2_inj in Hsec; [| assumption ..].
  repeat split; assumption.
Qed.

(** X24. When two generated ids are equal.  The ids generated for two
    record sets at two clock readings are equal exactly when the record
    sets hold the same number of students and the two timestamps are the
    same string; and for clock readings with two-digit month, day, hour,
    minute and second the timestamps are the same string exactly when the
    readings agree in year, month, day, hour, minute and second.  Whatever
    the microseconds, one second and one count give one id. *)
Theorem new_student_id_equal_iff :
  (forall (d d' : RecordSet) (now now' : datetime),
     new_student_id d now = new_student_id d' now' <->
     size d = size d' /\ strftime_YmdHMS now = strftime_YmdHMS now') /\
  (forall now now' : datetime,
     two_digit_fields now -> two_digit_fields now' ->
     (strftime_YmdHMS now = strftime_YmdHMS now' <-> same_second now now')).
Proof.
  split.
  - intros d d' now now'. split.
    + unfold new_student_id. intros Heq.
      apply (inj (String.append "schueler_")) in Heq.
      apply digits_underscore_split in Heq as [Hcount Hstamp];
        [| apply pretty_N_digits ..].
      apply pretty_nat_inj in Hcount. split; [lia | exact Hstamp].
    + intros [Hsize Hstamp]. unfold new_student_id. rewrite Hsize, Hstamp. reflexivity.
  - intros now now' Hvalid Hvalid'. split.
    + apply strftime_same_second; assumption.
    + intros (Hy & Hm & Hd & Hh & Hmi & Hs). unfold strftime_YmdHMS.
      rewrite Hy, Hm, Hd, Hh, Hmi, Hs. reflexivity.
Qed.

(** ** Colours and emojis *)


(** The comparisons of floats are those of their decoded values, which
    order by sign, exponent and mantissa. *)
Ltac order_cases :=
  repeat match goal with
    | H : context [(?a ?= ?b)%Z] |- _ => destruct (Z.compare_spec a b)
    | |- context [(?a ?= ?b)%Z] => destruct (Z.compare_spec a b)
    | H : context [Pos.compare_cont Eq ?a ?b] |- _ =>
        change (Pos.compare_cont Eq a b) with (Pos.compare a b) in *;
        destruct (Pos.compare_spec a b)
    | |- context [Pos.compare_cont Eq ?a ?b] =>
        change (Pos.compare_cont Eq a b) with (Pos.compare a b) in *;
        destruct (Pos.compare_spec a b)
    end;
  simpl in *; try discriminate; try reflexivity; try lia.

Lemma SFleb_trans (x y z : spec_float) :
  SFleb x y = true -> SFleb y z = true -> SFleb x z = true.
Proof.
  unfold SFleb, SFcompare.
  destruct x as [sx | sx | | sx mx ex], y as [sy | sy | | sy my ey],
    z as [sz | sz | | sz mz ez];
    repeat match goal with s : bool |- _ => destruct s end;
    intros Hxy Hyz; try discriminate; try reflexivity; order_cases.
Qed.

Lemma SFleb_ltb_trans (x y z : spec_float) :
  SFleb x y = true -> SFltb y z = true -> SFltb x z = true.
Proof.
  unfold SFleb, SFltb, SFcompare.
  destruct x as [sx | sx | | sx mx ex], y as [sy | sy | | sy my ey],
    z as [sz | sz | | sz mz ez];
    repeat match goal with s : bool |- _ => destruct s end;
    intros Hxy Hyz; try discriminate; try reflexivity; order_cases.
Qed.

Lemma SFltb_false_leb (x y z : spec_float) :
  SFleb x y = true -> SFleb z z = true -> SFltb x z = false -> SFleb z x = true.
Proof.
  unfold SFleb, SFltb, SFcompare.
  destruct x as [sx | sx | | sx mx ex], y as [sy | sy | | sy my ey],
    z as [sz | sz | | sz mz ez];
    repeat match goal with s : bool |- _ => destruct s end;
    intros Hxy Hz Hxz; try discriminate; try reflexivity; order_cases.
Qed.

Lemma float_leb_trans (a b c : float) :
  (a <=? b)%float = true -> (b <=? c)%float = true -> (a <=? c)%float = true.
Proof. rewrite !leb_spec. apply SFleb_trans. Qed.

Lemma float_leb_ltb_trans (a b c : float) :
  (a <=? b)%float = true -> (b <? c)%float = true -> (a <? c)%float = true.
Proof. rewrite !leb_spec, !ltb_spec. apply SFleb_ltb_trans. Qed.

Lemma float_ltb_false_leb (a b c : float) :
  (a <=? b)%float = true -> (c <=? c)%float = true ->
  (a <? c)%float = false -> (c <=? a)%float = true.
Proof. rewrite !leb_spec, !ltb_spec. apply SFltb_false_leb. Qed.

(** X25. The emoji follows the average: an undefined average shows "—"; a
    larger (worse) average never shows a better emoji; and on the grade
    scale the emoji depends only on the whole grade, the tags with the same
    first character ("2+", "2", "2-") sharing one emoji. *)
Theorem grade_to_emoji_monotone :
  grade_to_emoji None = "—" /\
  (forall a b : float,
     (a <=? b)%float = true ->
     (index_of (grade_to_emoji (Some a)) emojis_by_rank <=
      index_of (grade_to_emoji (Some b)) emojis_by_rank)%nat) /\
  (forall (tag1 tag2 : string) (d1 d2 : float),
     note_getitem tag1 = Ok d1 -> note_getitem tag2 = Ok d2 ->
     first_char tag1 = first_char tag2 ->
     grade_to_emoji (Some d1) = grade_to_emoji (Some d2)).
Proof.
  split; [reflexivity |]. split.
  - intros a b Hab. unfold grade_to_emoji.
    pose proof (fun c => float_leb_trans a b c Hab) as T.
    destruct (a <=? 1.3)%float eqn:A1.
    { repeat case_match; vm_compute; lia. }
    destruct (b <=? 1.3)%float eqn:B1; [rewrite (T _ B1) in A1; discriminate |].
    destruct (a <=? 2.3)%float eqn:A2.
    { repeat case_match; vm_compute; lia. }
    destruct (b <=? 2.3)%float eqn:B2; [rewrite (T _ B2) in A2; discriminate |].
    destruct (a <=? 3.3)%float eqn:A3.
    { repeat case_match; vm_compute; lia. }
    destruct (b <=? 3.3)%float eqn:B3; [rewrite (T _ B3) in A3; discriminate |].
    destruct (a <=? 4.3)%float eqn:A4.
    { repeat case_match; vm_compute; lia. }
    destruct (b <=? 4.3)%float eqn:B4; [rewrite (T _ B4) in A4; discriminate |].
    vm_compute; lia.
  - intros tag1 tag2 d1 d2 H1 H2 Hfirst.
    apply note_getitem_In in H1. apply note_getitem_In in H2.
    unfold NOTE_TEXT_TO_DECIMAL in H1, H2. cbn [In] in H1, H2.
    repeat (destruct H1 as [[= <- <-] | H1];
            [repeat (destruct H2 as [[= <- <-] | H2];
                     [first [reflexivity | discriminate Hfirst] |]);
             destruct H2 |]).
    destruct H1.
Qed.

(** X26. The colour follows the grade: a larger (worse) decimal never gets
    a better colour of the four (green, yellow, red, grey), and the grey
    style is given to decimals from 6.0 on only. *)
Theorem get_note_color_monotone (a b : float) :
  (a <=? b)%float = true ->
  (index_of (get_note_color a) colors_by_rank <=
   index_of (get_note_color b) colors_by_rank)%nat /\
  (get_note_color a = color_grey <-> (6.0 <=? a)%float = true).
Proof.
  intros Hab. unfold get_note_color.
  pose proof (fun H => float_ltb_false_leb a b 6.0%float Hab eq_refl H) as G.
  pose proof (fun c H => float_leb_ltb_trans 6.0%float a c H) as L.
  split.
  - pose proof (fun c => float_leb_ltb_trans a b c Hab) as T.
    destruct (a <? 2.0)%float eqn:A2.
    { repeat case_match; vm_compute; lia. }
    destruct (b <? 2.0)%float eqn:B2; [rewrite (T _ B2) in A2; discriminate |].
    destruct (a <? 4.0)%float eqn:A4.
    { repeat case_match; vm_compute; lia. }
    destruct (b <? 4.0)%float eqn:B4; [rewrite (T _ B4) in A4; discriminate |].
    destruct (a <? 6.0)%float eqn:A6.
    { repeat case_match; vm_compute; lia. }
    destruct (b <? 6.0)%float eqn:B6; [rewrite (T _ B6) in A6; discriminate |].
    vm_compute; lia.
  - destruct (a <? 2.0)%float eqn:H2.
    { split; [discriminate |]. intros H. specialize (L _ H H2). discriminate. }
    destruct (a <? 4.0)%float eqn:H4.
    { split; [discriminate |]. intros H. specialize (L _ H H4). discriminate. }
    destruct (a <? 6.0)%float eqn:H6.
    { split; [discriminate |]. intros H. specialize (L _ H H6). discriminate. }
    split; [intros _; apply G; reflexivity | reflexivity].
Qed.

Lemma get_note_color_monotone_witness :
  (1.7 <=? 2.0)%float = true /\
  (index_of (get_note_color 1.7%float) colors_by_rank <=
   index_of (get_note_color 2.0%float) colors_by_rank)%nat /\
  (get_note_color 1.7%float = color_grey <-> (6.0 <=? 1.7)%float = true).
Proof.
  assert (H : (1.7 <=? 2.0)%float = true) by reflexivity.
  split; [exact H |].
  exact (get_note_color_monotone 1.7%float 2.0%float H).
Defined.


(** ** The overview page *)









(** ** Every handler makes at most one change and saves it *)

#[local] Arguments new_student_id : simpl never.
#[local] Arguments subject_key_of_input : simpl never.
#[local] Arguments strip : simpl never.

Ltac handler_cases :=
  repeat first
    [ progress run_handler
    | match goal with
      | H : ?d !! ?k = _ |- context [?d !! ?k] => rewrite H
      | H : note_getitem ?t = _ |- context [note_getitem ?t] => rewrite H
      | |- context [decide ?P] => destruct (decide P)
      | |- context [match ?d !! ?k with _ => _ end] => destruct (d !! k) eqn:?
      | |- context [match note_getitem ?t with _ => _ end] =>
          destruct (note_getitem t) eqn:?
      | |- context [match current_text ?g with _ => _ end] =>
          destruct (current_text g) eqn:?
      end ].

Lemma saved_documents_warnings (out after : list event) :
  Forall is_warning out ->
  saved_documents (out ++ after) = saved_documents after.
Proof.
  intros Hw. unfold saved_documents. rewrite omap_app.
  assert (Hnone : omap (fun e => match e with SaveData d => Some d | _ => None end)
                    out = []).
  { induction Hw as [| e l [msg ->] _ IH]; simpl; [reflexivity | exact IH]. }
  rewrite Hnone. reflexivity.
Qed.

Ltac unchanged := left; split; reflexivity.

Ltac changed_subjects :=
  right; left; split; [| reflexivity];
  eapply subjects_changed; [eassumption |].

(** Every handler that can change the record set (new student, rename,
    delete student, add and delete subject, add, edit and delete grade, CSV
    import) either leaves the record set alone and saves nothing, or makes
    exactly one of the listed changes and calls [save_data] exactly once,
    with the changed record set; an import whose rows end in an exception
    keeps what the rows before did and saves nothing. *)
Lemma perform_one_saved_change_shape (a : action) (s : session_state) :
  one_saved_change a s (perform a s).
Proof.
  destruct s as [d sel conf].
  destruct a; unfold perform, one_saved_change.
  - unfold new_student_submit. handler_cases.
    + unchanged.
    + right. left. split; [| reflexivity]. apply student_created.
  - unfold rename_student_click. handler_cases.
    + unchanged.
    + right. left. split; [| reflexivity]. eapply student_renamed; eassumption.
    + unchanged.
  - unfold delete_student_click. handler_cases.
    + right. left. split; [| reflexivity]. eapply student_deleted; eassumption.
    + unchanged.
  - unfold add_subject_click. handler_cases; try unchanged.
    change (subject_key_of_input new_subject)
      with (subject_key_of_fach (strip new_subject)) in *.
    changed_subjects. apply subject_added; assumption.
  - unfold delete_subject_click, set_subjects. handler_cases; try unchanged.
    changed_subjects. eapply subject_removed; eassumption.
  - unfold add_grade_click, append_grade, set_grades, set_subjects.
    handler_cases; try unchanged.
    changed_subjects. eapply subject_grades_changed; [eassumption |].
    apply grade_appended. eapply table_value_on_scale; eassumption.
  - unfold edit_grade_select, grades_of_subject, set_grades, set_subjects.
    handler_cases; try unchanged.
    changed_subjects. eapply subject_grades_changed; [eassumption |].
    apply grade_replaced.
    + eapply lookup_lt_Some; eassumption.
    + eapply table_value_on_scale; eassumption.
  - unfold delete_grade_click, grades_of_subject, set_grades, set_subjects.
    handler_cases; try unchanged.
    changed_subjects. eapply subject_grades_changed; [eassumption |].
    apply grade_removed. eapply lookup_lt_Some; eassumption.
  - rewrite import_click_run. simpl data.
    destruct (rows_run df_import d) as [[r d'] out] eqn:Hrun.
    pose proof (rows_run_warnings _ _ _ _ _ Hrun) as Hw.
    right. simpl data. destruct r as [[] | e].
    + left. split; [eapply rows_imported; exact Hrun |].
      rewrite saved_documents_warnings by exact Hw. reflexivity.
    + right. split; [eapply rows_imported; exact Hrun |].
      split; [rewrite saved_documents_warnings by exact Hw; reflexivity |].
      simpl. rewrite Hrun. exists e. reflexivity.
Qed.

(** ** Invariants of the record set *)

Lemma dict_all_insert {V : Type} (P : string -> V -> Prop) (d : dict V)
    (k0 : string) (v0 : V) :
  P k0 v0 ->
  (forall (k : string) (v : V), d !! k = Some v -> P k v) ->
  forall (k : string) (v : V), <[k0 := v0]> d !! k = Some v -> P k v.
Proof.
  intros H0 Hd k v. destruct (decide (k = k0)) as [-> | Hne].
  - rewrite dict_lookup_insert_eq. intros [= <-]. exact H0.
  - rewrite dict_lookup_insert_ne by congruence. apply Hd.
Qed.

Lemma dict_all_delete {V : Type} (P : string -> V -> Prop) (d : dict V) (k0 : string) :
  (forall (k : string) (v : V), d !! k = Some v -> P k v) ->
  forall (k : string) (v : V), delete k0 d !! k = Some v -> P k v.
Proof.
  intros Hd k v. destruct (decide (k = k0)) as [-> | Hne].
  - rewrite dict_lookup_delete_eq. discriminate.
  - rewrite dict_lookup_delete_ne by congruence. apply Hd.
Qed.

Lemma dict_all_empty {V : Type} (P : string -> V -> Prop) :
  forall (k : string) (v : V), (∅ : dict V) !! k = Some v -> P k v.
Proof. intros k v. rewrite dict_lookup_empty. discriminate. Qed.

Section Invariant.
Context (P : string -> Subject -> Prop).

Lemma all_subjects_insert (name class : pyval) (subjects : dict Subject)
    (key : string) (subj : Subject) :
  P key subj ->
  student_all P (mkStudent name class subjects) ->
  student_all P (mkStudent name class (<[key := subj]> subjects)).
Proof.
  intros H0 Hs k v. simpl. exact (dict_all_insert P subjects key subj H0 Hs k v).
Qed.

Lemma all_subjects_delete (name class : pyval) (subjects : dict Subject) (key : string) :
  student_all P (mkStudent name class subjects) ->
  student_all P (mkStudent name class (delete key subjects)).
Proof.
  intros Hs k v. simpl. exact (dict_all_delete P subjects key Hs k v).
Qed.

Lemma all_subjects_empty (name class : pyval) : student_all P (mkStudent name class ∅).
Proof. intros key subj. simpl. rewrite dict_lookup_empty. discriminate. Qed.

Lemma all_students_insert (d : RecordSet) (sid : string) (student : Student) :
  student_all P student -> record_set_all P d -> record_set_all P (<[sid := student]> d).
Proof.
  intros H0 Hd k v. exact (dict_all_insert (fun _ v => student_all P v) d sid student H0 Hd k v).
Qed.

Lemma all_students_delete (d : RecordSet) (sid : string) :
  record_set_all P d -> record_set_all P (delete sid d).
Proof.
  intros Hd k v. exact (dict_all_delete (fun _ v => student_all P v) d sid Hd k v).
Qed.

Lemma all_row_outcome (row : Row) (d : RecordSet) :
  (forall fach : string, P (subject_key_of_fach fach) (mkSubject fach (row_grade row))) ->
  (forall (key : string) (subj : Subject),
     P key subj -> P key (mkSubject (subj_name subj) (subj_grades subj ++ row_grade row))) ->
  record_set_all P d -> record_set_all P (row_outcome row d).
Proof.
  intros Hnew Hold Hd. unfold row_outcome.
  destruct (row_student row d) as [[sid student] |] eqn:Hrow; [| exact Hd].
  assert (Hstudent : student_all P student).
  { destruct (row_student_cases row d sid student Hrow)
      as [_ [Hin | (_ & name & _ & ->)]].
    - exact (Hd _ _ Hin).
    - apply all_subjects_empty. }
  destruct (row_subject row) as [fach |].
  - apply all_students_insert; [| exact Hd].
    apply all_subjects_insert.
    + destruct (stud_subjects student !! subject_key_of_fach fach) as [subj |] eqn:Hkey;
        simpl; [apply Hold; exact (Hstudent _ _ Hkey) | apply Hnew].
    + destruct student; exact Hstudent.
  - apply all_students_insert; assumption.
Qed.

Lemma all_change (d d' : RecordSet) :
  (forall (row : Row) (fach : string),
     P (subject_key_of_fach fach) (mkSubject fach (row_grade row))) ->
  (forall (row : Row) (key : string) (subj : Subject),
     P key subj -> P key (mkSubject (subj_name subj) (subj_grades subj ++ row_grade row))) ->
  (forall name : string, P (subject_key_of_fach name) (mkSubject name [])) ->
  (forall (key : string) (subj : Subject) (grades : list float),
     P key subj -> grades_change (subj_grades subj) grades ->
     P key (mkSubject (subj_name subj) grades)) ->
  change d d' -> record_set_all P d -> record_set_all P d'.
Proof.
  intros Hnew Hold Hadded Hgrades Hch Hd.
  destruct Hch as [new_id name class | sid name class student Hsid
                   | sid student Hsid | sid student subjects Hsid Hsub
                   | rows r d' out Hrun].
  - apply all_students_insert; [apply all_subjects_empty | exact Hd].
  - apply all_students_insert; [| exact Hd].
    intros key subj. simpl. apply (Hd _ _ Hsid).
  - apply all_students_delete. exact Hd.
  - apply all_students_insert; [| exact Hd].
    pose proof (Hd _ _ Hsid) as Hstudent.
    assert (Hstudent' : student_all P (mkStudent (stud_name student) (stud_class student)
                                       (stud_subjects student)))
      by (destruct student; exact Hstudent).
    destruct Hsub as [name Hfree | key subj Hkey | key subj grades Hkey Hgr].
    + apply all_subjects_insert; [apply Hadded | exact Hstudent'].
    + apply all_subjects_delete. exact Hstudent'.
    + apply all_subjects_insert; [| exact Hstudent'].
      apply Hgrades; [exact (Hstudent _ _ Hkey) | exact Hgr].
  - revert Hrun Hd. generalize d' r out. clear d' r out. revert d.
    induction rows as [| row rows IH]; intros d d' r out; simpl.
    + intros [= _ <- _] Hd. exact Hd.
    + destruct (row_exception row d) as [e |].
      * intros [= _ <- _] Hd. apply all_row_outcome; [apply Hnew | apply Hold | exact Hd].
      * destruct (rows_run rows (row_outcome row d)) as [[r1 d1] out1] eqn:Hrun.
        intros [= _ <- _] Hd. eapply IH; [exact Hrun |].
        apply all_row_outcome; [apply Hnew | apply Hold | exact Hd].
Qed.
End Invariant.

Lemma row_grade_on_scale (row : Row) : Forall on_scale (row_grade row).
Proof.
  unfold row_grade.
  destruct (row_note_text row) as [[tag | | |] |]; try constructor.
  destruct (table_get NOTE_TEXT_TO_DECIMAL tag) as [v |] eqn:Hget;
    constructor; [| constructor].
  apply (table_value_on_scale tag).
  unfold note_getitem. rewrite Hget. reflexivity.
Qed.

Lemma grades_change_on_scale (grades grades' : list float) :
  grades_change grades grades' -> Forall on_scale grades -> Forall on_scale grades'.
Proof.
  intros [v Hv | i v Hi Hv | i Hi] Hall.
  - apply Forall_app. split; [exact Hall | constructor; [exact Hv | constructor]].
  - apply Forall_insert; assumption.
  - apply Forall_delete. exact Hall.
Qed.

Lemma change_on_scale (d d' : RecordSet) :
  change d d' -> grades_on_scale d -> grades_on_scale d'.
Proof.
  intros Hch Hd.
  refine (all_change (fun _ subj => Forall on_scale (subj_grades subj)) d d'
            _ _ _ _ Hch Hd).
  - intros row fach. simpl. apply row_grade_on_scale.
  - intros row key subj Hsubj. simpl. apply Forall_app.
    split; [exact Hsubj | apply row_grade_on_scale].
  - intros name. constructor.
  - intros key subj grades Hsubj Hgr. simpl.
    eapply grades_change_on_scale; eassumption.
Qed.

Lemma change_keys (d d' : RecordSet) :
  change d d' -> keys_normalized d -> keys_normalized d'.
Proof.
  intros Hch Hd.
  refine (all_change (fun key subj => key = subject_key_of_fach (subj_name subj)) d d'
            _ _ _ _ Hch Hd).
  - intros row fach. reflexivity.
  - intros row key subj Hsubj. exact Hsubj.
  - intros name. reflexivity.
  - intros key subj grades Hsubj _. exact Hsubj.
Qed.

Lemma perform_data (a : action) (s : session_state) :
  data (state_after (perform a) s) = data s \/
  change (data s) (data (state_after (perform a) s)).
Proof.
  pose proof (perform_one_saved_change_shape a s) as H.
  unfold one_saved_change, state_after in *.
  destruct (perform a s) as [[r s'] out]. simpl.
  destruct H as [[H _] | [[H _] | [H _]]]; [left | right | right]; exact H.
Qed.

(** X1. Over a whole session of actions (new student, rename, delete
    student, add and delete subject, add, edit and delete grade, CSV
    import), whatever their inputs, in which no import ends in an
    exception: the record set last passed to [save_data] is the record set
    in memory at the end, and when nothing was saved the record set in
    memory is still the initial one.  (An import that ends in an exception
    keeps in memory what its rows did before and saves nothing.) *)
Theorem document_follows_memory (actions : list action) (s : session_state) :
  imports_end_normally actions s ->
  match last (saved_documents (session_log actions s)) with
  | Some document => document = data (run_actions actions s)
  | None => data (run_actions actions s) = data s
  end.
Proof.
  revert s. induction actions as [| a rest IH]; intros s Himports; [reflexivity |].
  cbn [session_log run_actions imports_end_normally] in *.
  destruct Himports as [Hnormal Himports].
  specialize (IH (state_after (perform a) s) Himports).
  pose proof (perform_one_saved_change_shape a s) as Hstep.
  unfold one_saved_change, state_after in *.
  destruct (perform a s) as [[r s1] out]. cbn [fst snd] in *.
  unfold saved_documents in *. rewrite omap_app, last_app.
  destruct (last (omap _ (session_log rest s1))) as [document |].
  - exact IH.
  - destruct Hstep as [[Hsame ->] | [[_ ->] | (_ & _ & Hfails)]]; simpl.
    + congruence.
    + symmetry. exact IH.
    + contradiction.
Qed.

(** X2. The handlers keep the stored grades on the scale: from a record
    set whose grades are all values of the grade table, every sequence of
    actions leads to such a record set again.  No handler can store another
    decimal. *)
Theorem grades_stay_on_scale (actions : list action) (s : session_state) :
  grades_on_scale (data s) ->
  grades_on_scale (data (run_actions actions s)).
Proof.
  revert s. induction actions as [| a rest IH]; intros s Hs; [exact Hs |].
  cbn [run_actions]. apply IH.
  destruct (perform_data a s) as [Hsame | Hchange].
  - rewrite Hsame. exact Hs.
  - eapply change_on_scale; eassumption.
Qed.

(** X3. The handlers keep every subject filed under the normalised key of
    its display name (lower case, spaces as underscores): from a record set
    with this property every sequence of actions leads to such a record set
    again, so two subjects of a student never share a display name. *)
Theorem keys_stay_normalized (actions : list action) (s : session_state) :
  keys_normalized (data s) ->
  keys_normalized (data (run_actions actions s)) /\
  forall (sid key1 key2 : string) (student : Student) (subj1 subj2 : Subject),
    data (run_actions actions s) !! sid = Some student ->
    stud_subjects student !! key1 = Some subj1 ->
    stud_subjects student !! key2 = Some subj2 ->
    subj_name subj1 = subj_name subj2 ->
    key1 = key2.
Proof.
  intros Hs.
  assert (Hfinal : keys_normalized (data (run_actions actions s))).
  { revert s Hs. induction actions as [| a rest IH]; intros s Hs; [exact Hs |].
    cbn [run_actions]. apply IH.
    destruct (perform_data a s) as [Hsame | Hchange].
    - rewrite Hsame. exact Hs.
    - eapply change_keys; eassumption. }
  split; [exact Hfinal |].
  intros sid key1 key2 student subj1 subj2 Hsid H1 H2 Hname.
  pose proof (Hfinal _ _ Hsid) as Hstudent.
  rewrite (Hstudent _ _ H1), (Hstudent _ _ H2), Hname. reflexivity.
Qed.

(** ** Order of the grades, and the subject keys *)





End Script.

(** ** The properties above at concrete inputs

    [str.lower] is taken on ASCII text and [repr] on whole numbers. *)

Lemma import_skips_unknown_tag_witness :
  let bad := mkRow (Some (PyStr "s1")) (Some (PyStr "Anna")) (Some (PyStr "7a"))
               (Some (PyStr "Mathe")) (Some (PyInt 2)) in
  let good := mkRow (Some (PyStr "s1")) (Some (PyStr "Anna")) (Some (PyStr "7a"))
                (Some (PyStr "Mathe")) (Some (PyStr "2")) in
  let s := mkSession ∅ None None in
  row_id bad = Some (PyStr "s1") /\
  (is_Some (data s !! py_str repr_whole (PyStr "s1")) \/ is_Some (row_name bad)) /\
  row_fach bad = Some (PyStr "Mathe") /\
  row_note_text bad = Some (PyInt 2) /\
  (forall t : string, PyInt 2 = PyStr t -> ~ In t ALL_GRADE_OPTIONS) /\
  exists (s1 s2 : session_state) (r : result unit) (out : list event),
    import_row lower_ascii repr_whole bad s =
      (Ok tt, s1, [Warning "Ungültige Note übersprungen: 2"]) /\
    (forall sid key : string, grades_at (data s1) sid key = grades_at (data s) sid key) /\
    import_rows lower_ascii repr_whole [good] s1 = (r, s2, out) /\
    import_rows lower_ascii repr_whole [bad; good] s =
      (r, s2, Warning "Ungültige Note übersprungen: 2" :: out).
Proof.
  intros bad good s.
  assert (H1 : row_id bad = Some (PyStr "s1")) by reflexivity.
  assert (H2 : is_Some (data s !! py_str repr_whole (PyStr "s1")) \/
               is_Some (row_name bad)) by (right; eexists; reflexivity).
  assert (H3 : row_fach bad = Some (PyStr "Mathe")) by reflexivity.
  assert (H4 : row_note_text bad = Some (PyInt 2)) by reflexivity.
  assert (H5 : forall t : string, PyInt 2 = PyStr t -> ~ In t ALL_GRADE_OPTIONS)
    by (intros t H; discriminate H).
  split; [exact H1 |]. split; [exact H2 |]. split; [exact H3 |].
  split; [exact H4 |]. split; [exact H5 |].
  destruct (import_skips_unknown_tag lower_ascii repr_whole bad [good] s
              (PyStr "s1") (PyInt 2) "Mathe" H1 H2 H3 H4 H5)
    as (s1 & s2 & r & out & Hrow & Hgrades & Hrest & Hall & _).
  exists s1, s2, r, out.
  split; [exact Hrow |]. split; [exact Hgrades |]. split; [exact Hrest | exact Hall].
Defined.


Lemma add_existing_subject_unchanged_witness :
  let existing := mkSubject "Mathe" [1.3; 2.0]%float in
  let student := mkStudent (PyStr "Anna") (PyStr "7a") {[ "mathe" := existing ]} in
  let s := mkSession {[ "s1" := student ]} (Some "s1") None in
  strip " MATHE " <> EmptyString /\
  data s !! "s1" = Some student /\
  stud_subjects student !! subject_key_of_input lower_ascii " MATHE " = Some existing /\
  add_subject_click lower_ascii "s1" " MATHE " s =
    (Ok tt, s, [Warning "Fach existiert bereits"; Rerun]).
Proof.
  intros existing student s.
  assert (H1 : strip " MATHE " <> EmptyString) by (vm_compute; discriminate).
  assert (H2 : data s !! "s1" = Some student) by reflexivity.
  assert (H3 : stud_subjects student !! subject_key_of_input lower_ascii " MATHE " =
               Some existing) by reflexivity.
  split; [exact H1 |]. split; [exact H2 |]. split; [exact H3 |].
  exact (add_existing_subject_unchanged lower_ascii "s1" " MATHE " student existing s
           H1 H2 H3).
Defined.

Lemma add_subject_creates_empty_witness :
  let student := mkStudent (PyStr "Anna") (PyStr "7a")
                   {[ "mathe" := mkSubject "Mathe" [1.3; 2.0]%float ]} in
  let s := mkSession {[ "s1" := student ]} (Some "s1") None in
  strip " Bio Chemie " <> EmptyString /\
  data s !! "s1" = Some student /\
  stud_subjects student !! subject_key_of_input lower_ascii " Bio Chemie " = None /\
  exists student' : Student,
    stud_subjects student' !! "bio_chemie" = Some (mkSubject "Bio Chemie" []) /\
    dict_keys (stud_subjects student') = ["mathe"; "bio_chemie"] /\
    calculate_student_average (stud_subjects student') =
    calculate_student_average (stud_subjects student).
Proof.
  intros student s.
  assert (H1 : strip " Bio Chemie " <> EmptyString) by (vm_compute; discriminate).
  assert (H2 : data s !! "s1" = Some student) by reflexivity.
  assert (H3 : stud_subjects student !! subject_key_of_input lower_ascii " Bio Chemie " =
               None) by reflexivity.
  split; [exact H1 |]. split; [exact H2 |]. split; [exact H3 |].
  destruct (add_subject_creates_empty lower_ascii "s1" " Bio Chemie " student s H1 H2 H3)
    as (student' & _ & _ & _ & Hnew & _ & Hkeys & Havg).
  exists student'. split; [exact Hnew |]. split; [exact Hkeys | exact Havg].
Defined.

Lemma document_follows_memory_witness :
  let s := mkSession ∅ None None in
  imports_end_normally lower_ascii repr_whole sample_session s /\
  match last (saved_documents (session_log lower_ascii repr_whole sample_session s)) with
  | Some document => document = data (run_actions lower_ascii repr_whole sample_session s)
  | None => data (run_actions lower_ascii repr_whole sample_session s) = data s
  end.
Proof.
  intros s.
  assert (H : imports_end_normally lower_ascii repr_whole sample_session s).
  { repeat split; try (intros []; fail).
    intros [e He]. vm_compute in He. discriminate He. }
  split; [exact H |].
  exact (document_follows_memory lower_ascii repr_whole sample_session s H).
Defined.

Lemma grades_stay_on_scale_witness :
  let s := mkSession ∅ None None in
  grades_on_scale (data s) /\
  grades_on_scale (data (run_actions lower_ascii repr_whole sample_session s)).
Proof.
  intros s.
  assert (H : grades_on_scale (data s)).
  { intros sid student Hsid. vm_compute in Hsid. discriminate Hsid. }
  split; [exact H |].
  exact (grades_stay_on_scale lower_ascii repr_whole sample_session s H).
Defined.

Lemma keys_stay_normalized_witness :
  let s := mkSession ∅ None None in
  keys_normalized lower_ascii (data s) /\
  keys_normalized lower_ascii (data (run_actions lower_ascii repr_whole sample_session s)).
Proof.
  intros s.
  assert (H : keys_normalized lower_ascii (data s)).
  { intros sid student Hsid. vm_compute in Hsid. discriminate Hsid. }
  split; [exact H |].
  exact (proj1 (keys_stay_normalized lower_ascii repr_whole sample_session s H)).
Defined.

(** ** Worked values *)

Example round_examples :
  py_round 0.125 2 = 0.12%float /\ py_round 0.375 2 = 0.38%float /\
  py_round 2.675 2 = 2.67%float /\ py_round (-0.335) 2 = (-0.34)%float.
Proof. repeat split; vm_compute; reflexivity. Qed.

Example subject_average_examples :
  calculate_subject_average [] = None /\
  calculate_subject_average [1.0; 2.0; 3.0]%float = Some 2.0%float /\
  calculate_subject_average [0.7; 0.7; 0.7; 1.0]%float = Some 0.77%float /\
  calculate_subject_average [0.7; 0.7; 0.7; 2.0]%float = Some 1.02%float /\
  calculate_subject_average [2.0; 0.7; 0.7; 0.7]%float = Some 1.03%float /\
  calculate_subject_average [1e308; 1e308]%float = Some infinity.
Proof. repeat split; vm_compute; reflexivity. Qed.

Example student_average_examples :
  calculate_student_average
    (dict_of_items [("a", mkSubject "A" [1.3; 2.0]%float);
                    ("b", mkSubject "B" [3.0]%float)]) = Some 2.33%float /\
  calculate_student_average
    (dict_of_items [("a", mkSubject "A" [1.0; 2.0]%float);
                    ("b", mkSubject "B" [])]) = Some 1.5%float /\
  calculate_student_average
    (dict_of_items [("a", mkSubject "A" []); ("b", mkSubject "B" [])]) = None.
Proof. repeat split; vm_compute; reflexivity. Qed.

(** A class of two students with the averages 1.65 and 3.0. *)
Example class_average_example :
  class_total_avg
    [mkStudent (PyStr "Anna") (PyStr "7a")
       (dict_of_items [("a", mkSubject "A" [1.3; 2.0]%float)]);
     mkStudent (PyStr "Ben") (PyStr "7a")
       (dict_of_items [("a", mkSubject "A" [3.0]%float)]);
     mkStudent (PyStr "Cem") (PyStr "7a") ∅] = Some 2.33%float.
Proof. vm_compute. reflexivity. Qed.

(** A no-break space (U+00A0, the bytes 194 and 160) is white space. *)
Example strip_examples :
  strip "  Anna Lena  " = "Anna Lena" /\
  strip (String (ascii_of_nat 194) (String (ascii_of_nat 160) "Anna")) = "Anna" /\
  strip (String (ascii_of_nat 194) (String (ascii_of_nat 160) " ")) = "" /\
  whitespace_only (String (ascii_of_nat 194) (String (ascii_of_nat 160) " ")) = true.
Proof. repeat split; vm_compute; reflexivity. Qed.

(** A frame without the column "Fach": the first row creates its student
    and ends the import; nothing is saved. *)
Example import_without_subject_column :
  let row := mkRow (Some (PyStr "s1")) (Some (PyStr "Anna")) (Some (PyStr "7a"))
               None (Some (PyStr "2")) in
  let s := mkSession ∅ None None in
  import_click lower_ascii repr_whole [row; row] s =
    (Ok tt,
     with_data s (dict_of_items [("s1", mkStudent (PyStr "Anna") (PyStr "7a") ∅)]),
     [Error "Fehler beim Einlesen der CSV: 'Fach'"]).
Proof. vm_compute. reflexivity. Qed.

(** A column of whole grades arrives as integers: every row is skipped
    with a warning, the subject is created without grades, and the result
    is saved. *)
Example import_whole_number_tag :
  let row := mkRow (Some (PyInt 7)) (Some (PyStr "Anna")) (Some (PyStr "7a"))
               (Some (PyStr "Mathe")) (Some (PyInt 2)) in
  let s := mkSession ∅ None None in
  let d' := dict_of_items
              [("7", mkStudent (PyStr "Anna") (PyStr "7a")
                       (dict_of_items [("mathe", mkSubject "Mathe" [])]))] in
  import_click lower_ascii repr_whole [row] s =
    (Ok tt, with_data s d',
     [Warning "Ungültige Note übersprungen: 2"; SaveData d';
      Success "Import abgeschlossen!"; Rerun]).
Proof. vm_compute. reflexivity. Qed.

(** A subject cell that is not text ends the import. *)
Example import_number_as_subject :
  let row := mkRow (Some (PyStr "s1")) (Some (PyStr "Anna")) None
               (Some (PyInt 5)) (Some (PyStr "2")) in
  let s := mkSession ∅ None None in
  import_click lower_ascii repr_whole [row] s =
    (Ok tt,
     with_data s (dict_of_items [("s1", mkStudent (PyStr "Anna") (PyStr "") ∅)]),
     [Error "Fehler beim Einlesen der CSV: 'int' object has no attribute 'lower'"]).
Proof. vm_compute. reflexivity. Qed.

Example reverse_lookup_examples :
  current_text 2.3%float = Ok "2-" /\
  current_text 2.5%float = Raise IndexError /\
  grade_table_tag 2.3%float = Ok "2-" /\
  grade_table_tag 2.5%float = Raise ValueError.
Proof. repeat split; vm_compute; reflexivity. Qed.

Example id_examples :
  new_student_id ∅ (mkDatetime 2026 11 3 9 5 7 0) = "schueler_1_20261103090507".
Proof. vm_compute. reflexivity. Qed.
